(** * PC-Technician-Booking: slot availability, date disablement and
      SMS notification dispatch

    A shallow embedding of the booking form ([App.tsx]) and of the SMS
    sender ([lib/twilioSender.ts]), then of the admin screen
    ([components/AdminView.tsx]), of the [send-sms] edge function and of
    the triggers of the bookings table, followed by the properties the
    specification states about them and by further properties of the
    code.

    Conventions of the embedding:
    - a JavaScript number that holds an integer is a [Z] (all the numbers
      of the program are integers, far inside the range where doubles are
      exact); [NaN] and [undefined] results of [Number(...)] are [None];
    - a [Date] is its time value, the milliseconds since the epoch, as a
      [Z]; an Invalid Date is [None];
    - the local time zone is a fixed offset [tz] (milliseconds, local minus
      UTC); daylight-saving transitions are not modelled;
    - strings are [string]; only ASCII characters matter to the code that
      is modelled (digits, [:], [+], [-]). *)

From Stdlib Require Import ZArith List String Ascii Bool Lia Permutation Sorted.
From Stdlib Require Import DecimalString DecimalZ DecimalN.
From Equations Require Import Equations.
Import ListNotations.

#[local] Open Scope string_scope.
#[local] Open Scope Z_scope.

(* ===================================================================== *)
(** ** The JavaScript runtime functions the program calls *)
(* ===================================================================== *)

Module Js.

(** [String(n)] for an integer [n]. *)
Definition toString (n : Z) : string :=
  NilZero.string_of_int (Z.to_int n).

(** [s.padStart(2, '0')]. *)
Definition padStart2 (s : string) : string :=
  match s with
  | EmptyString => "00"
  | String c EmptyString => String "0" (String c EmptyString)
  | _ => s
  end.

(** [Number(s)] on the strings the program can build: the empty string
    is [0], an optionally signed run of decimal digits is its value, and
    anything else is [NaN] ([None]).  (Number also accepts white space,
    fractions, exponents and radix prefixes; no string built by the
    program has them.) *)
Definition digitsValue (s : string) : option Z :=
  option_map Z.of_uint (NilZero.uint_of_string s).

Definition Number (s : string) : option Z :=
  match s with
  | EmptyString => Some 0
  | String c s' =>
      if Ascii.eqb c "+" then digitsValue s'
      else if Ascii.eqb c "-" then option_map Z.opp (digitsValue s')
      else digitsValue s
  end.

(** [s.split(':')]: the pieces of [s] between colons, never empty as a
    list. *)
Fixpoint splitColon (s : string) : list string :=
  match s with
  | EmptyString => [EmptyString]
  | String c s' =>
      if Ascii.eqb c ":" then EmptyString :: splitColon s'
      else match splitColon s' with
           | piece :: rest => String c piece :: rest
           | [] => [String c EmptyString]
           end
  end.

(** [const [a, b] = s.split(':').map(Number)]: a missing component is
    [undefined], here [None] like [NaN], as every use of the components
    is arithmetic. *)
Definition splitHM (s : string) : option Z * option Z :=
  let parts := map Number (splitColon s) in
  (nth 0 parts None, nth 1 parts None).

(** The class [\d]: the characters [0] to [9]. *)
Definition isDigit (c : ascii) : bool :=
  let n := nat_of_ascii c in (48 <=? n)%nat && (n <=? 57)%nat.

(** [s.replace(/\D/g, '')]: every character outside [0-9] removed. *)
Fixpoint removeNonDigits (s : string) : string :=
  match s with
  | EmptyString => EmptyString
  | String c s' =>
      if isDigit c then String c (removeNonDigits s') else removeNonDigits s'
  end.

(** [s.startsWith('+')]. *)
Definition startsWithPlus (s : string) : bool :=
  match s with
  | String c _ => Ascii.eqb c "+"
  | EmptyString => false
  end.

(** [s.slice(0, 8)]. *)
Definition slice8 (s : string) : string := substring 0 8 s.

(** *** Exceptions *)

(** What a [catch] clause can receive: an [Error] object with its
    [message], or any other thrown value. *)
Inductive Thrown : Type :=
| ErrorObject (message : string)
| OtherValue.

(** How the evaluation of an expression ends. *)
Inductive Completion (A : Type) : Type :=
| Normal (a : A)
| Throws (e : Thrown).
Arguments Normal {A} a.
Arguments Throws {A} e.

(** [a || b] on texts: the empty string and [undefined] are falsy. *)
Definition orElse (a : option string) (b : string) : string :=
  match a with
  | Some EmptyString | None => b
  | Some s => s
  end.

(** *** Date *)

Definition msPerMinute : Z := 60000.
Definition msPerHour : Z := 3600000.
Definition msPerDay : Z := 86400000.

(** Year, month (1..12) and day of the month of a day number in the
    proleptic Gregorian calendar. *)
Definition civilFromDays (z : Z) : Z * Z * Z :=
  let z := z + 719468 in
  let era := z / 146097 in
  let doe := z - era * 146097 in
  let yoe := (doe - doe / 1460 + doe / 36524 - doe / 146096) / 365 in
  let doy := doe - (365 * yoe + yoe / 4 - yoe / 100) in
  let mp := (5 * doy + 2) / 153 in
  let d := doy - (153 * mp + 2) / 5 + 1 in
  let m := if mp <? 10 then mp + 3 else mp - 9 in
  let y := yoe + era * 400 + (if m <=? 2 then 1 else 0) in
  (y, m, d).

Section Date.
(** Local time minus UTC, in milliseconds. *)
Variable tz : Z.

Definition localTime (t : Z) : Z := t + tz.
Definition utc (t : Z) : Z := t - tz.

(** Day number of a time value (days since the epoch). *)
Definition day (t : Z) : Z := t / msPerDay.

(** [d.setHours(h, m, s, ms)]: the local calendar day of [d] at the
    given time of day; values outside their usual ranges carry into
    the neighbouring days. *)
Definition setHours (d : Z) (h m s ms : Z) : Z :=
  utc (day (localTime d) * msPerDay
       + h * msPerHour + m * msPerMinute + s * 1000 + ms).

(** [d.setHours(h, m, 0, 0)] when [h] or [m] may be [NaN]: the result
    is then an Invalid Date. *)
Definition setHoursNum (d : Z) (h m : option Z) : option Z :=
  match h, m with
  | Some h, Some m => Some (setHours d h m 0 0)
  | _, _ => None
  end.

(** [d.getDay()]: 0 is Sunday; the epoch was a Thursday. *)
Definition getDay (d : Z) : Z := (day (localTime d) + 4) mod 7.

Definition getFullYear (d : Z) : Z :=
  let '(y, _, _) := civilFromDays (day (localTime d)) in y.
(** [d.getMonth()]: 0 is January. *)
Definition getMonth (d : Z) : Z :=
  let '(_, m, _) := civilFromDays (day (localTime d)) in m - 1.
Definition getDate (d : Z) : Z :=
  let '(_, _, dd) := civilFromDays (day (localTime d)) in dd.
End Date.

End Js.

(* ===================================================================== *)
(** ** [lib/twilioSender.ts]: the notification sender *)
(* ===================================================================== *)

Module TwilioSender.
Import Js.

(** The body passed to [supabase.functions.invoke('send-sms', ...)]. *)
Record Request : Type := mkRequest {
  req_phone : string;
  req_message : string
}.

(** The JSON body the [send-sms] edge function answers with.  Its texts
    are texts in every response the function builds; [success] and
    [messageId] are only tested for truthiness. *)
Record ResponseData : Type := mkResponseData {
  data_error : option string;
  data_details : option string;
  data_success : option bool;
  data_messageId : option string
}.

(** The [error] of an invocation: only its [message] is read. *)
Record FunctionsError : Type := mkFunctionsError {
  error_message : option string
}.

(** The [{ data, error }] an invocation resolves to; [None] is [null]. *)
Record InvokeResult : Type := mkInvokeResult {
  data : option ResponseData;
  error : option FunctionsError
}.

(** The value [sendSMS] resolves to: [{ success, error? }]. *)
Record SmsResult : Type := mkSmsResult {
  success : bool;
  sms_error : option string
}.

Definition truthyText (s : option string) : bool :=
  match s with
  | Some EmptyString | None => false
  | Some _ => true
  end.

Definition truthyBool (b : option bool) : bool :=
  match b with
  | Some true => true
  | _ => false
  end.

(** [data?.f]: [undefined] when [data] is [null]. *)
Definition field {A : Type} (f : ResponseData -> option A)
    (d : option ResponseData) : option A :=
  match d with
  | Some r => f r
  | None => None
  end.

(** Lines 2-5 of the [try] block: the phone number that is sent. *)
Definition formatPhone (phone : string) : string :=
  let formattedPhone := removeNonDigits phone in
  if negb (startsWithPlus formattedPhone)
  then "+" ++ formattedPhone
  else formattedPhone.

Definition smsRequest (phone message : string) : Request :=
  {| req_phone := formatPhone phone; req_message := message |}.

(** What the [try] block does with the resolved [{ data, error }]. *)
Definition interpret (r : InvokeResult) : SmsResult :=
  match error r with
  | Some e =>
      {| success := false;
         sms_error := Some (orElse (error_message e)
           "Failed to invoke SMS function. Make sure the Edge Function is deployed.") |}
  | None =>
      if truthyText (field data_error (data r)) then
        {| success := false;
           sms_error := Some (orElse (field data_details (data r))
                               (orElse (field data_error (data r))
                                  "Failed to send SMS")) |}
      else if truthyBool (field data_success (data r))
              || truthyText (field data_messageId (data r)) then
        {| success := true; sms_error := None |}
      else
        {| success := false;
           sms_error := Some "Unexpected response from SMS service" |}
  end.

(** [sendSMS]; [invoke] is the edge-function call, which may resolve or
    throw. *)
Definition sendSMS (invoke : Request -> Completion InvokeResult)
    (phone message : string) : Completion SmsResult :=
  match invoke (smsRequest phone message) with
  | Normal r => Normal (interpret r)
  | Throws e =>
      (* catch (error) *)
      Normal {| success := false;
                sms_error := Some (match e with
                                   | ErrorObject m => m
                                   | OtherValue => "Unknown error occurred"
                                   end) |}
  end.

End TwilioSender.

(* ===================================================================== *)
(** ** [App.tsx]: the booking form *)
(* ===================================================================== *)

Module App.

(** *** [generateTimeSlots] *)

(** The text pushed for one value of the loop variable:
    [`${String(hours).padStart(2, '0')}:${String(mins).padStart(2, '0')}`]
    with [hours = Math.floor(minutes / 60)] and [mins = minutes % 60]. *)
Definition slotText (minutes : Z) : string :=
  let hours := minutes / 60 in
  let mins := Z.rem minutes 60 in
  Js.padStart2 (Js.toString hours) ++ ":" ++ Js.padStart2 (Js.toString mins).

(** [for (let minutes = startMinutes; minutes <= endMinutes; minutes += 60)]:
    the slots pushed from the current value of [minutes] on. *)
Equations? slotLoop (endMinutes minutes : Z) : list string
  by wf (Z.to_nat (endMinutes + 1 - minutes)) lt :=
  slotLoop endMinutes minutes with Z_le_dec minutes endMinutes := {
    | left _ => slotText minutes :: slotLoop endMinutes (minutes + 60)
    | right _ => [] }.
Proof. lia. Qed.

(** [startHour * 60 + startMinute] of a ["HH:mm"] text; [None] is [NaN]. *)
Definition minutesOf (time : string) : option Z :=
  match Js.splitHM time with
  | (Some h, Some m) => Some (h * 60 + m)
  | _ => None
  end.

Definition generateTimeSlots (startTime endTime : string) : list string :=
  match minutesOf startTime, minutesOf endTime with
  | Some startMinutes, Some endMinutes => slotLoop endMinutes startMinutes
  | _, _ => []   (* a comparison with NaN is false: the loop does not run *)
  end.


(** *** Component state *)

Record Settings : Type := mkSettings {
  firstDayOfWeek : Z;
  disabledWeekdays : list Z;
  disabledDates : list string;
  minIntervalHours : Z;
  workStartTime : string;
  workEndTime : string;
  maxBookingsPerDay : option Z;    (* [None] is [null] *)
  sendSMS : bool
}.

(** The initial [useState] value of [settings]. *)
Definition defaultSettings : Settings :=
  {| firstDayOfWeek := 1; disabledWeekdays := []; disabledDates := [];
     minIntervalHours := 3; workStartTime := "09:00";
     workEndTime := "20:00"; maxBookingsPerDay := None; sendSMS := true |}.

(** [s || fallback] on a text. *)
Definition textOr (s fallback : string) : string :=
  match s with
  | EmptyString => fallback
  | _ => s
  end.

(** [(settings?.minIntervalHours || 3) * 60 * 60 * 1000]. *)
Definition minIntervalMs (settings : Settings) : Z :=
  (if minIntervalHours settings =? 0 then 3 else minIntervalHours settings)
  * 60 * 60 * 1000.

(** [generateTimeSlots(settings?.workStartTime || '09:00',
                       settings?.workEndTime || '20:00')]. *)
Definition timeSlots (settings : Settings) : list string :=
  generateTimeSlots (textOr (workStartTime settings) "09:00")
                    (textOr (workEndTime settings) "20:00").

(** [bookedSlots.some(bookedSlot => Math.abs(timeToCheck.getTime() -
    bookedSlot.getTime()) < minIntervalMs)]; with an Invalid Date the
    difference is [NaN] and no comparison holds. *)
Definition tooClose (bookedSlots : list Z) (minIntervalMs : Z)
    (timeToCheck : option Z) : bool :=
  existsb (fun bookedSlot =>
             match timeToCheck with
             | Some t => Z.abs (t - bookedSlot) <? minIntervalMs
             | None => false
             end) bookedSlots.

(** The callback given to [timeSlots.filter] in [updateAvailableTimeSlots]
    and to [timeSlots.some] in [isDateDisabled]: the availability of one
    slot instant. *)
Definition slotAvailable (bookedSlots : list Z) (minIntervalMs : Z)
    (timeToCheck : option Z) : bool :=
  negb (tooClose bookedSlots minIntervalMs timeToCheck).

Section Component.
Variable tz : Z.                 (* local time zone offset *)
Variable now : Z.                (* the clock read by [new Date()] *)
Variable settings : Settings.
Variable bookedSlots : list Z.

(** [const [hours, minutes] = time.split(':').map(Number);
     timeToCheck = new Date(date); timeToCheck.setHours(hours, minutes, 0, 0)]. *)
Definition timeToCheck (date : Z) (time : string) : option Z :=
  let '(hours, minutes) := Js.splitHM time in
  Js.setHoursNum tz date hours minutes.

Definition updateAvailableTimeSlots (selectedDate : Z) : list string :=
  filter (fun time =>
            slotAvailable bookedSlots (minIntervalMs settings)
                          (timeToCheck selectedDate time))
         (timeSlots settings).

Definition formatDateToYYYYMMDD (date : Z) : string :=
  let year := Js.getFullYear tz date in
  let month := Js.padStart2 (Js.toString (Js.getMonth tz date + 1)) in
  let day := Js.padStart2 (Js.toString (Js.getDate tz date)) in
  Js.toString year ++ "-" ++ month ++ "-" ++ day.

(** The five checks of [isDateDisabled], in the order of the source. *)
Definition isPast (date : Z) : bool :=
  let today := Js.setHours tz now 0 0 0 0 in
  let checkDate := Js.setHours tz date 0 0 0 0 in
  checkDate <? today.

Definition weekdayDisabled (date : Z) : bool :=
  existsb (Z.eqb (Js.getDay tz date)) (disabledWeekdays settings).

Definition dateListed (date : Z) : bool :=
  existsb (String.eqb (formatDateToYYYYMMDD date)) (disabledDates settings).

(** [bookedSlots.filter(slot => slot >= dateStart && slot <= dateEnd).length]. *)
Definition bookingsOnDate (date : Z) : Z :=
  let dateStart := Js.setHours tz date 0 0 0 0 in
  let dateEnd := Js.setHours tz date 23 59 59 999 in
  Z.of_nat (List.length (filter (fun slotDate =>
                              (dateStart <=? slotDate) && (slotDate <=? dateEnd))
                           bookedSlots)).

Definition capacityReached (date : Z) : bool :=
  match maxBookingsPerDay settings with
  | Some maxBookings => maxBookings <=? bookingsOnDate date
  | None => false
  end.

Definition hasAvailableSlots (date : Z) : bool :=
  existsb (fun time =>
             slotAvailable bookedSlots (minIntervalMs settings)
                           (timeToCheck date time))
          (timeSlots settings).

Definition isDateDisabled (date : Z) : bool :=
  if isPast date then true
  else if weekdayDisabled date then true
  else if dateListed date then true
  else if capacityReached date then true
  else negb (hasAvailableSlots date).

End Component.

(** *** [handleSubmit] *)

Record BookingFormData : Type := mkForm {
  firstName : string;
  lastName : string;
  phone : string;
  address : string;
  city : string;
  operatingSystem : string;
  comments : string;
  appointmentDate : option Z;      (* [Date | null] *)
  appointmentTime : string
}.

Definition emptyForm : BookingFormData :=
  {| firstName := ""; lastName := ""; phone := ""; address := "";
     city := ""; operatingSystem := ""; comments := "";
     appointmentDate := None; appointmentTime := "" |}.

(** The object given to [insert]; [appointment_date] stands for the ISO
    text of the instant. *)
Record NewBooking : Type := mkNewBooking {
  first_name : string;
  last_name : string;
  nb_phone : string;
  nb_address : string;
  nb_city : option string;
  operating_system : string;
  nb_comments : string;
  appointment_date : Z
}.

(** A row of the [bookings] table. *)
Record BookingRow : Type := mkRow {
  id : string;
  booking_number : option string;
  booking : NewBooking;
  deleted_at : option Z
}.

Inductive Toast : Type :=
| ToastError (text : string)
| ToastSuccess (text label bookingNumber : string)
| ToastWarning (text : string) (detail : option string).

(** The booking table together with the state of the component. *)
Record World : Type := mkWorld {
  store : list BookingRow;
  formData : BookingFormData;
  isSubmitting : bool;
  bookedSlots : list Z;
  toasts : list Toast;             (* oldest first *)
  smsCalls : list (string * string);   (* arguments of [sendSMS], oldest first *)
  fetchCalls : nat                 (* calls of [fetchBookedSlots] *)
}.

(** Statements that change the world and may throw. *)
Definition Action (A : Type) : Type := World -> Js.Completion A * World.

Definition ret {A} (a : A) : Action A := fun w => (Js.Normal a, w).
Definition throw {A} (e : Js.Thrown) : Action A := fun w => (Js.Throws e, w).
Definition bind {A B} (m : Action A) (k : A -> Action B) : Action B :=
  fun w => match m w with
           | (Js.Normal a, w') => k a w'
           | (Js.Throws e, w') => (Js.Throws e, w')
           end.
Definition tryCatch {A} (m : Action A) (handler : Js.Thrown -> Action A)
  : Action A :=
  fun w => match m w with
           | (Js.Normal a, w') => (Js.Normal a, w')
           | (Js.Throws e, w') => handler e w'
           end.
Definition tryFinally {A} (m : Action A) (cleanup : Action unit) : Action A :=
  fun w => let '(r, w') := m w in
           match cleanup w' with
           | (Js.Normal _, w'') => (r, w'')
           | (Js.Throws e, w'') => (Js.Throws e, w'')
           end.
Definition modify (f : World -> World) : Action unit :=
  fun w => (Js.Normal tt, f w).

Declare Scope action_scope.
Delimit Scope action_scope with action.
Notation "x <- m ;; k" := (bind m (fun x => k))
  (at level 61, m at next level, right associativity) : action_scope.
Notation "m ;; k" := (bind m (fun _ => k))
  (at level 61, right associativity) : action_scope.

Definition setIsSubmitting (b : bool) : Action unit :=
  modify (fun w => mkWorld (store w) (formData w) b (bookedSlots w)
                           (toasts w) (smsCalls w) (fetchCalls w)).

Definition setFormData (f : BookingFormData) : Action unit :=
  modify (fun w => mkWorld (store w) f (isSubmitting w) (bookedSlots w)
                           (toasts w) (smsCalls w) (fetchCalls w)).

Definition toast (x : Toast) : Action unit :=
  modify (fun w => mkWorld (store w) (formData w) (isSubmitting w)
                           (bookedSlots w) (toasts w ++ [x]) (smsCalls w)
                           (fetchCalls w)).

(** The object literal given to [insert]. *)
Definition newBooking (form : BookingFormData) (appointmentDateTime : Z)
  : NewBooking :=
  {| first_name := firstName form;
     last_name := lastName form;
     nb_phone := phone form;
     nb_address := address form;
     nb_city := match city form with      (* [formData.city || null] *)
                | EmptyString => None
                | c => Some c
                end;
     operating_system := operatingSystem form;
     nb_comments := comments form;
     appointment_date := appointmentDateTime |}.

Section Submit.
Variable tz : Z.
Variable settings : Settings.
(** [t]: the translation of a key. *)
Variable t : string -> string.
(** [d.toLocaleString()]. *)
Variable toLocaleString : Z -> string.
(** The outcome of the insert request: the [id] and the
    [booking_number] the table gives the new row, or [None] when the
    request answers with an error. *)
Variable insertOutcome : NewBooking -> option (string * option string).
(** The answer of the [select] in [fetchBookedSlots]: [false] when it
    carries no [data]. *)
Variable fetchAnswers : bool.
(** The [sendSMS] imported from [lib/twilioSender]. *)
Variable twilioSendSMS : string -> string -> Js.Completion TwilioSender.SmsResult.

(** [supabase.from('bookings').insert([b]).select().single()]. *)
Definition insertBooking (b : NewBooking) : Action (option BookingRow) :=
  fun w =>
    match insertOutcome b with
    | Some (newId, number) =>
        let row := {| id := newId; booking_number := number;
                      booking := b; deleted_at := None |} in
        (Js.Normal (Some row),
         mkWorld (store w ++ [row]) (formData w) (isSubmitting w)
                 (bookedSlots w) (toasts w) (smsCalls w) (fetchCalls w))
    | None => (Js.Normal None, w)
    end.

(** [await sendSMS(phone, message)]. *)
Definition callSendSMS (phone message : string)
  : Action TwilioSender.SmsResult :=
  fun w =>
    (twilioSendSMS phone message,
     mkWorld (store w) (formData w) (isSubmitting w) (bookedSlots w)
             (toasts w) (smsCalls w ++ [(phone, message)]) (fetchCalls w)).

(** [fetchBookedSlots]: the appointment instants of the rows that are
    not deleted. *)
Definition fetchBookedSlots : Action unit :=
  modify (fun w =>
    let data := map (fun r => appointment_date (booking r))
                    (filter (fun r => match deleted_at r with
                                      | None => true
                                      | Some _ => false
                                      end) (store w)) in
    mkWorld (store w) (formData w) (isSubmitting w)
            (if fetchAnswers then data else bookedSlots w)
            (toasts w) (smsCalls w) (S (fetchCalls w))).

Definition smsMessage (form : BookingFormData) (bookingNumber : string)
    (appointmentDateTime : Z) : string :=
  t "smsGreeting" ++ ", " ++ firstName form ++ "! "
  ++ t "smsBookingCreated" ++ " #" ++ bookingNumber ++ " "
  ++ t "smsAppointmentInfo" ++ " " ++ toLocaleString appointmentDateTime
  ++ ". " ++ t "smsContact".

(** The inner [try]/[catch] around the dispatch. *)
Definition notify (form : BookingFormData) (bookingNumber : string)
    (appointmentDateTime : Z) : Action unit :=
  (tryCatch
     (smsResult <- callSendSMS (phone form)
                     (smsMessage form bookingNumber appointmentDateTime) ;;
      if negb (TwilioSender.success smsResult)
      then toast (ToastWarning (t "smsError")
                               (TwilioSender.sms_error smsResult))
      else ret tt)
     (fun smsError =>
        toast (ToastWarning (t "smsError")
                 (Some match smsError with
                       | Js.ErrorObject m => m
                       | Js.OtherValue => "Unknown error"
                       end))))%action.

(** The outer [try] block. *)
Definition submitBody (form : BookingFormData) (date : Z) : Action unit :=
  (let '(hours, minutes) := Js.splitHM (appointmentTime form) in
   match Js.setHoursNum tz date hours minutes with
   | None =>
       (* [toISOString] of an Invalid Date *)
       throw (Js.ErrorObject "Invalid time value")
   | Some appointmentDateTime =>
       inserted <- insertBooking (newBooking form appointmentDateTime) ;;
       match inserted with
       | None => throw Js.OtherValue          (* if (error) throw error *)
       | Some row =>
           let bookingNumber :=
             Js.orElse (booking_number row) (Js.slice8 (id row)) in
           toast (ToastSuccess (t "bookingSuccess") (t "bookingNumber")
                               bookingNumber) ;;
           (if sendSMS settings then
              notify form bookingNumber appointmentDateTime
            else ret tt) ;;
           setFormData emptyForm ;;
           fetchBookedSlots
       end
   end)%action.

Definition handleSubmit : Action unit :=
  fun w =>
    let form := formData w in
    match appointmentDate form, appointmentTime form with
    | Some date, String _ _ =>
        (setIsSubmitting true ;;
         tryFinally
           (tryCatch (submitBody form date)
                     (fun _ => toast (ToastError (t "error"))))
           (setIsSubmitting false))%action w
    | _, _ => toast (ToastError (t "selectDateTime")) w
    end.

End Submit.

End App.

(* ===================================================================== *)
(** ** More of the runtime: text comparison and the date patterns *)
(* ===================================================================== *)

Module JsText.

(** [a < b] on texts: the code units are compared from the left. *)
Definition ltb (a b : string) : bool :=
  match String.compare a b with
  | Lt => true
  | _ => false
  end.

(** [a >= b] and [a <= b] on texts. *)
Definition geb (a b : string) : bool := negb (ltb a b).
Definition leb (a b : string) : bool := negb (ltb b a).

(** [\d{n}] at the start of [s]: the [n] digits and what follows them. *)
Fixpoint takeDigits (n : nat) (s : string) : option (string * string) :=
  match n with
  | O => Some (EmptyString, s)
  | S n' =>
      match s with
      | String c s' =>
          if Js.isDigit c then
            match takeDigits n' s' with
            | Some (digits, rest) => Some (String c digits, rest)
            | None => None
            end
          else None
      | EmptyString => None
      end
  end.

(** One literal character at the start of [s]. *)
Definition expect (c : ascii) (s : string) : option string :=
  match s with
  | String c' s' => if Ascii.eqb c' c then Some s' else None
  | EmptyString => None
  end.

(** The alternatives of a quantifier, tried in order until one lets the
    rest of the pattern match. *)
Fixpoint firstSome {A B : Type} (f : A -> option B) (l : list A) : option B :=
  match l with
  | [] => None
  | x :: l' => match f x with
               | Some y => Some y
               | None => firstSome f l'
               end
  end.

(** [s.match(pattern)] for a pattern without flags: the match at the
    leftmost position where the pattern applies. *)
Fixpoint search {A : Type} (matchAt : string -> option A) (s : string)
  : option A :=
  match matchAt s with
  | Some groups => Some groups
  | None => match s with
            | EmptyString => None
            | String _ s' => search matchAt s'
            end
  end.

(** [/(\d{4})-(\d{2})-(\d{2})/] applied at the start of [s]: year, month
    and day. *)
Definition ymdAt (s : string) : option (string * string * string) :=
  match takeDigits 4 s with
  | Some (year, r1) =>
      match expect "-" r1 with
      | Some r2 =>
          match takeDigits 2 r2 with
          | Some (month, r3) =>
              match expect "-" r3 with
              | Some r4 =>
                  match takeDigits 2 r4 with
                  | Some (day, _) => Some (year, month, day)
                  | None => None
                  end
              | None => None
              end
          | None => None
          end
      | None => None
      end
  | None => None
  end.

(** [/(\d{1,2})\/(\d{1,2})\/(\d{4})/] applied at the start of [s]: day,
    month and year; each [\d{1,2}] takes two digits first and falls back
    to one. *)
Definition dmyAt (s : string) : option (string * string * string) :=
  firstSome (fun n1 =>
    match takeDigits n1 s with
    | Some (day, r1) =>
        match expect "/" r1 with
        | Some r2 =>
            firstSome (fun n2 =>
              match takeDigits n2 r2 with
              | Some (month, r3) =>
                  match expect "/" r3 with
                  | Some r4 =>
                      match takeDigits 4 r4 with
                      | Some (year, _) => Some (day, month, year)
                      | None => None
                      end
                  | None => None
                  end
              | None => None
              end) [2%nat; 1%nat]
        | None => None
        end
    | None => None
    end) [2%nat; 1%nat].

End JsText.

(* ===================================================================== *)
(** ** [components/AdminView.tsx]: the settings form *)
(* ===================================================================== *)

Module AdminSettings.
Import App.

(** [{ ...settings, field: value }] for each field the form writes. *)
Definition withFirstDayOfWeek (s : Settings) (v : Z) : Settings :=
  mkSettings v (disabledWeekdays s) (disabledDates s) (minIntervalHours s)
             (workStartTime s) (workEndTime s) (maxBookingsPerDay s)
             (sendSMS s).
Definition withDisabledWeekdays (s : Settings) (v : list Z) : Settings :=
  mkSettings (firstDayOfWeek s) v (disabledDates s) (minIntervalHours s)
             (workStartTime s) (workEndTime s) (maxBookingsPerDay s)
             (sendSMS s).
Definition withDisabledDates (s : Settings) (v : list string) : Settings :=
  mkSettings (firstDayOfWeek s) (disabledWeekdays s) v (minIntervalHours s)
             (workStartTime s) (workEndTime s) (maxBookingsPerDay s)
             (sendSMS s).
Definition withMinIntervalHours (s : Settings) (v : Z) : Settings :=
  mkSettings (firstDayOfWeek s) (disabledWeekdays s) (disabledDates s) v
             (workStartTime s) (workEndTime s) (maxBookingsPerDay s)
             (sendSMS s).
Definition withWorkStartTime (s : Settings) (v : string) : Settings :=
  mkSettings (firstDayOfWeek s) (disabledWeekdays s) (disabledDates s)
             (minIntervalHours s) v (workEndTime s) (maxBookingsPerDay s)
             (sendSMS s).
Definition withWorkEndTime (s : Settings) (v : string) : Settings :=
  mkSettings (firstDayOfWeek s) (disabledWeekdays s) (disabledDates s)
             (minIntervalHours s) (workStartTime s) v (maxBookingsPerDay s)
             (sendSMS s).
Definition withMaxBookingsPerDay (s : Settings) (v : option Z) : Settings :=
  mkSettings (firstDayOfWeek s) (disabledWeekdays s) (disabledDates s)
             (minIntervalHours s) (workStartTime s) (workEndTime s) v
             (sendSMS s).
Definition withSendSMS (s : Settings) (v : bool) : Settings :=
  mkSettings (firstDayOfWeek s) (disabledWeekdays s) (disabledDates s)
             (minIntervalHours s) (workStartTime s) (workEndTime s)
             (maxBookingsPerDay s) v.

(** What a handler of the form does: call [saveSettings], show an error
    toast and return, or nothing. *)
Inductive Outcome : Type :=
| Save (newSettings : Settings)
| ErrorToast (key : string)
| Ignore.

(** *** The handlers, in the order of the form *)

(** First day of the week: [parseInt] of the selected option. *)
Definition onFirstDayChange (settings : Settings) (value : Z) : Outcome :=
  Save (withFirstDayOfWeek settings value).

(** A weekday check box. *)
Definition onWeekdayToggle (settings : Settings) (day : Z) (checked : bool)
  : Outcome :=
  if checked then
    Save (withDisabledWeekdays settings (disabledWeekdays settings ++ [day]))
  else
    Save (withDisabledWeekdays settings
            (filter (fun d => negb (d =? day)) (disabledWeekdays settings))).

(** [list.filter((_, i) => i !== index)]. *)
Fixpoint removeAt {A : Type} (index : nat) (l : list A) : list A :=
  match l, index with
  | [], _ => []
  | _ :: l', O => l'
  | x :: l', S i => x :: removeAt i l'
  end.

(** The Remove button beside a disabled date. *)
Definition onRemoveDate (settings : Settings) (index : nat) : Outcome :=
  Save (withDisabledDates settings (removeAt index (disabledDates settings))).

(** [formatDateToYYYYMMDD], the copy of this component. *)
Definition formatDateToYYYYMMDD (tz date : Z) : string :=
  let year := Js.getFullYear tz date in
  let month := Js.padStart2 (Js.toString (Js.getMonth tz date + 1)) in
  let day := Js.padStart2 (Js.toString (Js.getDate tz date)) in
  Js.toString year ++ "-" ++ month ++ "-" ++ day.

(** The Add Date button: today, read from the clock [now]. *)
Definition onAddDate (tz now : Z) (settings : Settings) : Outcome :=
  let today := formatDateToYYYYMMDD tz now in
  Save (withDisabledDates settings (disabledDates settings ++ [today])).

(** The interval input; [value] is the result of [parseInt], [None] for
    [NaN]. *)
Definition onMinIntervalChange (settings : Settings) (value : option Z)
  : Outcome :=
  match value with
  | Some v =>
      if (1 <=? v) && (v <=? 24) then Save (withMinIntervalHours settings v)
      else Ignore
  | None => Ignore
  end.

(** [time.split(':')[0]] and [time.split(':')[1] || '00']. *)
Definition hourPart (time : string) : string :=
  nth 0 (Js.splitColon time) EmptyString.
Definition minutePart (time : string) : string :=
  match nth_error (Js.splitColon time) 1 with
  | Some (String c m) => String c m
  | _ => "00"
  end.

(** The four selects of the work hours. *)
Definition onStartHourChange (settings : Settings) (newHour : string)
  : Outcome :=
  let minutes := minutePart (workStartTime settings) in
  let newStartTime := newHour ++ ":" ++ minutes in
  if JsText.geb newStartTime (workEndTime settings)
  then ErrorToast "workEndTimeError"
  else Save (withWorkStartTime settings newStartTime).

Definition onStartMinuteChange (settings : Settings) (newMinutes : string)
  : Outcome :=
  let hours := hourPart (workStartTime settings) in
  let newStartTime := hours ++ ":" ++ newMinutes in
  if JsText.geb newStartTime (workEndTime settings)
  then ErrorToast "workEndTimeError"
  else Save (withWorkStartTime settings newStartTime).

Definition onEndHourChange (settings : Settings) (newHour : string)
  : Outcome :=
  let minutes := minutePart (workEndTime settings) in
  let newEndTime := newHour ++ ":" ++ minutes in
  if JsText.leb newEndTime (workStartTime settings)
  then ErrorToast "workEndTimeError"
  else Save (withWorkEndTime settings newEndTime).

Definition onEndMinuteChange (settings : Settings) (newMinutes : string)
  : Outcome :=
  let hours := hourPart (workEndTime settings) in
  let newEndTime := hours ++ ":" ++ newMinutes in
  if JsText.leb newEndTime (workStartTime settings)
  then ErrorToast "workEndTimeError"
  else Save (withWorkEndTime settings newEndTime).

(** The check box and the input of the daily limit. *)
Definition onMaxBookingsToggle (settings : Settings) (checked : bool)
  : Outcome :=
  if checked then Save (withMaxBookingsPerDay settings (Some 10))
  else Save (withMaxBookingsPerDay settings None).

Definition onMaxBookingsChange (settings : Settings) (value : option Z)
  : Outcome :=
  match value with
  | Some v =>
      if 1 <=? v then Save (withMaxBookingsPerDay settings (Some v))
      else Ignore
  | None => Ignore
  end.

Definition onSendSMSToggle (settings : Settings) (checked : bool) : Outcome :=
  Save (withSendSMS settings checked).

(** *** [saveSettings] and [loadSettings] *)

(** The object [JSON.parse] gives back for the stored item: each field is
    there (with the type [saveSettings] writes) or is missing or [null]. *)
Record StoredSettings : Type := mkStored {
  st_firstDayOfWeek : option Z;
  st_disabledWeekdays : option (list Z);
  st_disabledDates : option (list string);
  st_minIntervalHours : option Z;
  st_workStartTime : option string;
  st_workEndTime : option string;
  st_maxBookingsPerDay : option Z;
  st_sendSMS : option bool
}.

(** The item ['bookingSettings'] of the local storage. *)
Inductive StoredItem : Type :=
| NoItem                           (* [getItem] gives [null] *)
| Unreadable                       (* [JSON.parse] or the reading throws *)
| Object (fields : StoredSettings).

(** [a ?? b]. *)
Definition orDefault {A : Type} (a : option A) (b : A) : A :=
  match a with
  | Some x => x
  | None => b
  end.

(** [loadSettings], the same in both components: the settings after the
    call, given the settings before it. *)
Definition loadSettings (item : StoredItem) (current : Settings) : Settings :=
  match item with
  | Object parsed =>
      {| firstDayOfWeek := orDefault (st_firstDayOfWeek parsed) 1;
         disabledWeekdays := orDefault (st_disabledWeekdays parsed) [];
         disabledDates := orDefault (st_disabledDates parsed) [];
         minIntervalHours := orDefault (st_minIntervalHours parsed) 3;
         workStartTime := orDefault (st_workStartTime parsed) "09:00";
         workEndTime := orDefault (st_workEndTime parsed) "20:00";
         maxBookingsPerDay := st_maxBookingsPerDay parsed;
         sendSMS := orDefault (st_sendSMS parsed) true |}
  | NoItem | Unreadable => current
  end.

(** [JSON.stringify(newSettings)] as the object it parses back to. *)
Definition stringify (s : Settings) : StoredSettings :=
  {| st_firstDayOfWeek := Some (firstDayOfWeek s);
     st_disabledWeekdays := Some (disabledWeekdays s);
     st_disabledDates := Some (disabledDates s);
     st_minIntervalHours := Some (minIntervalHours s);
     st_workStartTime := Some (workStartTime s);
     st_workEndTime := Some (workEndTime s);
     st_maxBookingsPerDay := maxBookingsPerDay s;
     st_sendSMS := Some (sendSMS s) |}.

Inductive Toast : Type :=
| ToastSuccess (text : string)
| ToastError (text : string).

(** The settings of the component, the stored item and the toasts shown
    (oldest first). *)
Record FormState : Type := mkFormState {
  fs_settings : Settings;
  fs_item : StoredItem;
  fs_toasts : list Toast
}.

Section Saving.
(** [t]: the translation of a key. *)
Variable t : string -> string.

Definition saveSettings (newSettings : Settings) (st : FormState)
  : FormState :=
  mkFormState newSettings (Object (stringify newSettings))
              (fs_toasts st
               ++ [ToastSuccess (textOr (t "settingsSaved") "Settings saved")]).

(** A handler run in a state of the form. *)
Definition apply (o : Outcome) (st : FormState) : FormState :=
  match o with
  | Save newSettings => saveSettings newSettings st
  | ErrorToast key =>
      mkFormState (fs_settings st) (fs_item st)
                  (fs_toasts st ++ [ToastError (t key)])
  | Ignore => st
  end.

End Saving.

(** *** The two date texts of the list of disabled dates *)

Section DateTexts.
Variable tz : Z.
(** [new Date(text)]: the instant the runtime reads in a text, [None]
    for an Invalid Date. *)
Variable dateParse : string -> option Z.

Definition formatDateToDDMMYYYY (dateStr : string) : string :=
  match dateStr with
  | EmptyString => ""
  | _ =>
      match JsText.search JsText.ymdAt dateStr with
      | Some (year, month, day) => day ++ "/" ++ month ++ "/" ++ year
      | None =>
          match dateParse dateStr with
          | None => dateStr
          | Some date =>
              let day := Js.padStart2 (Js.toString (Js.getDate tz date)) in
              let month :=
                Js.padStart2 (Js.toString (Js.getMonth tz date + 1)) in
              let year := Js.getFullYear tz date in
              day ++ "/" ++ month ++ "/" ++ Js.toString year
          end
      end
  end.

Definition parseDDMMYYYYToYYYYMMDD (dateStr : string) : string :=
  match dateStr with
  | EmptyString => ""
  | _ =>
      match JsText.search JsText.dmyAt dateStr with
      | Some (day, month, year) =>
          let dayPadded := Js.padStart2 day in
          let monthPadded := Js.padStart2 month in
          year ++ "-" ++ monthPadded ++ "-" ++ dayPadded
      | None =>
          match dateParse dateStr with
          | Some date => formatDateToYYYYMMDD tz date
          | None => dateStr
          end
      end
  end.

End DateTexts.

End AdminSettings.

(* ===================================================================== *)
(** ** [components/AdminView.tsx]: the table of bookings *)
(* ===================================================================== *)

Module AdminBookings.

(** [keyof Booking]. *)
Inductive Field : Type :=
| Col_id | Col_booking_number | Col_first_name | Col_last_name | Col_phone
| Col_address | Col_city | Col_operating_system | Col_comments
| Col_appointment_date | Col_created_at | Col_updated_at | Col_completed
| Col_technician_notes.

Definition Field_eqb (a b : Field) : bool :=
  match a, b with
  | Col_id, Col_id | Col_booking_number, Col_booking_number
  | Col_first_name, Col_first_name | Col_last_name, Col_last_name
  | Col_phone, Col_phone | Col_address, Col_address | Col_city, Col_city
  | Col_operating_system, Col_operating_system
  | Col_comments, Col_comments
  | Col_appointment_date, Col_appointment_date
  | Col_created_at, Col_created_at | Col_updated_at, Col_updated_at
  | Col_completed, Col_completed
  | Col_technician_notes, Col_technician_notes => true
  | _, _ => false
  end.

(** The values found in a booking: a text, a boolean, [null], or the text
    of an instant (a timestamp column). *)
Inductive Value : Type :=
| VText (s : string)
| VBool (b : bool)
| VNull
| VTime (instant : Z).

(** A booking object: what each of its keys holds. *)
Definition Booking : Type := Field -> Value.

(** [booking.id], the key of the row. *)
Definition idOf (b : Booking) : string :=
  match b Col_id with
  | VText s => s
  | _ => EmptyString
  end.

(** A row of the table: the booking and its [deleted_at] column. *)
Record StoredRow : Type := mkStoredRow {
  row : Booking;
  row_deleted_at : option Z
}.

(** *** Sorting state *)

Inductive Direction : Type := asc | desc.

Record SortState : Type := mkSort {
  sortColumn : option Field;
  sortDirection : Direction
}.

(** The initial [useState] values. *)
Definition initialSort : SortState := mkSort (Some Col_appointment_date) asc.

Definition handleSort (st : SortState) (column : Field) : SortState :=
  match sortColumn st with
  | Some current =>
      if Field_eqb current column then
        mkSort (sortColumn st)
               (match sortDirection st with asc => desc | desc => asc end)
      else mkSort (Some column) asc
  | None => mkSort (Some column) asc
  end.

(** *** Edits that are not saved yet *)

(** [Record<string, Partial<Booking>>]: for a booking id, the object of
    its edited fields, when there is one. *)
Definition EditedFields : Type := string -> option (Field -> option Value).

Definition noEdits : EditedFields := fun _ => None.

(** [{ ...prev, [id]: { ...prev[id], [field]: value } }]. *)
Definition handleFieldChange (prev : EditedFields) (id : string)
    (field : Field) (value : Value) : EditedFields :=
  fun id' =>
    if String.eqb id' id then
      Some (fun f =>
              if Field_eqb f field then Some value
              else match prev id with
                   | Some edits => edits f
                   | None => None
                   end)
    else prev id'.

(** The update given to [setEditedFields] after a save and when an edit is
    reverted: the field is taken out of the edits of the booking. *)
Definition clearEditedField (prev : EditedFields) (id : string)
    (field : Field) : EditedFields :=
  fun id' =>
    if String.eqb id' id then
      match prev id with
      | Some edits => Some (fun f => if Field_eqb f field then None else edits f)
      | None => None
      end
    else prev id'.

Definition getFieldValue (editedFields : EditedFields) (booking : Booking)
    (field : Field) : Value :=
  match editedFields (idOf booking) with
  | Some edits =>
      match edits field with
      | Some v => v
      | None => booking field
      end
  | None => booking field
  end.

(** *** The component and the table *)

Inductive Toast : Type :=
| ToastSuccess (text : string)
| ToastError (text : string).

Record World : Type := mkWorld {
  table : list StoredRow;
  bookings : list Booking;
  editedFields : EditedFields;
  loading : bool;
  toasts : list Toast                (* oldest first *)
}.

Definition toast (x : Toast) (w : World) : World :=
  mkWorld (table w) (bookings w) (editedFields w) (loading w)
          (toasts w ++ [x]).

Definition isLive (r : StoredRow) : bool :=
  match row_deleted_at r with
  | None => true
  | Some _ => false
  end.

(** The trigger function of the table, run by [update_bookings_updated_at]
    BEFORE UPDATE on each row that is updated:
    [NEW.updated_at = CURRENT_TIMESTAMP]. *)
Definition update_updated_at_column (current_timestamp : Z)
    (new : StoredRow) : StoredRow :=
  mkStoredRow (fun f => if Field_eqb f Col_updated_at
                        then VTime current_timestamp
                        else row new f)
              (row_deleted_at new).

(** [update(data).eq('id', id)] on the table: each row with that id gets
    the new values and then goes through the trigger. *)
Definition updateWhereId (current_timestamp : Z) (id : string)
    (change : StoredRow -> StoredRow) (rows : list StoredRow)
  : list StoredRow :=
  map (fun r => if String.eqb (idOf (row r)) id
                then update_updated_at_column current_timestamp (change r)
                else r) rows.

(** The new values [{ [field]: value }] of a row, as the request gives
    them; the trigger comes after. *)
Definition setColumn (field : Field) (value : Value) (r : StoredRow)
  : StoredRow :=
  mkStoredRow (fun f => if Field_eqb f field then value else row r f)
              (row_deleted_at r).

Section Handlers.
(** [t]: the translation of a key. *)
Variable t : string -> string.
(** [new Date(text)]: the instant read in a text, [None] for an Invalid
    Date. *)
Variable dateParse : string -> option Z.
(** Whether the select of [fetchBookings] answers with data. *)
Variable fetchOk : bool.
(** Whether an update request is accepted. *)
Variable updateOk : bool.
(** [CURRENT_TIMESTAMP] of the update request, the clock of the
    database. *)
Variable current_timestamp : Z.

(** What [fetchBookings] does once the select has answered. *)
Definition fetchBookings (w : World) : World :=
  let w1 :=
    if fetchOk then
      let data := map row (filter isLive (table w)) in
      let initialFields : EditedFields :=
        fun id => if existsb (fun b => String.eqb (idOf b) id) data
                  then Some (fun _ => None) else None in
      mkWorld (table w) data initialFields (loading w) (toasts w)
    else toast (ToastError (t "fetchError")) w in
  mkWorld (table w1) (bookings w1) (editedFields w1) false (toasts w1).

(** [updateBookingStatus]; the answer of [fetchBookings] comes after the
    toast. *)
Definition updateBookingStatus (id : string) (completed : bool) (w : World)
  : World :=
  if updateOk then
    let w1 := mkWorld (updateWhereId current_timestamp id
                         (setColumn Col_completed (VBool completed))
                         (table w))
                      (bookings w) (editedFields w) (loading w) (toasts w) in
    fetchBookings (toast (ToastSuccess (t "statusUpdated")) w1)
  else toast (ToastError (t "updateError")) w.

(** [fieldMessages[field] || t('fieldUpdated')]. *)
Definition getFieldUpdateMessage (field : Field) : string :=
  let message :=
    match field with
    | Col_appointment_date => Some (t "appointmentDateUpdated")
    | Col_first_name => Some (t "firstNameUpdated")
    | Col_last_name => Some (t "lastNameUpdated")
    | Col_phone => Some (t "phoneUpdated")
    | Col_city => Some (t "cityUpdated")
    | Col_address => Some (t "addressUpdated")
    | Col_operating_system => Some (t "operatingSystemUpdated")
    | Col_comments => Some (t "commentsUpdated")
    | Col_technician_notes => Some (t "notesUpdated")
    | _ => None
    end in
  Js.orElse message (t "fieldUpdated").

(** The value written by [saveField]: an appointment date given as a text
    becomes the instant it reads as ([None] when [toISOString] throws on an
    Invalid Date), an empty city becomes [null]. *)
Definition updateData (field : Field) (value : Value) : option Value :=
  match field, value with
  | Col_appointment_date, VText s =>
      match dateParse s with
      | Some instant => Some (VTime instant)
      | None => None
      end
  | Col_city, VText EmptyString => Some VNull
  | _, _ => Some value
  end.

(** [saveField]; [directValue] is [None] when the argument is left out. *)
Definition saveField (id : string) (field : Field)
    (directValue : option Value) (w : World) : World :=
  let value :=
    match directValue with
    | Some v => Some v
    | None => match editedFields w id with
              | Some edits => edits field
              | None => None
              end
    end in
  match value with
  | None => w
  | Some value =>
      match updateData field value with
      | None => toast (ToastError (t "updateError")) w
      | Some written =>
          if updateOk then
            let w1 := mkWorld (updateWhereId current_timestamp id
                                 (setColumn field written) (table w))
                              (bookings w)
                              (clearEditedField (editedFields w) id field)
                              (loading w) (toasts w) in
            fetchBookings
              (toast (ToastSuccess (getFieldUpdateMessage field)) w1)
          else toast (ToastError (t "updateError")) w
      end
  end.

(** [deleteBooking]; [confirmed] is the answer of [window.confirm], [now]
    the clock of the browser. *)
Definition deleteBooking (confirmed : bool) (now : Z) (id : string)
    (w : World) : World :=
  if confirmed then
    if updateOk then
      let w1 := mkWorld (updateWhereId current_timestamp id
                           (fun r => mkStoredRow (row r) (Some now))
                           (table w))
                        (bookings w) (editedFields w) (loading w)
                        (toasts w) in
      fetchBookings (toast (ToastSuccess (t "bookingDeleted")) w1)
    else toast (ToastError (t "deleteError")) w
  else w.

End Handlers.

End AdminBookings.

(* ===================================================================== *)
(** ** [supabase/functions/send-sms/index.ts]: the edge function *)
(* ===================================================================== *)

Module SendSmsFunction.

(** What a [catch] clause of the function can receive: an [Error] with
    its [name] and [message], or another value. *)
Inductive Thrown : Type :=
| ErrorNamed (name message : string)
| OtherThrown.

Inductive Outcome (A : Type) : Type :=
| Resolved (a : A)
| Rejected (e : Thrown).
Arguments Resolved {A} a.
Arguments Rejected {A} e.

(** The three secrets read with [Deno.env.get]; [None] is [undefined]. *)
Record Env : Type := mkEnv {
  TWILIO_ACCOUNT_SID : option string;
  TWILIO_AUTH_TOKEN : option string;
  TWILIO_PHONE_NUMBER : option string
}.

(** The two fields read in the body of the request. *)
Record RequestData : Type := mkRequestData {
  rd_phone : option string;
  rd_message : option string
}.

(** The request: its method and what [req.json()] followed by the reading
    of the two fields gives. *)
Record Request : Type := mkRequest {
  method : string;
  json : Outcome RequestData
}.

(** The fields read in the answer of Twilio. *)
Record TwilioData : Type := mkTwilioData {
  tw_message : option string;
  tw_sid : option string;
  tw_status : option string
}.

(** The call of the Twilio API: [fetch] throws, or answers with [ok] and a
    body that [json()] and the reading of its fields give or not (a body
    that is [null] is of the second kind: reading a field of it throws). *)
Inductive TwilioCall : Type :=
| FetchFails (e : Thrown)
| Answers (ok : bool) (body : Outcome TwilioData).

(** The JSON body of a response of the function. *)
Record JsonBody : Type := mkJsonBody {
  error : option string;
  details : option string;
  hint : option string;
  errorType : option string;
  success : option bool;
  messageId : option string;
  status_text : option string
}.

Inductive Body : Type :=
| Plain (text : string)
| Json (fields : JsonBody).

Record Response : Type := mkResponse {
  status : Z;
  body : Body
}.

Definition truthy (s : option string) : bool :=
  match s with
  | Some EmptyString | None => false
  | Some _ => true
  end.

(** [hay.includes(needle)]. *)
Fixpoint includes (needle hay : string) : bool :=
  if String.prefix needle hay then true
  else match hay with
       | EmptyString => false
       | String _ hay' => includes needle hay'
       end.

(** [list.join(', ')]. *)
Fixpoint join (l : list string) : string :=
  match l with
  | [] => EmptyString
  | [x] => x
  | x :: l' => x ++ ", " ++ join l'
  end.

(** The double quote character, as a text. *)
Definition quote : string := String (ascii_of_nat 34) EmptyString.

Definition errorBody (e d : string) (h t : option string) : Body :=
  Json (mkJsonBody (Some e) (Some d) h t None None None).

Section Handler.
(** [s.trim()] and [s.replace(/\s+/g, '')], which know the white space of
    Unicode. *)
Variable trim : string -> string.
Variable removeSpaces : string -> string.

(** The sender number after the first lines of the [try] block. *)
Definition senderNumber (configured : string) : string :=
  let number := trim configured in
  if negb (Js.startsWithPlus number) then "+" ++ removeSpaces number
  else number.

(** The names pushed to [missingVars]. *)
Definition missingVars (env : Env) : list string :=
  (if truthy (TWILIO_ACCOUNT_SID env) then [] else ["TWILIO_ACCOUNT_SID"])
  ++ (if truthy (TWILIO_AUTH_TOKEN env) then [] else ["TWILIO_AUTH_TOKEN"])
  ++ (if truthy (TWILIO_PHONE_NUMBER env) then []
      else ["TWILIO_PHONE_NUMBER"]).

(** The [catch] clause. *)
Definition failure (e : Thrown) : Response :=
  mkResponse 500
    (errorBody "Failed to send SMS"
       (match e with
        | ErrorNamed _ m => m
        | OtherThrown => "Unknown error"
        end)
       None
       (Some match e with
             | ErrorNamed n _ => n
             | OtherThrown => "UnknownError"
             end)).

(** The handler given to [Deno.serve]; [twilio] is what the call of the
    Twilio API does when the handler gets to it. *)
Definition handler (env : Env) (req : Request) (twilio : TwilioCall)
  : Response :=
  if String.eqb (method req) "OPTIONS" then mkResponse 200 (Plain "ok")
  else
    match missingVars env with
    | _ :: _ =>
        mkResponse 500
          (errorBody "Missing required Twilio environment variables"
             ("The following environment variables are not set: "
              ++ join (missingVars env))
             (Some "Set these secrets in Supabase Dashboard: Settings → Edge Functions → Secrets, or use: supabase secrets set <NAME>=<VALUE>")
             None)
    | [] =>
        let from := senderNumber (match TWILIO_PHONE_NUMBER env with
                                  | Some n => n
                                  | None => EmptyString
                                  end) in
        match json req with
        | Rejected e => failure e
        | Resolved requestData =>
            if negb (truthy (rd_phone requestData))
               || negb (truthy (rd_message requestData))
            then mkResponse 400
                   (errorBody "Missing required parameters"
                      "Request is missing required fields" None None)
            else
              match twilio with
              | FetchFails e => failure e
              | Answers _ (Rejected e) => failure e
              | Answers false (Resolved twilioData) =>
                  let errorMessage :=
                    Js.orElse (tw_message twilioData)
                              "Error sending SMS via Twilio" in
                  if includes "not a Twilio phone number" errorMessage then
                    mkResponse 400
                      (errorBody "Invalid Twilio phone number"
                         ("The phone number " ++ quote ++ from ++ quote
                          ++ " is not a valid Twilio number. Please check your Twilio account and update the TWILIO_PHONE_NUMBER secret.")
                         (Some "Go to Twilio Console → Phone Numbers → Manage → Active numbers to see your valid numbers.")
                         None)
                  else failure (ErrorNamed "Error" errorMessage)
              | Answers true (Resolved twilioData) =>
                  mkResponse 200
                    (Json (mkJsonBody None None None None (Some true)
                             (tw_sid twilioData) (tw_status twilioData)))
              end
        end
    end.

End Handler.

(** The body as the client reads it: the object for a JSON body, [null]
    otherwise. *)
Definition asData (b : Body) : option TwilioSender.ResponseData :=
  match b with
  | Json f => Some (TwilioSender.mkResponseData (error f) (details f)
                                                (success f) (messageId f))
  | Plain _ => None
  end.

End SendSmsFunction.

(* ===================================================================== *)
(** ** [migrations/..._violet_flower.sql]: the booking number *)
(* ===================================================================== *)

Module BookingNumber.

(** [LPAD(s, n, '0')]: zeros in front up to [n] characters, and only the
    first [n] characters of a longer text. *)
Fixpoint zeros (n : nat) : string :=
  match n with
  | O => EmptyString
  | S n' => String "0" (zeros n')
  end.

Definition lpad (s : string) (n : nat) : string :=
  if (String.length s <=? n)%nat then zeros (n - String.length s) ++ s
  else substring 0 n s.

Section Trigger.
(** [TO_CHAR(CURRENT_TIMESTAMP, 'YYYYMMDD')]. *)
Variable today : string.
(** [FLOOR(RANDOM() * 10000)] in the turn of the loop with a given
    [attempt_count]. *)
Variable random : nat -> Z.
(** The count of the bookings created today, read in that turn. *)
Variable countToday : nat -> Z.
(** Whether the look-up of a booking number finds a row, in that turn. *)
Variable taken : nat -> string -> bool.
(** [gen_random_uuid()::TEXT]. *)
Variable uuid : string.

Definition base_number : string := "BK-" ++ today.

(** The number built in the turn with a given [attempt_count]. *)
Definition candidate (attempt_count : nat) : string :=
  let random_suffix := lpad (Js.toString (random attempt_count)) 4 in
  base_number ++ "-"
  ++ lpad (Js.toString (countToday attempt_count + 1
                        + Z.of_nat attempt_count)) 3
  ++ random_suffix.

(** [WHILE NOT is_unique AND attempt_count < max_attempts]: [remaining]
    is [max_attempts - attempt_count]; the result is the number found
    unique, if one was. *)
Fixpoint attempts (remaining attempt_count : nat) : option string :=
  match remaining with
  | O => None
  | S remaining' =>
      if taken attempt_count (candidate attempt_count)
      then attempts remaining' (S attempt_count)
      else Some (candidate attempt_count)
  end.

Definition max_attempts : nat := 10.

(** [NEW.booking_number] when [generate_booking_number] returns. *)
Definition generate_booking_number : string :=
  match attempts max_attempts 0 with
  | Some number => number
  | None => base_number ++ "-" ++ substring 0 8 uuid
  end.

End Trigger.

End BookingNumber.

(* ===================================================================== *)
(** ** Vocabulary of the specification *)
(* ===================================================================== *)

(** A text made of decimal digits only. *)
Fixpoint digitsOnly (s : string) : bool :=
  match s with
  | EmptyString => true
  | String c s' => Js.isDigit c && digitsOnly s'
  end.

(** The times [a], [a + 60], ... ([n] of them), in minutes after midnight. *)
Definition hourly (a : Z) (n : nat) : list Z :=
  map (fun i => a + 60 * Z.of_nat i) (seq 0 n).

(** How many of the times [a], [a + 60], ... are at most [b]. *)
Definition slotCount (a b : Z) : nat :=
  if a <=? b then Z.to_nat ((b - a) / 60 + 1) else 0%nat.

(** Two instants on the same local calendar day. *)
Definition sameLocalDay (tz a b : Z) : bool :=
  Js.day (Js.localTime tz a) =? Js.day (Js.localTime tz b).

(** The number of bookings on the local calendar day of [date]. *)
Definition bookingsWithinDay (tz : Z) (bookedSlots : list Z) (date : Z) : Z :=
  Z.of_nat (List.length (filter (sameLocalDay tz date) bookedSlots)).

(** The digits of a text, in order. *)
Definition digitsOf (s : string) : string :=
  string_of_list_ascii (filter Js.isDigit (list_ascii_of_string s)).

(** A dispatch that does not deliver: [sendSMS] resolves to
    [{ success: false }] or throws. *)
Definition smsFails (c : Js.Completion TwilioSender.SmsResult) : Prop :=
  match c with
  | Js.Normal r => TwilioSender.success r = false
  | Js.Throws _ => True
  end.

(** The detail line of the warning shown for a failed dispatch. *)
Definition failureDetail (c : Js.Completion TwilioSender.SmsResult)
  : option string :=
  match c with
  | Js.Normal r => TwilioSender.sms_error r
  | Js.Throws (Js.ErrorObject m) => Some m
  | Js.Throws Js.OtherValue => Some "Unknown error"
  end.


(** The ["HH:mm"] text of [h] hours and [m] minutes, as the selects of the
    work hours build it from their two-digit options. *)
Definition clockText (h m : Z) : string :=
  Js.padStart2 (Js.toString h) ++ ":" ++ Js.padStart2 (Js.toString m).

(** Work hours the settings form can hold: two clock texts, the start
    before the end. *)
Definition WorkHoursOk (s : App.Settings) : Prop :=
  exists h m h' m',
    App.workStartTime s = clockText h m
    /\ App.workEndTime s = clockText h' m'
    /\ 0 <= h <= 24 /\ 0 <= m <= 59 /\ 0 <= h' <= 24 /\ 0 <= m' <= 59
    /\ h * 60 + m < h' * 60 + m'.

(** Settings the form can hold. *)
Definition SettingsOk (s : App.Settings) : Prop :=
  1 <= App.minIntervalHours s <= 24
  /\ (forall limit, App.maxBookingsPerDay s = Some limit -> 1 <= limit)
  /\ Forall (fun d => 0 <= d <= 6) (App.disabledWeekdays s)
  /\ WorkHoursOk s.

(** What the user can do in the settings form. *)
Inductive SettingsEvent : Type :=
| SelectFirstDay (value : Z)
| ToggleWeekday (day : Z) (checked : bool)
| RemoveDate (index : nat)
| AddDate (now : Z)
| ChangeMinInterval (value : option Z)
| SelectStartHour (newHour : string)
| SelectStartMinute (newMinutes : string)
| SelectEndHour (newHour : string)
| SelectEndMinute (newMinutes : string)
| ToggleMaxBookings (checked : bool)
| ChangeMaxBookings (value : option Z)
| ToggleSendSMS (checked : bool).

(** The handler of each event. *)
Definition handle (tz : Z) (s : App.Settings) (e : SettingsEvent)
  : AdminSettings.Outcome :=
  match e with
  | SelectFirstDay v => AdminSettings.onFirstDayChange s v
  | ToggleWeekday d c => AdminSettings.onWeekdayToggle s d c
  | RemoveDate i => AdminSettings.onRemoveDate s i
  | AddDate now => AdminSettings.onAddDate tz now s
  | ChangeMinInterval v => AdminSettings.onMinIntervalChange s v
  | SelectStartHour h => AdminSettings.onStartHourChange s h
  | SelectStartMinute m => AdminSettings.onStartMinuteChange s m
  | SelectEndHour h => AdminSettings.onEndHourChange s h
  | SelectEndMinute m => AdminSettings.onEndMinuteChange s m
  | ToggleMaxBookings c => AdminSettings.onMaxBookingsToggle s c
  | ChangeMaxBookings v => AdminSettings.onMaxBookingsChange s v
  | ToggleSendSMS c => AdminSettings.onSendSMSToggle s c
  end.

(** The values the controls of the form offer: weekdays 0 to 6, hours
    ["01"] to ["24"], minutes ["00"] to ["59"]. *)
Definition offered (e : SettingsEvent) : Prop :=
  match e with
  | ToggleWeekday d _ => 0 <= d <= 6
  | SelectStartHour h | SelectEndHour h =>
      exists k, 1 <= k <= 24 /\ h = Js.padStart2 (Js.toString k)
  | SelectStartMinute m | SelectEndMinute m =>
      exists k, 0 <= k <= 59 /\ m = Js.padStart2 (Js.toString k)
  | _ => True
  end.

(** The settings after an event, [t] being the translation of the
    toasts. *)
Definition afterEvent (t : string -> string) (tz : Z) (s : App.Settings)
    (e : SettingsEvent) : App.Settings :=
  AdminSettings.fs_settings
    (AdminSettings.apply t (handle tz s e)
       (AdminSettings.mkFormState s AdminSettings.NoItem [])).

(** For every [x] and [y] below 100, the two-digit texts have two
    characters and compare as the numbers do. *)
Definition twoDigitTextsOrdered : bool :=
  let range := map Z.of_nat (seq 0 100) in
  forallb (fun x =>
    (String.length (Js.padStart2 (Js.toString x)) =? 2)%nat
    && forallb (fun y =>
         match String.compare (Js.padStart2 (Js.toString x))
                              (Js.padStart2 (Js.toString y)), x ?= y with
         | Eq, Eq | Lt, Lt | Gt, Gt => true
         | _, _ => false
         end) range) range.

(** The years 1000 to 9999 are written with four characters. *)
Definition yearsHaveFourDigits : bool :=
  forallb (fun century =>
    forallb (fun y =>
      (String.length (Js.toString (1000 + 100 * century + y)) =? 4)%nat)
      (map Z.of_nat (seq 0 100)))
    (map Z.of_nat (seq 0 90)).

(** The value [saveField] works with: the argument when it is given, else
    the pending edit of the field, if any. *)
Definition valueToSave (w : AdminBookings.World) (id : string)
    (field : AdminBookings.Field) (directValue : option AdminBookings.Value)
  : option AdminBookings.Value :=
  match directValue with
  | Some v => Some v
  | None => match AdminBookings.editedFields w id with
            | Some edits => edits field
            | None => None
            end
  end.

(** Row by row, an update aimed at [id] leaves every row with another id
    as it was. *)
Definition otherRowsKept (id : string)
    (before after : list AdminBookings.StoredRow) : Prop :=
  Forall2 (fun r r' =>
             AdminBookings.idOf (AdminBookings.row r) <> id -> r' = r)
          before after.

(** Row by row, the rows with [id] hold the instant [stamp] in
    [updated_at] and [written] in column [field] (when [field] is
    [updated_at] itself, the stamp), and are otherwise as before; the
    other rows are as before. *)
Definition columnWritten (stamp : Z) (id : string)
    (field : AdminBookings.Field) (written : AdminBookings.Value)
    (before after : list AdminBookings.StoredRow) : Prop :=
  Forall2 (fun r r' =>
             if String.eqb (AdminBookings.idOf (AdminBookings.row r)) id
             then (forall f,
                     AdminBookings.row r' f
                     = if AdminBookings.Field_eqb f
                                                  AdminBookings.Col_updated_at
                       then AdminBookings.VTime stamp
                       else if AdminBookings.Field_eqb f field then written
                       else AdminBookings.row r f)
                  /\ AdminBookings.row_deleted_at r'
                     = AdminBookings.row_deleted_at r
             else r' = r)
          before after.

(** Row by row, the rows with [id] have [deleted_at] set to [now] and
    [updated_at] to [stamp] and hold the same data otherwise; the other
    rows are as before. *)
Definition softDeleted (stamp now : Z) (id : string)
    (before after : list AdminBookings.StoredRow) : Prop :=
  Forall2 (fun r r' =>
             if String.eqb (AdminBookings.idOf (AdminBookings.row r)) id
             then (forall f,
                     AdminBookings.row r' f
                     = if AdminBookings.Field_eqb f
                                                  AdminBookings.Col_updated_at
                       then AdminBookings.VTime stamp
                       else AdminBookings.row r f)
                  /\ AdminBookings.row_deleted_at r' = Some now
             else r' = r)
          before after.
(* ===================================================================== *)
(** ** Facts about the runtime functions *)
(* ===================================================================== *)

Section JsFacts.
Import Js.

Example civilFromDays_examples :
  civilFromDays 0 = (1970, 1, 1)
  /\ civilFromDays (-1) = (1969, 12, 31)
  /\ civilFromDays 11016 = (2000, 2, 29)
  /\ civilFromDays 19782 = (2024, 2, 29)
  /\ civilFromDays 20138 = (2025, 2, 19)
  /\ getDay 0 (20138 * msPerDay) = 3
  /\ getDay 7200000 (20141 * msPerDay - 1) = 6.
Proof. repeat split. Qed.

Example Number_examples :
  Number "09" = Some 9 /\ Number "" = Some 0 /\ Number "-5" = Some (-5)
  /\ Number "+" = None /\ Number "1x" = None
  /\ splitHM "09:30" = (Some 9, Some 30) /\ splitHM "9" = (Some 9, None)
  /\ splitColon "a::b" = ["a"; ""; "b"].
Proof. repeat split. Qed.

Lemma string_of_uint_digits (d : Decimal.uint) :
  digitsOnly (NilEmpty.string_of_uint d) = true.
Proof. induction d; simpl; auto. Qed.

Lemma toString_nonneg (n : Z) :
  0 <= n ->
  exists d, d <> Decimal.Nil
            /\ toString n = NilEmpty.string_of_uint d
            /\ Z.of_uint d = n.
Proof.
  intros Hn. destruct n as [|p|p]; [| |lia].
  - exists (Decimal.D0 Decimal.Nil). repeat split; congruence.
  - exists (Pos.to_uint p). split; [|split].
    + intros E. pose proof (DecimalPos.Unsigned.of_to p) as H.
      rewrite E in H. discriminate.
    + unfold toString. simpl.
      destruct (Pos.to_uint p) eqn:E; try reflexivity.
      pose proof (DecimalPos.Unsigned.of_to p) as H.
      rewrite E in H. discriminate.
    + unfold Z.of_uint. rewrite DecimalPos.Unsigned.of_to. reflexivity.
Qed.

Lemma padStart2_uint (d : Decimal.uint) :
  d <> Decimal.Nil ->
  exists d', d' <> Decimal.Nil
             /\ padStart2 (NilEmpty.string_of_uint d) = NilEmpty.string_of_uint d'
             /\ Z.of_uint d' = Z.of_uint d.
Proof.
  intros Hd.
  destruct d as [|d|d|d|d|d|d|d|d|d|d]; [congruence|..]; destruct d;
    match goal with
    | |- exists d', _ /\ padStart2 (NilEmpty.string_of_uint ?x) = _ /\ _ =>
        first [ exists x; split; [discriminate | split; reflexivity]
              | exists (Decimal.D0 x);
                split; [discriminate | split; reflexivity] ]
    end.
Qed.

Lemma Number_uint (d : Decimal.uint) :
  d <> Decimal.Nil ->
  Number (NilEmpty.string_of_uint d) = Some (Z.of_uint d).
Proof.
  intros Hd.
  assert (H : digitsValue (NilEmpty.string_of_uint d) = Some (Z.of_uint d)).
  { unfold digitsValue, NilZero.uint_of_string.
    destruct (NilEmpty.string_of_uint d) eqn:E.
    - destruct d; simpl in E; congruence.
    - rewrite <- E, NilEmpty.usu. reflexivity. }
  destruct d; [congruence|..]; exact H.
Qed.

Lemma splitColon_uint_colon (d : Decimal.uint) (s : string) :
  splitColon (NilEmpty.string_of_uint d ++ String ":" s)
  = NilEmpty.string_of_uint d :: splitColon s.
Proof. induction d; simpl; try rewrite IHd; reflexivity. Qed.

Lemma splitColon_uint (d : Decimal.uint) :
  splitColon (NilEmpty.string_of_uint d) = [NilEmpty.string_of_uint d].
Proof. induction d; simpl; try rewrite IHd; reflexivity. Qed.

(** Reading back the two numbers of a ["HH:mm"] text. *)
Lemma splitHM_pad (h m : Z) :
  0 <= h -> 0 <= m ->
  splitHM (padStart2 (toString h) ++ ":" ++ padStart2 (toString m))
  = (Some h, Some m).
Proof.
  intros Hh Hm.
  destruct (toString_nonneg h Hh) as (dh & Nh & Eh & Vh).
  destruct (toString_nonneg m Hm) as (dm & Nm & Em & Vm).
  destruct (padStart2_uint dh Nh) as (dh' & Nh' & Eh' & Vh').
  destruct (padStart2_uint dm Nm) as (dm' & Nm' & Em' & Vm').
  rewrite Eh, Em, Eh', Em'. unfold splitHM. simpl append.
  rewrite splitColon_uint_colon, splitColon_uint. simpl.
  rewrite !Number_uint by assumption. congruence.
Qed.

End JsFacts.

(* ===================================================================== *)
(** ** The Time-Slot Generator *)
(* ===================================================================== *)

Section GeneratorFacts.
Import App.

(** One turn of the [for] loop. *)
Lemma slotLoop_unfold (endMinutes minutes : Z) :
  slotLoop endMinutes minutes
  = if minutes <=? endMinutes
    then slotText minutes :: slotLoop endMinutes (minutes + 60)
    else [].
Proof.
  rewrite slotLoop_equation_1.
  destruct (Z_le_dec minutes endMinutes) as [H|H]; simpl;
    [apply Z.leb_le in H | apply Z.leb_nle in H]; rewrite H; reflexivity.
Qed.

Lemma hourly_S (a : Z) (n : nat) :
  hourly a (S n) = a :: hourly (a + 60) n.
Proof.
  unfold hourly. change (seq 0 (S n)) with (0%nat :: seq 1 n).
  rewrite map_cons. f_equal; [lia|].
  rewrite <- seq_shift, map_map. apply map_ext. intros i. lia.
Qed.

Lemma hourly_snoc (a : Z) (n : nat) :
  hourly a (S n) = (hourly a n ++ [a + 60 * Z.of_nat n])%list.
Proof. unfold hourly. rewrite seq_S, map_app. reflexivity. Qed.

Lemma hourly_nth (a : Z) (n i : nat) (x : Z) :
  nth_error (hourly a n) i = Some x -> x = a + 60 * Z.of_nat i /\ (i < n)%nat.
Proof.
  unfold hourly. intros H.
  rewrite nth_error_map, nth_error_seq in H.
  destruct (Nat.ltb_spec i n); [|discriminate].
  simpl in H. injection H as <-. split; [reflexivity|assumption].
Qed.

Lemma hourly_In (a : Z) (n : nat) (x : Z) :
  In x (hourly a n) <-> exists i, (i < n)%nat /\ x = a + 60 * Z.of_nat i.
Proof.
  unfold hourly. rewrite in_map_iff. split.
  - intros (i & <- & Hi). apply in_seq in Hi. exists i. split; [lia|lia].
  - intros (i & Hi & ->). exists i. split; [reflexivity|]. apply in_seq. lia.
Qed.

Lemma hourly_sorted (n : nat) : forall a, StronglySorted Z.lt (hourly a n).
Proof.
  induction n as [|n IH]; intros a.
  - constructor.
  - rewrite hourly_S. constructor; [apply IH|].
    apply Forall_forall. intros x Hx.
    apply hourly_In in Hx. destruct Hx as (i & _ & ->). lia.
Qed.

Lemma slotCount_step (a b : Z) :
  a <= b -> slotCount a b = S (slotCount (a + 60) b).
Proof.
  intros Hab. unfold slotCount.
  destruct (Z.leb_spec a b) as [_|]; [|lia].
  destruct (Z.leb_spec (a + 60) b) as [H|H].
  - replace (b - a) with ((b - (a + 60)) + 1 * 60) by lia.
    rewrite Z.div_add by lia.
    assert (0 <= (b - (a + 60)) / 60) by (apply Z.div_pos; lia). lia.
  - rewrite Z.div_small by lia. reflexivity.
Qed.

(** The loop pushes the texts of [minutes], [minutes + 60], ... up to
    [endMinutes]. *)
Lemma slotLoop_hourly (endMinutes minutes : Z) :
  slotLoop endMinutes minutes
  = map slotText (hourly minutes (slotCount minutes endMinutes)).
Proof.
  funelim (slotLoop endMinutes minutes).
  - rewrite slotCount_step by assumption. rewrite hourly_S. simpl.
    f_equal. assumption.
  - unfold slotCount. destruct (Z.leb_spec minutes endMinutes); [lia|].
    reflexivity.
Qed.

(** A generated text reads back as the time it was made from. *)
Lemma minutesOf_slotText (minutes : Z) :
  0 <= minutes -> minutesOf (slotText minutes) = Some minutes.
Proof.
  intros H. unfold minutesOf, slotText. cbv zeta.
  assert (Hq : 0 <= minutes / 60) by (apply Z.div_pos; lia).
  assert (Hr : 0 <= Z.rem minutes 60) by (apply Z.rem_nonneg; lia).
  rewrite splitHM_pad by assumption.
  f_equal. rewrite Z.rem_mod_nonneg by lia.
  pose proof (Z.div_mod minutes 60). lia.
Qed.

Lemma minutesOf_hourly (a : Z) (n : nat) :
  0 <= a ->
  map minutesOf (map slotText (hourly a n)) = map Some (hourly a n).
Proof.
  intros Ha. rewrite map_map. apply map_ext_in.
  intros x Hx. apply hourly_In in Hx. destruct Hx as (i & _ & ->).
  apply minutesOf_slotText. lia.
Qed.

End GeneratorFacts.

(** C2. For work hours that read as times [a < b] (minutes after midnight),
    [generateTimeSlots] returns a non-empty list of texts; the times they
    read back as are strictly increasing, start at [a] (the first text is
    the ["HH:mm"] text of [a]), go up by exactly 60 minutes from one to the
    next, and end at the largest [a + 60 * k] that is at most [b]; [b]
    itself is among them exactly when [b - a] is a whole number of hours. *)
Theorem generateTimeSlots_hourly_sequence
    (startTime endTime : string) (a b : Z) :
  App.minutesOf startTime = Some a ->
  App.minutesOf endTime = Some b ->
  0 <= a -> a < b ->
  exists times : list Z,
    App.generateTimeSlots startTime endTime = map App.slotText times
    /\ map App.minutesOf (App.generateTimeSlots startTime endTime)
       = map Some times
    /\ App.generateTimeSlots startTime endTime <> []
    /\ hd_error times = Some a
    /\ hd_error (App.generateTimeSlots startTime endTime)
       = Some (App.slotText a)
    /\ (forall i x y,
          nth_error times i = Some x -> nth_error times (S i) = Some y ->
          y = x + 60)
    /\ StronglySorted Z.lt times
    /\ (exists k, 0 <= k /\ last times a = a + 60 * k)
    /\ last times a <= b
    /\ (forall j, 0 <= j -> a + 60 * j <= b -> a + 60 * j <= last times a)
    /\ (In b times <-> (b - a) mod 60 = 0).
Proof.
  intros Hs He Ha Hab.
  unfold App.generateTimeSlots. rewrite Hs, He, slotLoop_hourly.
  set (n := Z.to_nat ((b - a) / 60)).
  assert (Hq : 0 <= (b - a) / 60) by (apply Z.div_pos; lia).
  assert (Hn : slotCount a b = S n).
  { unfold slotCount, n. destruct (Z.leb_spec a b); lia. }
  assert (Hdm : b - a = 60 * ((b - a) / 60) + (b - a) mod 60)
    by (apply Z.div_mod; lia).
  assert (Hr : 0 <= (b - a) mod 60 < 60) by (apply Z.mod_pos_bound; lia).
  assert (Hlast : last (hourly a (S n)) a = a + 60 * Z.of_nat n).
  { rewrite hourly_snoc. apply last_last. }
  rewrite Hn. exists (hourly a (S n)).
  split; [reflexivity|].
  split; [apply minutesOf_hourly; assumption|].
  split; [rewrite hourly_S; discriminate|].
  split; [rewrite hourly_S; reflexivity|].
  split; [rewrite hourly_S; reflexivity|].
  split.
  { intros i x y Hx Hy.
    apply hourly_nth in Hx. apply hourly_nth in Hy. lia. }
  split; [apply hourly_sorted|].
  split; [exists (Z.of_nat n); rewrite Hlast; lia|].
  rewrite Hlast. unfold n. rewrite Z2Nat.id by assumption.
  split; [lia|].
  split; [intros j Hj Hle; lia|].
  rewrite hourly_In. split.
  - intros (i & Hi & Hb).
    replace (b - a) with (Z.of_nat i * 60) by lia. apply Z.mod_mul. lia.
  - intros Hz. exists (Z.to_nat ((b - a) / 60)). split; [lia|].
    rewrite Z2Nat.id by assumption. lia.
Qed.

Lemma generateTimeSlots_hourly_sequence_witness :
  exists times : list Z,
    App.generateTimeSlots "09:30" "12:00" = map App.slotText times
    /\ map App.minutesOf (App.generateTimeSlots "09:30" "12:00")
       = map Some times
    /\ App.generateTimeSlots "09:30" "12:00" <> []
    /\ hd_error times = Some 570
    /\ hd_error (App.generateTimeSlots "09:30" "12:00")
       = Some (App.slotText 570)
    /\ (forall i x y,
          nth_error times i = Some x -> nth_error times (S i) = Some y ->
          y = x + 60)
    /\ StronglySorted Z.lt times
    /\ (exists k, 0 <= k /\ last times 570 = 570 + 60 * k)
    /\ last times 570 <= 720
    /\ (forall j, 0 <= j -> 570 + 60 * j <= 720 ->
                  570 + 60 * j <= last times 570)
    /\ (In 720 times <-> (720 - 570) mod 60 = 0).
Proof.
  apply (generateTimeSlots_hourly_sequence "09:30" "12:00" 570 720);
    [reflexivity | reflexivity | lia | lia].
Defined.

(** C8. When the start of the work hours is later than their end, no slot
    is generated. *)
Theorem generateTimeSlots_empty_when_start_after_end
    (startTime endTime : string) (a b : Z) :
  App.minutesOf startTime = Some a ->
  App.minutesOf endTime = Some b ->
  b < a ->
  App.generateTimeSlots startTime endTime = [].
Proof.
  intros Hs He Hlt. unfold App.generateTimeSlots.
  rewrite Hs, He, slotLoop_unfold.
  destruct (Z.leb_spec a b); [lia|reflexivity].
Qed.

Lemma generateTimeSlots_empty_when_start_after_end_witness :
  App.generateTimeSlots "20:00" "09:00" = [].
Proof.
  apply (generateTimeSlots_empty_when_start_after_end "20:00" "09:00" 1200 540);
    [reflexivity | reflexivity | lia].
Defined.

(* ===================================================================== *)
(** ** The Slot Availability Predicate *)
(* ===================================================================== *)

Section AvailabilityFacts.
Import App.

Lemma minIntervalMs_positive (settings : Settings) :
  0 < minIntervalHours settings ->
  minIntervalMs settings = minIntervalHours settings * 3600000.
Proof.
  intros H. unfold minIntervalMs.
  destruct (Z.eqb_spec (minIntervalHours settings) 0); lia.
Qed.

Lemma tooClose_iff (bookedSlots : list Z) (interval t : Z) :
  tooClose bookedSlots interval (Some t) = true
  <-> exists b, In b bookedSlots /\ Z.abs (t - b) < interval.
Proof.
  unfold tooClose. rewrite existsb_exists.
  split; intros (b & Hb & H); exists b; (split; [exact Hb|]);
    [apply Z.ltb_lt in H | apply Z.ltb_lt]; exact H.
Qed.

Lemma slotAvailable_forall (bookedSlots : list Z) (interval t : Z) :
  slotAvailable bookedSlots interval (Some t) = true
  <-> forall b, In b bookedSlots -> ~ Z.abs (t - b) < interval.
Proof.
  unfold slotAvailable. rewrite negb_true_iff.
  split.
  - intros H b Hb Hlt.
    assert (E : tooClose bookedSlots interval (Some t) = true)
      by (apply tooClose_iff; exists b; auto).
    congruence.
  - intros H. destruct (tooClose bookedSlots interval (Some t)) eqn:E;
      [|reflexivity].
    apply tooClose_iff in E. destruct E as (b & Hb & Hlt).
    exfalso. exact (H b Hb Hlt).
Qed.

(** The instant of a generated slot on a date: local midnight of the
    date plus the slot's minutes. *)
Lemma timeToCheck_slotText (tz date minutes : Z) :
  0 <= minutes ->
  timeToCheck tz date (slotText minutes)
  = Some (Js.setHours tz date 0 0 0 0 + minutes * Js.msPerMinute).
Proof.
  intros H. unfold timeToCheck, slotText. cbv zeta.
  assert (Hq : 0 <= minutes / 60) by (apply Z.div_pos; lia).
  assert (Hr : 0 <= Z.rem minutes 60) by (apply Z.rem_nonneg; lia).
  rewrite splitHM_pad by assumption.
  unfold Js.setHoursNum, Js.setHours, Js.utc, Js.msPerHour, Js.msPerMinute.
  f_equal. rewrite Z.rem_mod_nonneg by lia.
  pose proof (Z.div_mod minutes 60). lia.
Qed.

End AvailabilityFacts.

(** C1. With a positive [minIntervalHours], a slot instant is available
    exactly when no booked instant is strictly closer to it than
    [minIntervalHours] hours, in milliseconds; the time slots offered for a
    date are the generated ones that are available in this sense; with no
    booking every slot is available; an instant exactly the interval away
    from the only booking, before or after it, is available and one minute
    closer is not; and with an interval of 3 hours and a booking at 10:00,
    the slot at 13:00 of that day is available while the one at 12:59 is
    not. *)
Theorem slot_available_iff_no_booking_within_interval
    (tz : Z) (settings : App.Settings) (bookedSlots : list Z) (t : Z) :
  0 < App.minIntervalHours settings ->
  (App.slotAvailable bookedSlots (App.minIntervalMs settings) (Some t) = true
   <-> forall b, In b bookedSlots ->
         ~ Z.abs (t - b) < App.minIntervalHours settings * 3600000)
  /\ (forall date time,
        In time (App.updateAvailableTimeSlots tz settings bookedSlots date)
        <-> In time (App.timeSlots settings)
            /\ App.slotAvailable bookedSlots (App.minIntervalMs settings)
                                 (App.timeToCheck tz date time) = true)
  /\ App.slotAvailable [] (App.minIntervalMs settings) (Some t) = true
  /\ (forall date, App.updateAvailableTimeSlots tz settings [] date
                   = App.timeSlots settings)
  /\ (let interval := App.minIntervalHours settings * 3600000 in
      App.slotAvailable [t] (App.minIntervalMs settings)
                        (Some (t + interval)) = true
      /\ App.slotAvailable [t] (App.minIntervalMs settings)
                           (Some (t - interval)) = true
      /\ App.slotAvailable [t] (App.minIntervalMs settings)
                           (Some (t + interval - 60000)) = false
      /\ App.slotAvailable [t] (App.minIntervalMs settings)
                           (Some (t - interval + 60000)) = false)
  /\ (App.minIntervalHours settings = 3 ->
      forall date,
        let booked := [Js.setHours tz date 10 0 0 0] in
        App.slotAvailable booked (App.minIntervalMs settings)
                          (App.timeToCheck tz date "13:00") = true
        /\ App.slotAvailable booked (App.minIntervalMs settings)
                             (App.timeToCheck tz date "12:59") = false).
Proof.
  intros Hpos.
  pose proof (minIntervalMs_positive settings Hpos) as Hms.
  split; [rewrite Hms; apply slotAvailable_forall|].
  split; [intros date time; unfold App.updateAvailableTimeSlots;
          apply filter_In|].
  split; [reflexivity|].
  split.
  { intros date. unfold App.updateAvailableTimeSlots.
    apply forallb_filter_id. apply forallb_forall. reflexivity. }
  split.
  { rewrite Hms. cbv zeta. unfold App.slotAvailable, App.tooClose.
    simpl existsb. rewrite !orb_false_r.
    repeat split;
      first [ apply negb_true_iff, Z.ltb_ge | apply negb_false_iff, Z.ltb_lt ];
      lia. }
  intros H3 date booked. rewrite Hms, H3.
  change "13:00" with (App.slotText 780).
  change "12:59" with (App.slotText 779).
  rewrite !timeToCheck_slotText by lia.
  unfold booked, App.slotAvailable, App.tooClose, Js.setHours, Js.utc,
    Js.msPerHour, Js.msPerMinute.
  simpl existsb. rewrite !orb_false_r.
  split; [apply negb_true_iff, Z.ltb_ge | apply negb_false_iff, Z.ltb_lt]; lia.
Qed.

Lemma slot_available_iff_no_booking_within_interval_witness :
  0 < App.minIntervalHours App.defaultSettings
  /\ (App.slotAvailable [36000000] (App.minIntervalMs App.defaultSettings)
                        (Some 46800000) = true
      <-> forall b, In b [36000000] ->
            ~ Z.abs (46800000 - b)
              < App.minIntervalHours App.defaultSettings * 3600000).
Proof.
  split; [reflexivity|].
  exact (proj1 (slot_available_iff_no_booking_within_interval
                  0 App.defaultSettings [36000000] 46800000 eq_refl)).
Defined.

(** The scenario of the specification: work hours 09:00 to 20:00 and an
    interval of 3 hours; with no booking all twelve slots are offered, and
    a booking at 10:00 leaves 13:00 to 20:00. *)
Example slots_of_default_settings :
  App.updateAvailableTimeSlots 0 App.defaultSettings [] (20138 * 86400000)
  = ["09:00"; "10:00"; "11:00"; "12:00"; "13:00"; "14:00"; "15:00"; "16:00";
     "17:00"; "18:00"; "19:00"; "20:00"]
  /\ App.updateAvailableTimeSlots 0 App.defaultSettings
       [20138 * 86400000 + 10 * 3600000] (20138 * 86400000)
     = ["13:00"; "14:00"; "15:00"; "16:00"; "17:00"; "18:00"; "19:00";
        "20:00"].
Proof. split; vm_compute; reflexivity. Qed.

(* ===================================================================== *)
(** ** The Date Disablement Predicate *)
(* ===================================================================== *)

Section DisablementFacts.
Import App.
Variables (tz now : Z) (settings : Settings) (bookedSlots : list Z).

Lemma setHours_midnight (d : Z) :
  Js.setHours tz d 0 0 0 0 = Js.day (Js.localTime tz d) * Js.msPerDay - tz.
Proof. unfold Js.setHours, Js.utc. lia. Qed.

Lemma isPast_iff (date : Z) :
  isPast tz now date = true
  <-> Js.day (Js.localTime tz date) < Js.day (Js.localTime tz now).
Proof.
  unfold isPast. cbv zeta. rewrite Z.ltb_lt, !setHours_midnight.
  unfold Js.msPerDay. lia.
Qed.

Lemma weekdayDisabled_iff (date : Z) :
  weekdayDisabled tz settings date = true
  <-> In (Js.getDay tz date) (disabledWeekdays settings).
Proof.
  unfold weekdayDisabled. rewrite existsb_exists. split.
  - intros (x & Hx & E). apply Z.eqb_eq in E. congruence.
  - intros H. eexists. split; [exact H|apply Z.eqb_refl].
Qed.

Lemma dateListed_iff (date : Z) :
  dateListed tz settings date = true
  <-> In (formatDateToYYYYMMDD tz date) (disabledDates settings).
Proof.
  unfold dateListed. rewrite existsb_exists. split.
  - intros (x & Hx & E). apply String.eqb_eq in E. congruence.
  - intros H. eexists. split; [exact H|apply String.eqb_refl].
Qed.

(** From 00:00:00.000 to 23:59:59.999 is the whole local day. *)
Lemma within_day_bounds (date slotDate : Z) :
  (Js.setHours tz date 0 0 0 0 <=? slotDate)
  && (slotDate <=? Js.setHours tz date 23 59 59 999)
  = sameLocalDay tz date slotDate.
Proof.
  unfold sameLocalDay, Js.setHours, Js.utc, Js.day, Js.localTime,
    Js.msPerDay, Js.msPerHour, Js.msPerMinute.
  apply eq_true_iff_eq.
  rewrite andb_true_iff, !Z.leb_le, Z.eqb_eq.
  pose proof (Z.div_mod (date + tz) 86400000).
  pose proof (Z.mod_pos_bound (date + tz) 86400000).
  pose proof (Z.div_mod (slotDate + tz) 86400000).
  pose proof (Z.mod_pos_bound (slotDate + tz) 86400000).
  lia.
Qed.

Lemma bookingsOnDate_within_day (date : Z) :
  bookingsOnDate tz bookedSlots date = bookingsWithinDay tz bookedSlots date.
Proof.
  unfold bookingsOnDate, bookingsWithinDay. cbv zeta. do 2 f_equal.
  apply filter_ext. intros s. apply within_day_bounds.
Qed.

Lemma capacityReached_iff (date : Z) :
  capacityReached tz settings bookedSlots date = true
  <-> exists maxBookings,
        maxBookingsPerDay settings = Some maxBookings
        /\ maxBookings <= bookingsWithinDay tz bookedSlots date.
Proof.
  unfold capacityReached. rewrite bookingsOnDate_within_day.
  destruct (maxBookingsPerDay settings) as [m|].
  - rewrite Z.leb_le. split.
    + intros H. exists m. auto.
    + intros (m' & [= <-] & H). exact H.
  - split; [discriminate|]. intros (m' & E & _). discriminate.
Qed.

(** [timeSlots.some(p)] finds nothing exactly when [timeSlots.filter(p)]
    is empty. *)
Lemma hasAvailableSlots_false_iff (date : Z) :
  negb (hasAvailableSlots tz settings bookedSlots date) = true
  <-> updateAvailableTimeSlots tz settings bookedSlots date = [].
Proof.
  unfold hasAvailableSlots, updateAvailableTimeSlots.
  rewrite negb_true_iff.
  induction (timeSlots settings) as [|time l IH]; simpl.
  - split; reflexivity.
  - destruct (slotAvailable bookedSlots (minIntervalMs settings)
                            (timeToCheck tz date time)); simpl.
    + split; discriminate.
    + exact IH.
Qed.

(** The chain of early returns is a disjunction. *)
Lemma isDateDisabled_orb (date : Z) :
  isDateDisabled tz now settings bookedSlots date
  = isPast tz now date
    || weekdayDisabled tz settings date
    || dateListed tz settings date
    || capacityReached tz settings bookedSlots date
    || negb (hasAvailableSlots tz settings bookedSlots date).
Proof.
  unfold isDateDisabled.
  destruct (isPast tz now date), (weekdayDisabled tz settings date),
    (dateListed tz settings date),
    (capacityReached tz settings bookedSlots date); reflexivity.
Qed.

End DisablementFacts.

Lemma existsb_Permutation {A : Type} (f : A -> bool) (l l' : list A) :
  Permutation l l' -> existsb f l = existsb f l'.
Proof.
  induction 1 as [|x l l' _ IH|x y l|l l' l'' _ IH1 _ IH2]; simpl.
  - reflexivity.
  - rewrite IH. reflexivity.
  - destruct (f x), (f y); reflexivity.
  - congruence.
Qed.

(** C3. A date is disabled exactly when at least one of five conditions
    holds: its local day is before today's; its weekday is in
    [disabledWeekdays]; its year-month-day text is in [disabledDates];
    [maxBookingsPerDay] is set and at most the number of bookings on that
    local day; or no generated slot of that date is available.  The result
    is the disjunction of the five checks taken in any order. *)
Theorem isDateDisabled_iff_some_rule
    (tz now : Z) (settings : App.Settings) (bookedSlots : list Z) (date : Z)
    (checks : list bool) :
  Permutation checks
    [App.isPast tz now date;
     App.weekdayDisabled tz settings date;
     App.dateListed tz settings date;
     App.capacityReached tz settings bookedSlots date;
     negb (App.hasAvailableSlots tz settings bookedSlots date)] ->
  (App.isDateDisabled tz now settings bookedSlots date = true
   <-> Js.day (Js.localTime tz date) < Js.day (Js.localTime tz now)
       \/ In (Js.getDay tz date) (App.disabledWeekdays settings)
       \/ In (App.formatDateToYYYYMMDD tz date) (App.disabledDates settings)
       \/ (exists maxBookings,
             App.maxBookingsPerDay settings = Some maxBookings
             /\ maxBookings <= bookingsWithinDay tz bookedSlots date)
       \/ App.updateAvailableTimeSlots tz settings bookedSlots date = [])
  /\ App.isDateDisabled tz now settings bookedSlots date
     = existsb (fun check => check) checks.
Proof.
  intros Hperm. split.
  - rewrite isDateDisabled_orb, !orb_true_iff.
    rewrite isPast_iff, weekdayDisabled_iff, dateListed_iff,
      capacityReached_iff, hasAvailableSlots_false_iff.
    tauto.
  - rewrite (existsb_Permutation _ _ _ Hperm), isDateDisabled_orb. simpl.
    rewrite orb_false_r, !orb_assoc. reflexivity.
Qed.

Lemma isDateDisabled_iff_some_rule_witness :
  let settings := App.mkSettings 1 [6] [] 3 "09:00" "20:00" (Some 2) true in
  let now := 20138 * 86400000 + 3600000 in
  let date := 20141 * 86400000 in
  App.isDateDisabled 0 now settings [] date
  = existsb (fun check => check)
      [negb (App.hasAvailableSlots 0 settings [] date);
       App.capacityReached 0 settings [] date;
       App.dateListed 0 settings date;
       App.weekdayDisabled 0 settings date;
       App.isPast 0 now date].
Proof.
  intros settings now date.
  refine (proj2 (isDateDisabled_iff_some_rule 0 now settings [] date _ _)).
  apply Permutation_rev.
Defined.

(** Saturday 22 February 2025 is disabled by [disabledWeekdays = [6]]
    alone, and two bookings on a day reach [maxBookingsPerDay = 2] although
    slots are left on it. *)
Example disabled_by_weekday_and_by_capacity :
  let settings := App.mkSettings 1 [6] [] 3 "09:00" "20:00" (Some 2) true in
  let now := 20138 * 86400000 + 3600000 in
  let wednesday := 20138 * 86400000 in
  let saturday := 20141 * 86400000 in
  let booked := [wednesday + 9 * 3600000; wednesday + 12 * 3600000] in
  App.isDateDisabled 0 now settings [] saturday = true
  /\ App.isDateDisabled 0 now settings [] wednesday = false
  /\ App.isDateDisabled 0 now settings booked wednesday = true
  /\ App.updateAvailableTimeSlots 0 settings booked wednesday
     = ["15:00"; "16:00"; "17:00"; "18:00"; "19:00"; "20:00"].
Proof. vm_compute. repeat split. Qed.

(** C4, as the specification words it, fails: with a cap of one booking a
    day and one booking at 09:00, the day is at its cap and still has the
    slots from 12:00 on. *)
Lemma capacity_reached_with_slots_left :
  let settings := App.mkSettings 1 [] [] 3 "09:00" "20:00" (Some 1) true in
  let date := 20138 * 86400000 in
  let booked := [date + 9 * 3600000] in
  ~ (App.capacityReached 0 settings booked date = true ->
     negb (App.hasAvailableSlots 0 settings booked date) = true).
Proof.
  intros settings date booked H.
  assert (E : negb (App.hasAvailableSlots 0 settings booked date) = false)
    by (vm_compute; reflexivity).
  rewrite H in E; [discriminate|].
  vm_compute. reflexivity.
Qed.

(** C4, amended. A date at or over [maxBookingsPerDay] is disabled whether
    or not it has an available slot left: the capacity check alone decides,
    before the slots are looked at. *)
Theorem capacity_reached_disables_date
    (tz now : Z) (settings : App.Settings) (bookedSlots : list Z) (date : Z)
    (maxBookings : Z) :
  App.maxBookingsPerDay settings = Some maxBookings ->
  maxBookings <= bookingsWithinDay tz bookedSlots date ->
  App.isDateDisabled tz now settings bookedSlots date = true.
Proof.
  intros Hset Hcount.
  assert (H : App.capacityReached tz settings bookedSlots date = true)
    by (apply capacityReached_iff; exists maxBookings; auto).
  rewrite isDateDisabled_orb, H, !orb_true_r. reflexivity.
Qed.

Lemma capacity_reached_disables_date_witness :
  let settings := App.mkSettings 1 [] [] 3 "09:00" "20:00" (Some 1) true in
  let date := 20138 * 86400000 in
  App.isDateDisabled 0 date settings [date + 9 * 3600000] date = true.
Proof.
  intros settings date.
  apply (capacity_reached_disables_date 0 date settings
           [date + 9 * 3600000] date 1).
  - reflexivity.
  - vm_compute. discriminate.
Defined.

(** The other direction the specification mentions does occur: a date
    under its cap with no slot left. *)
Example under_capacity_without_slots :
  let settings := App.mkSettings 1 [] [] 3 "09:00" "11:00" (Some 5) true in
  let date := 20138 * 86400000 in
  let booked := [date + 10 * 3600000] in
  App.capacityReached 0 settings booked date = false
  /\ App.hasAvailableSlots 0 settings booked date = false.
Proof. vm_compute. split; reflexivity. Qed.

(** C10. Availability compares instants, not times within one date: with
    an interval of 3 hours, a booking at 23:00 makes the 01:00 slot of the
    next day unavailable although that day has no booking of its own, and
    when 01:00 is the only slot of the work hours it disables the whole
    next day, none of the other four checks holding. *)
Theorem booking_blocks_slots_of_next_day :
  exists (tz now : Z) (settings shortDay : App.Settings)
         (booking date : Z),
    App.minIntervalHours settings = 3
    /\ App.minIntervalHours shortDay = 3
    /\ booking = Js.setHours tz date (-1) 0 0 0
    /\ Js.day (Js.localTime tz booking) = Js.day (Js.localTime tz date) - 1
    /\ bookingsWithinDay tz [booking] date = 0
    /\ In "01:00" (App.timeSlots settings)
    /\ App.timeToCheck tz date "01:00" = Some (booking + 2 * Js.msPerHour)
    /\ App.slotAvailable [booking] (App.minIntervalMs settings)
                         (App.timeToCheck tz date "01:00") = false
    /\ ~ In "01:00" (App.updateAvailableTimeSlots tz settings [booking] date)
    /\ App.updateAvailableTimeSlots tz settings [] date
       = "01:00" :: App.updateAvailableTimeSlots tz settings [booking] date
    /\ App.timeSlots shortDay = ["01:00"]
    /\ App.isPast tz now date = false
    /\ App.weekdayDisabled tz shortDay date = false
    /\ App.dateListed tz shortDay date = false
    /\ App.capacityReached tz shortDay [booking] date = false
    /\ App.isDateDisabled tz now shortDay [booking] date = true
    /\ App.isDateDisabled tz now shortDay [] date = false.
Proof.
  exists 0, (20138 * 86400000),
    (App.mkSettings 1 [] [] 3 "01:00" "20:00" None true),
    (App.mkSettings 1 [] [] 3 "01:00" "01:30" (Some 1) true),
    (20138 * 86400000 + 23 * 3600000), (20139 * 86400000).
  repeat match goal with |- _ /\ _ => split end;
    try (vm_compute; reflexivity).
  - vm_compute. left. reflexivity.
  - vm_compute. intros H.
    repeat (destruct H as [H|H]; [discriminate H|]). exact H.
Qed.

(* ===================================================================== *)
(** ** The notification sender *)
(* ===================================================================== *)

Section SenderFacts.
Import Js TwilioSender.

Lemma removeNonDigits_digitsOnly (s : string) :
  digitsOnly (removeNonDigits s) = true.
Proof.
  induction s as [|c s IH]; simpl; [reflexivity|].
  destruct (isDigit c) eqn:E; simpl; [rewrite E|]; exact IH.
Qed.

Lemma removeNonDigits_digitsOf (s : string) :
  removeNonDigits s = digitsOf s.
Proof.
  unfold digitsOf. induction s as [|c s IH]; simpl; [reflexivity|].
  destruct (isDigit c); simpl; rewrite IH; reflexivity.
Qed.

(** After the filter the text never starts with a plus sign. *)
Lemma removeNonDigits_no_plus (s : string) :
  startsWithPlus (removeNonDigits s) = false.
Proof.
  pose proof (removeNonDigits_digitsOnly s) as H.
  destruct (removeNonDigits s) as [|c r]; [reflexivity|].
  simpl in *. apply andb_true_iff in H. destruct H as [H _].
  destruct (Ascii.eqb_spec c "+"); [subst c; discriminate H|reflexivity].
Qed.

Lemma formatPhone_plus_digits (phone : string) :
  formatPhone phone = String "+" (removeNonDigits phone).
Proof.
  unfold formatPhone. cbv zeta. rewrite removeNonDigits_no_plus. reflexivity.
Qed.

Lemma interpret_shape (r : InvokeResult) :
  interpret r = {| success := true; sms_error := None |}
  \/ exists text, interpret r = {| success := false; sms_error := Some text |}.
Proof.
  unfold interpret.
  destruct (error r); [right; eexists; reflexivity|].
  destruct (truthyText _); [right; eexists; reflexivity|].
  destruct (_ || _); [left; reflexivity|right; eexists; reflexivity].
Qed.

End SenderFacts.

(** C5. Whatever the edge-function call does (throws, resolves with an
    error, with error-shaped, success-shaped or any other data), [sendSMS]
    does not throw: it resolves to [{ success: true }] or to
    [{ success: false, error }] with a text as [error]. *)
Theorem sendSMS_always_resolves
    (invoke : TwilioSender.Request -> Js.Completion TwilioSender.InvokeResult)
    (phone message : string) :
  exists result,
    TwilioSender.sendSMS invoke phone message = Js.Normal result
    /\ (result = {| TwilioSender.success := true;
                    TwilioSender.sms_error := None |}
        \/ exists text,
             result = {| TwilioSender.success := false;
                         TwilioSender.sms_error := Some text |}).
Proof.
  unfold TwilioSender.sendSMS.
  destruct (invoke (TwilioSender.smsRequest phone message)) as [r|e].
  - exists (TwilioSender.interpret r). split; [reflexivity|].
    apply interpret_shape.
  - eexists. split; [reflexivity|]. right. eexists. reflexivity.
Qed.

(** The result of [sendSMS] for each kind of outcome of the call. *)
Example sendSMS_outcomes (phone message : string) :
  let answers d e :=
    TwilioSender.sendSMS
      (fun _ => Js.Normal (TwilioSender.mkInvokeResult d e)) phone message in
  let body := TwilioSender.mkResponseData in
  let result ok text := Js.Normal (TwilioSender.mkSmsResult ok text) in
  TwilioSender.sendSMS (fun _ => Js.Throws (Js.ErrorObject "Failed to fetch"))
                       phone message
  = result false (Some "Failed to fetch")
  /\ TwilioSender.sendSMS (fun _ => Js.Throws Js.OtherValue) phone message
     = result false (Some "Unknown error occurred")
  /\ answers None (Some (TwilioSender.mkFunctionsError
                           (Some "Edge Function returned a non-2xx status code")))
     = result false (Some "Edge Function returned a non-2xx status code")
  /\ answers None (Some (TwilioSender.mkFunctionsError None))
     = result false (Some "Failed to invoke SMS function. Make sure the Edge Function is deployed.")
  /\ answers (Some (body (Some "Failed to send SMS") (Some "Unknown error")
                         None None)) None
     = result false (Some "Unknown error")
  /\ answers (Some (body (Some "Failed to send SMS") None None None)) None
     = result false (Some "Failed to send SMS")
  /\ answers (Some (body None None (Some true) (Some "SM123"))) None
     = result true None
  /\ answers (Some (body None None None (Some "SM123"))) None
     = result true None
  /\ answers (Some (body None None (Some false) None)) None
     = result false (Some "Unexpected response from SMS service")
  /\ answers None None
     = result false (Some "Unexpected response from SMS service").
Proof. repeat split. Qed.



(** The requests built for some inputs. *)
Example smsRequest_examples :
  TwilioSender.smsRequest "+972 (50) 123-4567" "hi"
  = TwilioSender.mkRequest "+972501234567" "hi"
  /\ TwilioSender.smsRequest "050-1234567" "hi"
     = TwilioSender.mkRequest "+0501234567" "hi"
  /\ TwilioSender.smsRequest "" "hi" = TwilioSender.mkRequest "+" "hi"
  /\ TwilioSender.smsRequest "+ call me" "hi"
     = TwilioSender.mkRequest "+" "hi".
Proof. repeat split. Qed.

Example formatPhone_examples :
  TwilioSender.formatPhone "+972 (50) 123-4567" = "+972501234567"
  /\ TwilioSender.formatPhone "050-1234567" = "+0501234567"
  /\ TwilioSender.formatPhone "" = "+"
  /\ TwilioSender.formatPhone "+ call me" = "+".
Proof. repeat split. Qed.

(* ===================================================================== *)
(** ** Submitting a booking *)
(* ===================================================================== *)

(** X1. Whatever the insert and the dispatch do, [handleSubmit] only ever
    adds to the table, one row at most: it has no step that removes or
    rewrites a row. *)
Lemma handleSubmit_keeps_rows
    (tz : Z) (settings : App.Settings) (t : string -> string)
    (toLocaleString : Z -> string)
    (insertOutcome : App.NewBooking -> option (string * option string))
    (fetchAnswers : bool)
    (twilioSendSMS : string -> string -> Js.Completion TwilioSender.SmsResult)
    (w : App.World) :
  exists added,
    App.store (snd (App.handleSubmit tz settings t toLocaleString
                      insertOutcome fetchAnswers twilioSendSMS w))
    = (App.store w ++ added)%list
    /\ (List.length added <= 1)%nat.
Proof.
  unfold App.handleSubmit.
  destruct (App.appointmentDate (App.formData w)) as [date|];
    [|exists []; simpl; rewrite app_nil_r; auto].
  destruct (App.appointmentTime (App.formData w)) as [|c time] eqn:Et;
    [exists []; simpl; rewrite app_nil_r; auto|].
  unfold App.bind, App.tryFinally, App.tryCatch, App.submitBody,
    App.setIsSubmitting, App.modify.
  rewrite Et. destruct (Js.splitHM (String c time)) as [hours minutes].
  destruct (Js.setHoursNum tz date hours minutes) as [instant|];
    [|exists []; simpl; rewrite app_nil_r; auto].
  unfold App.bind, App.insertBooking.
  destruct (insertOutcome _) as [[newId number]|];
    [|exists []; simpl; rewrite app_nil_r; auto].
  eexists [_]. split; [|simpl; lia].
  cbn -[Js.slice8 App.smsMessage].
  destruct (App.sendSMS settings); cbn -[Js.slice8 App.smsMessage];
    [|reflexivity].
  unfold App.notify, App.tryCatch, App.bind, App.callSendSMS.
  cbn -[Js.slice8 App.smsMessage].
  destruct (twilioSendSMS _ _) as [result|thrown];
    cbn -[Js.slice8 App.smsMessage]; [|reflexivity].
  destruct (TwilioSender.success result); reflexivity.
Qed.

(** C6. When the insert succeeds and the dispatch of the SMS fails (it
    resolves without success or throws), [handleSubmit] ends normally with
    the new row in the table and every earlier row still there, the form
    reset, the booked slots fetched again, the submitting flag cleared, and
    exactly two toasts added: the success toast and a warning carrying the
    failure; no error toast is shown and nothing is removed from the
    table. *)
Theorem booking_survives_failed_sms
    (tz : Z) (settings : App.Settings) (t : string -> string)
    (toLocaleString : Z -> string)
    (insertOutcome : App.NewBooking -> option (string * option string))
    (fetchAnswers : bool)
    (twilioSendSMS : string -> string -> Js.Completion TwilioSender.SmsResult)
    (w : App.World) (date instant : Z) (newId : string)
    (number : option string) :
  let form := App.formData w in
  let row := App.mkRow newId number (App.newBooking form instant) None in
  let bookingNumber := Js.orElse number (Js.slice8 newId) in
  let message := App.smsMessage t toLocaleString form bookingNumber instant in
  let dispatch := twilioSendSMS (App.phone form) message in
  let w' := snd (App.handleSubmit tz settings t toLocaleString insertOutcome
                                  fetchAnswers twilioSendSMS w) in
  App.appointmentDate form = Some date ->
  App.appointmentTime form <> "" ->
  App.timeToCheck tz date (App.appointmentTime form) = Some instant ->
  insertOutcome (App.newBooking form instant) = Some (newId, number) ->
  App.sendSMS settings = true ->
  smsFails dispatch ->
  fst (App.handleSubmit tz settings t toLocaleString insertOutcome
                        fetchAnswers twilioSendSMS w) = Js.Normal tt
  /\ App.store w' = (App.store w ++ [row])%list
  /\ (forall r, In r (App.store w) -> In r (App.store w'))
  /\ App.formData w' = App.emptyForm
  /\ App.fetchCalls w' = S (App.fetchCalls w)
  /\ (fetchAnswers = true -> In instant (App.bookedSlots w'))
  /\ App.isSubmitting w' = false
  /\ App.smsCalls w' = (App.smsCalls w ++ [(App.phone form, message)])%list
  /\ App.toasts w'
     = (App.toasts w
        ++ [App.ToastSuccess (t "bookingSuccess") (t "bookingNumber")
                             bookingNumber;
            App.ToastWarning (t "smsError") (failureDetail dispatch)])%list.
Proof.
  intros form row bookingNumber message dispatch w' Hdate Htime Hinst Hins
    Hsms Hfail.
  assert (E : App.handleSubmit tz settings t toLocaleString insertOutcome
                fetchAnswers twilioSendSMS w
              = (Js.Normal tt,
                 App.mkWorld
                   (App.store w ++ [row]) App.emptyForm false
                   (if fetchAnswers
                    then map (fun r => App.appointment_date (App.booking r))
                             (filter (fun r => match App.deleted_at r with
                                               | None => true
                                               | Some _ => false
                                               end) (App.store w ++ [row]))
                    else App.bookedSlots w)
                   (App.toasts w
                    ++ [App.ToastSuccess (t "bookingSuccess")
                          (t "bookingNumber") bookingNumber;
                        App.ToastWarning (t "smsError")
                          (failureDetail dispatch)])
                   (App.smsCalls w ++ [(App.phone form, message)])
                   (S (App.fetchCalls w)))).
  { unfold App.handleSubmit. fold form. rewrite Hdate.
    destruct (App.appointmentTime form) as [|c time] eqn:Et; [congruence|].
    unfold App.bind, App.tryFinally, App.tryCatch, App.submitBody,
      App.setIsSubmitting, App.modify.
    rewrite Et. unfold App.timeToCheck in Hinst.
    destruct (Js.splitHM (String c time)) as [hours minutes].
    rewrite Hinst.
    unfold App.bind, App.insertBooking. rewrite Hins. cbn -[Js.slice8 App.smsMessage].
    rewrite Hsms.
    unfold App.notify, App.tryCatch, App.bind, App.callSendSMS.
    cbn -[Js.slice8 App.smsMessage].
    fold form bookingNumber message dispatch.
    unfold smsFails in Hfail.
    destruct dispatch as [result|thrown]; cbn -[Js.slice8 App.smsMessage].
    - rewrite Hfail. cbn. rewrite <- !app_assoc. reflexivity.
    - destruct thrown; cbn; rewrite <- !app_assoc; reflexivity. }
  unfold w'. rewrite E. cbn [fst snd App.store App.formData App.fetchCalls
    App.bookedSlots App.isSubmitting App.smsCalls App.toasts].
  repeat match goal with |- _ /\ _ => split end; try reflexivity.
  - intros r Hr. apply in_or_app. left. exact Hr.
  - intros ->. apply in_map_iff. exists row. split; [reflexivity|].
    apply filter_In. split; [|reflexivity].
    apply in_or_app. right. left. reflexivity.
Qed.

Lemma booking_survives_failed_sms_witness :
  let form := App.mkForm "Dana" "Levi" "+972 50-123-4567" "1 Main St" ""
                         "linux" "" (Some (20138 * 86400000)) "13:00" in
  let w := App.mkWorld [] form false [] [] [] 0 in
  let sender :=
    TwilioSender.sendSMS
      (fun _ => Js.Throws (Js.ErrorObject "Failed to fetch")) in
  let run := App.handleSubmit 0 App.defaultSettings (fun key => key)
               (fun _ => "19.02.2025, 13:00:00")
               (fun _ => Some ("0123456789abcdef", None)) true sender w in
  fst run = Js.Normal tt
  /\ App.store (snd run)
     = [App.mkRow "0123456789abcdef" None
          (App.newBooking form (20138 * 86400000 + 13 * 3600000)) None]
  /\ App.bookedSlots (snd run) = [20138 * 86400000 + 13 * 3600000]
  /\ App.toasts (snd run)
     = [App.ToastSuccess "bookingSuccess" "bookingNumber" "01234567";
        App.ToastWarning "smsError" (Some "Failed to fetch")].
Proof.
  intros form w sender run.
  pose proof (booking_survives_failed_sms 0 App.defaultSettings
                (fun key => key) (fun _ => "19.02.2025, 13:00:00")
                (fun _ => Some ("0123456789abcdef", None)) true sender w
                (20138 * 86400000) (20138 * 86400000 + 13 * 3600000)
                "0123456789abcdef" None) as H.
  cbv zeta in H.
  destruct H as (Hres & Hstore & _ & _ & _ & _ & _ & _ & Htoasts).
  - reflexivity.
  - discriminate.
  - reflexivity.
  - reflexivity.
  - reflexivity.
  - reflexivity.
  - split; [exact Hres|]. split; [exact Hstore|].
    split; [reflexivity|]. exact Htoasts.
Defined.

(* ===================================================================== *)
(** ** More on the time slots *)
(* ===================================================================== *)

(** One turn of the loop, under a name that stays visible where the
    names of [App] are imported. *)
Lemma slotLoop_step (endMinutes minutes : Z) :
  App.slotLoop endMinutes minutes
  = if minutes <=? endMinutes
    then App.slotText minutes :: App.slotLoop endMinutes (minutes + 60)
    else [].
Proof. apply slotLoop_unfold. Qed.

Section SlotFacts.
Import App.

Lemma hourly_NoDup (a : Z) (n : nat) : NoDup (hourly a n).
Proof.
  pose proof (hourly_sorted n a) as H.
  induction H as [|x l _ IH Hall]; constructor; [|exact IH].
  intros Hin. rewrite Forall_forall in Hall. specialize (Hall x Hin). lia.
Qed.

Lemma slotCount_bound (a b : Z) (i : nat) :
  (i < slotCount a b)%nat -> a + 60 * Z.of_nat i <= b.
Proof.
  unfold slotCount. destruct (Z.leb_spec a b) as [Hab|]; [|lia].
  intros Hi.
  assert (0 <= (b - a) / 60) by (apply Z.div_pos; lia).
  pose proof (Z.div_mod (b - a) 60).
  pose proof (Z.mod_pos_bound (b - a) 60).
  lia.
Qed.

(** Every text pushed by the loop is the text of a time between the
    bounds. *)
Lemma slotLoop_In (endMinutes minutes : Z) (time : string) :
  In time (slotLoop endMinutes minutes) ->
  exists m, time = slotText m /\ minutes <= m <= endMinutes.
Proof.
  rewrite slotLoop_hourly, in_map_iff.
  intros (m & <- & Hm). exists m. split; [reflexivity|].
  apply hourly_In in Hm. destruct Hm as (i & Hi & ->).
  apply slotCount_bound in Hi. lia.
Qed.

(** X2. For work hours that read as times [a] and [b] with [0 <= a], the
    generated slot texts are pairwise distinct; when [a <= b] there are
    [(b - a) / 60 + 1] of them, so equal start and end give exactly one
    slot, the start itself. *)
Theorem generated_slots_distinct_and_counted
    (startTime endTime : string) (a b : Z) :
  minutesOf startTime = Some a ->
  minutesOf endTime = Some b ->
  0 <= a ->
  NoDup (generateTimeSlots startTime endTime)
  /\ (a <= b ->
      Z.of_nat (List.length (generateTimeSlots startTime endTime))
      = (b - a) / 60 + 1)
  /\ (a = b -> generateTimeSlots startTime endTime = [slotText a]).
Proof.
  intros Hs He Ha. unfold generateTimeSlots. rewrite Hs, He.
  split; [|split].
  - rewrite slotLoop_hourly.
    apply (NoDup_map_inv minutesOf). rewrite minutesOf_hourly by assumption.
    apply Finite.Injective_map_NoDup; [|apply hourly_NoDup].
    intros x y [= E]. exact E.
  - intros Hab. rewrite slotLoop_hourly, length_map.
    unfold hourly. rewrite length_map, length_seq.
    unfold slotCount. destruct (Z.leb_spec a b); [|lia].
    assert (0 <= (b - a) / 60) by (apply Z.div_pos; lia). lia.
  - intros <-. rewrite slotLoop_step, Z.leb_refl, slotLoop_step.
    destruct (Z.leb_spec (a + 60) a); [lia|reflexivity].
Qed.

End SlotFacts.

Lemma generated_slots_distinct_and_counted_witness :
  NoDup (App.generateTimeSlots "09:00" "09:00")
  /\ (540 <= 540 ->
      Z.of_nat (List.length (App.generateTimeSlots "09:00" "09:00"))
      = (540 - 540) / 60 + 1)
  /\ (540 = 540 -> App.generateTimeSlots "09:00" "09:00" = [App.slotText 540]).
Proof.
  apply (generated_slots_distinct_and_counted "09:00" "09:00" 540 540);
    [reflexivity | reflexivity | lia].
Defined.

(* ===================================================================== *)
(** ** More on availability and disabled dates *)
(* ===================================================================== *)

Section AvailabilityMore.
Import App.
Variables (tz now : Z) (settings : Settings).

Lemma minIntervalMs_nonneg_hours :
  0 <= minIntervalHours settings -> 0 < minIntervalMs settings.
Proof.
  unfold minIntervalMs.
  destruct (Z.eqb_spec (minIntervalHours settings) 0); lia.
Qed.

Lemma tooClose_member (bookedSlots : list Z) (interval t : Z) :
  0 < interval -> In t bookedSlots ->
  tooClose bookedSlots interval (Some t) = true.
Proof.
  intros Hpos Hin. apply tooClose_iff. exists t. split; [exact Hin|].
  rewrite Z.sub_diag. exact Hpos.
Qed.

Lemma tooClose_app (bs more : list Z) (interval : Z) (x : option Z) :
  tooClose (bs ++ more) interval x
  = tooClose bs interval x || tooClose more interval x.
Proof. unfold tooClose. apply existsb_app. Qed.

(** X3. A slot whose instant is already booked is never offered, as long
    as [minIntervalHours] is not negative. *)
Theorem booked_slot_not_offered
    (bookedSlots : list Z) (date : Z) (time : string) (t : Z) :
  0 <= minIntervalHours settings ->
  timeToCheck tz date time = Some t ->
  In t bookedSlots ->
  ~ In time (updateAvailableTimeSlots tz settings bookedSlots date).
Proof.
  intros Hh Ht Hin Hoffered.
  apply filter_In in Hoffered. destruct Hoffered as [_ Hav].
  rewrite Ht in Hav. unfold slotAvailable in Hav.
  rewrite tooClose_member in Hav;
    [discriminate | apply minIntervalMs_nonneg_hours; exact Hh | exact Hin].
Qed.

(** Availability is symmetric: one instant blocks another exactly when
    the other blocks it. *)
Lemma slotAvailable_symmetric (interval a b : Z) :
  slotAvailable [a] interval (Some b) = slotAvailable [b] interval (Some a).
Proof.
  unfold slotAvailable, tooClose. simpl.
  replace (Z.abs (b - a)) with (Z.abs (a - b)) by lia. reflexivity.
Qed.

(** X4. More bookings never bring a slot or a date back: every slot
    offered with the larger list of bookings is offered with the smaller
    one, and a date disabled with the smaller list stays disabled. *)
Theorem more_bookings_never_enable
    (bookedSlots more : list Z) (date : Z) :
  incl (updateAvailableTimeSlots tz settings (bookedSlots ++ more) date)
       (updateAvailableTimeSlots tz settings bookedSlots date)
  /\ (isDateDisabled tz now settings bookedSlots date = true ->
      isDateDisabled tz now settings (bookedSlots ++ more) date = true).
Proof.
  assert (Hslot : forall time,
    slotAvailable (bookedSlots ++ more) (minIntervalMs settings)
                  (timeToCheck tz date time) = true ->
    slotAvailable bookedSlots (minIntervalMs settings)
                  (timeToCheck tz date time) = true).
  { intros time. unfold slotAvailable. rewrite tooClose_app.
    destruct (tooClose bookedSlots _ _); [discriminate|reflexivity]. }
  split.
  - intros time Hin. apply filter_In in Hin. apply filter_In.
    destruct Hin as [Hgen Hav]. split; [exact Hgen|]. apply Hslot, Hav.
  - rewrite !isDateDisabled_orb, !orb_true_iff.
    intros [[[[H|H]|H]|H]|H]; auto.
    + left. right. apply capacityReached_iff in H. apply capacityReached_iff.
      destruct H as (m & Hm & Hle). exists m. split; [exact Hm|].
      unfold bookingsWithinDay in *. rewrite filter_app, length_app. lia.
    + right. apply negb_true_iff. apply negb_true_iff in H.
      apply not_true_is_false. intros Hex. apply existsb_exists in Hex.
      destruct Hex as (time & Hgen & Hav).
      assert (E : hasAvailableSlots tz settings bookedSlots date = true).
      { apply existsb_exists. exists time. split; [exact Hgen|].
        apply Hslot, Hav. }
      congruence.
Qed.

(** X5. A stored [minIntervalHours] of zero is read as three hours. *)
Theorem zero_interval_means_three_hours (bookedSlots : list Z) (t : Z) :
  minIntervalHours settings = 0 ->
  (slotAvailable bookedSlots (minIntervalMs settings) (Some t) = true
   <-> forall b, In b bookedSlots -> 3 * 3600000 <= Z.abs (t - b)).
Proof.
  intros H0. unfold minIntervalMs. rewrite H0, slotAvailable_forall. simpl.
  split; intros H b Hb; specialize (H b Hb); lia.
Qed.

(** With a negative [minIntervalHours] the spacing rule is off: every
    generated slot is offered whatever is booked. *)
Lemma negative_interval_offers_every_slot (bookedSlots : list Z) (date : Z) :
  minIntervalHours settings < 0 ->
  updateAvailableTimeSlots tz settings bookedSlots date = timeSlots settings.
Proof.
  intros Hneg. unfold updateAvailableTimeSlots.
  apply forallb_filter_id, forallb_forall. intros time _.
  unfold slotAvailable, tooClose. apply negb_true_iff.
  apply not_true_is_false. intros H. apply existsb_exists in H.
  destruct H as (b & _ & Hb).
  destruct (timeToCheck tz date time) as [x|]; [|discriminate].
  apply Z.ltb_lt in Hb. unfold minIntervalMs in Hb.
  destruct (Z.eqb_spec (minIntervalHours settings) 0); lia.
Qed.

(** X6. Work hours whose start is later than their end leave the calendar
    without a selectable date: no slot is offered and every date is
    disabled. *)
Theorem reversed_work_hours_disable_every_date
    (bookedSlots : list Z) (date a b : Z) :
  minutesOf (textOr (workStartTime settings) "09:00") = Some a ->
  minutesOf (textOr (workEndTime settings) "20:00") = Some b ->
  b < a ->
  updateAvailableTimeSlots tz settings bookedSlots date = []
  /\ isDateDisabled tz now settings bookedSlots date = true.
Proof.
  intros Hs He Hlt.
  assert (E : timeSlots settings = []).
  { unfold timeSlots, generateTimeSlots. rewrite Hs, He, slotLoop_step.
    destruct (Z.leb_spec a b); [lia|reflexivity]. }
  assert (E' : updateAvailableTimeSlots tz settings bookedSlots date = []).
  { unfold updateAvailableTimeSlots. rewrite E. reflexivity. }
  split; [exact E'|].
  rewrite isDateDisabled_orb, !orb_true_iff. right.
  apply hasAvailableSlots_false_iff. exact E'.
Qed.

(** X7. Only the calendar days matter: two instants of the same local day
    are disabled or not together, also when the clock reads another
    instant of the same day, and they are offered the same slots. *)
Theorem disablement_depends_on_days_only
    (bookedSlots : list Z) (date date' now' : Z) :
  sameLocalDay tz date date' = true ->
  sameLocalDay tz now now' = true ->
  isDateDisabled tz now settings bookedSlots date
  = isDateDisabled tz now' settings bookedSlots date'
  /\ updateAvailableTimeSlots tz settings bookedSlots date
     = updateAvailableTimeSlots tz settings bookedSlots date'.
Proof.
  unfold sameLocalDay. rewrite !Z.eqb_eq. intros Ed En.
  unfold isDateDisabled, isPast, weekdayDisabled, dateListed,
    capacityReached, bookingsOnDate, hasAvailableSlots,
    updateAvailableTimeSlots, formatDateToYYYYMMDD, timeToCheck,
    Js.setHoursNum, Js.getFullYear, Js.getMonth, Js.getDate, Js.getDay,
    Js.setHours.
  rewrite Ed, En. split; reflexivity.
Qed.

(** X8. When the work hours read as times [0 <= a] and [b] before 24:00,
    every generated slot is an instant of the selected local day, between
    the start and the end of the work hours. *)
Theorem slots_lie_on_selected_day (date a b : Z) (time : string) :
  minutesOf (textOr (workStartTime settings) "09:00") = Some a ->
  minutesOf (textOr (workEndTime settings) "20:00") = Some b ->
  0 <= a -> b < 1440 ->
  In time (timeSlots settings) ->
  exists m,
    a <= m <= b
    /\ timeToCheck tz date time
       = Some (Js.setHours tz date 0 0 0 0 + m * Js.msPerMinute)
    /\ sameLocalDay tz date
         (Js.setHours tz date 0 0 0 0 + m * Js.msPerMinute) = true.
Proof.
  intros Hs He Ha Hb Hin.
  unfold timeSlots, generateTimeSlots in Hin. rewrite Hs, He in Hin.
  apply slotLoop_In in Hin. destruct Hin as (m & -> & Hm).
  exists m. split; [exact Hm|].
  split; [apply timeToCheck_slotText; lia|].
  unfold sameLocalDay. apply Z.eqb_eq.
  unfold Js.setHours, Js.utc, Js.localTime, Js.day, Js.msPerDay,
    Js.msPerHour, Js.msPerMinute.
  replace ((date + tz) / 86400000 * 86400000 + 0 * 3600000 + 0 * 60000
           + 0 * 1000 + 0 - tz + m * 60000 + tz)
    with (m * 60000 + (date + tz) / 86400000 * 86400000) by lia.
  rewrite Z.div_add by lia. rewrite (Z.div_small (m * 60000)) by lia.
  reflexivity.
Qed.

End AvailabilityMore.

Lemma booked_slot_not_offered_witness :
  0 <= App.minIntervalHours App.defaultSettings
  /\ ~ In "10:00"
       (App.updateAvailableTimeSlots 0 App.defaultSettings [36000000] 0).
Proof.
  split; [discriminate|].
  apply (booked_slot_not_offered 0 App.defaultSettings [36000000] 0 "10:00"
           36000000); [discriminate | reflexivity | left; reflexivity].
Defined.

Lemma zero_interval_means_three_hours_witness :
  let settings := App.mkSettings 1 [] [] 0 "09:00" "20:00" None true in
  App.minIntervalHours settings = 0
  /\ (App.slotAvailable [0] (App.minIntervalMs settings) (Some 10800000) = true
      <-> forall b, In b [0] -> 3 * 3600000 <= Z.abs (10800000 - b)).
Proof.
  intros settings. split; [reflexivity|].
  apply (zero_interval_means_three_hours settings [0] 10800000). reflexivity.
Defined.

Lemma reversed_work_hours_disable_every_date_witness :
  let settings := App.mkSettings 1 [] [] 3 "20:00" "09:00" None true in
  App.updateAvailableTimeSlots 0 settings [] 86400000 = []
  /\ App.isDateDisabled 0 0 settings [] 86400000 = true.
Proof.
  intros settings.
  apply (reversed_work_hours_disable_every_date 0 0 settings [] 86400000
           1200 540); [reflexivity | reflexivity | reflexivity].
Defined.

Lemma disablement_depends_on_days_only_witness :
  App.isDateDisabled 0 0 App.defaultSettings [36000000] 0
  = App.isDateDisabled 0 7200000 App.defaultSettings [36000000] 3600000
  /\ App.updateAvailableTimeSlots 0 App.defaultSettings [36000000] 0
     = App.updateAvailableTimeSlots 0 App.defaultSettings [36000000] 3600000.
Proof.
  apply (disablement_depends_on_days_only 0 0 App.defaultSettings
           [36000000] 0 3600000 7200000); reflexivity.
Defined.

Lemma slots_lie_on_selected_day_witness :
  exists m,
    540 <= m <= 1200
    /\ App.timeToCheck 0 0 "09:00"
       = Some (Js.setHours 0 0 0 0 0 0 + m * Js.msPerMinute)
    /\ sameLocalDay 0 0 (Js.setHours 0 0 0 0 0 0 + m * Js.msPerMinute) = true.
Proof.
  apply (slots_lie_on_selected_day 0 App.defaultSettings 0 540 1200 "09:00");
    [reflexivity | reflexivity | discriminate | reflexivity
    | left; reflexivity].
Defined.

(** With work hours ending at 24:00 the last slot of a date is an instant
    of the next day. *)
Example slot_at_24_is_on_the_next_day :
  let settings := App.mkSettings 1 [] [] 3 "22:00" "24:00" None true in
  App.timeSlots settings = ["22:00"; "23:00"; "24:00"]
  /\ App.timeToCheck 0 0 "24:00" = Some 86400000
  /\ sameLocalDay 0 0 86400000 = false.
Proof. vm_compute. repeat split. Qed.

(* ===================================================================== *)
(** ** More on submitting a booking *)
(* ===================================================================== *)

(** Unfolds the statements [handleSubmit] is made of. *)
Ltac unfold_submit :=
  unfold App.handleSubmit, App.submitBody, App.notify, App.insertBooking,
    App.callSendSMS, App.fetchBookedSlots, App.setIsSubmitting,
    App.setFormData, App.toast, App.modify, App.tryFinally, App.tryCatch,
    App.bind, App.ret, App.throw.

(** Splits on the next thing the run of [handleSubmit] depends on. *)
Ltac submit_case :=
  match goal with
  | |- context [match App.appointmentDate ?f with _ => _ end] =>
      destruct (App.appointmentDate f) eqn:?
  | |- context [match App.appointmentTime ?f with _ => _ end] =>
      destruct (App.appointmentTime f) eqn:?
  | |- context [let '(_, _) := Js.splitHM ?s in _] =>
      destruct (Js.splitHM s) eqn:?
  | |- context [match Js.setHoursNum ?a ?b ?c ?d with _ => _ end] =>
      destruct (Js.setHoursNum a b c d) eqn:?
  | |- context [match ?io ?b with Some _ => _ | None => _ end] =>
      destruct (io b) as [[? ?]|] eqn:?
  | |- context [if App.sendSMS ?s then _ else _] =>
      destruct (App.sendSMS s) eqn:?
  | |- context [match ?f ?p ?m with Js.Normal _ => _ | Js.Throws _ => _ end] =>
      destruct (f p m) as [?|[?|]] eqn:?
  | |- context [if negb (TwilioSender.success ?r) then _ else _] =>
      destruct (TwilioSender.success r) eqn:?
  end; cbn -[Js.slice8 App.smsMessage Js.splitHM Js.setHoursNum].

Section SubmitFacts.
Variables (tz : Z) (settings : App.Settings) (t : string -> string)
          (toLocaleString : Z -> string)
          (insertOutcome : App.NewBooking -> option (string * option string))
          (fetchAnswers : bool)
          (twilioSendSMS : string -> string
                           -> Js.Completion TwilioSender.SmsResult).

Let run (w : App.World) : Js.Completion unit * App.World :=
  App.handleSubmit tz settings t toLocaleString insertOutcome fetchAnswers
                   twilioSendSMS w.

(** X9. Whatever the insert and the dispatch do, [handleSubmit] itself
    never throws, and once it has a date and a time it always ends with
    the submitting flag cleared. *)
Theorem handleSubmit_never_throws (w : App.World) :
  fst (run w) = Js.Normal tt
  /\ (App.isSubmitting (snd (run w)) = false
      \/ App.appointmentDate (App.formData w) = None
      \/ App.appointmentTime (App.formData w) = "").
Proof.
  unfold run. unfold_submit.
  repeat submit_case; auto.
Qed.

(** Without a date or without a time, [handleSubmit] shows the
    "select date and time" error and does nothing else: no insert, no SMS,
    no fetch, the form and the submitting flag as they were. *)
Lemma handleSubmit_without_date_or_time (w : App.World) :
  App.appointmentDate (App.formData w) = None
  \/ App.appointmentTime (App.formData w) = "" ->
  run w
  = (Js.Normal tt,
     App.mkWorld (App.store w) (App.formData w) (App.isSubmitting w)
                 (App.bookedSlots w)
                 (App.toasts w ++ [App.ToastError (t "selectDateTime")])
                 (App.smsCalls w) (App.fetchCalls w)).
Proof.
  unfold run, App.handleSubmit, App.toast, App.modify.
  intros [H|H]; rewrite H; [reflexivity|].
  destruct (App.appointmentDate (App.formData w)); reflexivity.
Qed.

(** X10. When the time text cannot be read or the insert answers with an
    error, the only effects are the generic error toast and the cleared
    submitting flag: nothing is stored, no SMS is sent, the slots are not
    fetched again and the form keeps what the user typed. *)
Theorem handleSubmit_failed_insert (w : App.World) (date : Z) :
  App.appointmentDate (App.formData w) = Some date ->
  App.appointmentTime (App.formData w) <> "" ->
  match App.timeToCheck tz date (App.appointmentTime (App.formData w)) with
  | Some instant =>
      insertOutcome (App.newBooking (App.formData w) instant) = None
  | None => True
  end ->
  run w
  = (Js.Normal tt,
     App.mkWorld (App.store w) (App.formData w) false (App.bookedSlots w)
                 (App.toasts w ++ [App.ToastError (t "error")])
                 (App.smsCalls w) (App.fetchCalls w)).
Proof.
  intros Hdate Htime Hfail. unfold App.timeToCheck in Hfail.
  unfold run. unfold_submit. rewrite Hdate.
  destruct (App.appointmentTime (App.formData w)) as [|c time];
    [congruence|].
  destruct (Js.splitHM (String c time)) as [hours minutes].
  destruct (Js.setHoursNum tz date hours minutes) as [instant|];
    [rewrite Hfail|]; reflexivity.
Qed.

(** X11. [sendSMS] is called at most once, with the phone number of the
    form, and only for a booking that was just stored and with [sendSMS]
    enabled in the settings; with the setting off it is never called. *)
Theorem sms_only_for_stored_booking (w : App.World) :
  let w' := snd (run w) in
  (App.smsCalls w' = App.smsCalls w
   \/ exists message row,
        App.sendSMS settings = true
        /\ App.store w' = (App.store w ++ [row])%list
        /\ App.nb_phone (App.booking row) = App.phone (App.formData w)
        /\ App.smsCalls w'
           = (App.smsCalls w ++ [(App.phone (App.formData w), message)])%list)
  /\ (App.sendSMS settings = false -> App.smsCalls w' = App.smsCalls w).
Proof.
  unfold run. unfold_submit.
  repeat submit_case;
    (split; [first [ left; reflexivity
                   | right; do 2 eexists;
                     repeat split; reflexivity ]
            | first [ reflexivity | discriminate ] ]).
Qed.

(** X12. When the insert succeeds and the SMS is switched off or delivered,
    the run adds the success toast and no other, resets the form, keeps the
    new row and fetches the booked slots again. *)
Theorem handleSubmit_success (w : App.World) (date instant : Z)
    (newId : string) (number : option string) :
  let form := App.formData w in
  let row := App.mkRow newId number (App.newBooking form instant) None in
  let bookingNumber := Js.orElse number (Js.slice8 newId) in
  let message := App.smsMessage t toLocaleString form bookingNumber instant in
  let w' := snd (run w) in
  App.appointmentDate form = Some date ->
  App.timeToCheck tz date (App.appointmentTime form) = Some instant ->
  insertOutcome (App.newBooking form instant) = Some (newId, number) ->
  App.sendSMS settings = false
  \/ (exists result, twilioSendSMS (App.phone form) message = Js.Normal result
                     /\ TwilioSender.success result = true) ->
  App.store w' = (App.store w ++ [row])%list
  /\ App.formData w' = App.emptyForm
  /\ App.isSubmitting w' = false
  /\ App.fetchCalls w' = S (App.fetchCalls w)
  /\ App.toasts w'
     = (App.toasts w
        ++ [App.ToastSuccess (t "bookingSuccess") (t "bookingNumber")
                             bookingNumber])%list.
Proof.
  intros form row bookingNumber message w' Hdate Hinst Hins Hsms.
  unfold w', run. unfold_submit. fold form. rewrite Hdate.
  unfold App.timeToCheck in Hinst.
  destruct (App.appointmentTime form) as [|c time] eqn:Et;
    [discriminate Hinst|].
  destruct (Js.splitHM (String c time)) as [hours minutes].
  rewrite Hinst, Hins. cbn -[Js.slice8 App.smsMessage].
  destruct Hsms as [Hoff|(result & Hres & Hok)].
  - rewrite Hoff. cbn. repeat split.
  - destruct (App.sendSMS settings); cbn -[Js.slice8 App.smsMessage];
      [|repeat split].
    fold form bookingNumber message. rewrite Hres.
    cbn -[Js.slice8 App.smsMessage]. rewrite Hok. cbn. repeat split.
Qed.

(** X13. A booking that was stored takes its slot away: once the insert
    has succeeded and the booked slots have been fetched again, the time
    that was submitted is no longer offered for that date, whatever became
    of the SMS (for a [minIntervalHours] that is not negative). *)
Theorem submitted_slot_no_longer_offered (w : App.World) (date instant : Z)
    (newId : string) (number : option string) :
  let form := App.formData w in
  App.appointmentDate form = Some date ->
  App.timeToCheck tz date (App.appointmentTime form) = Some instant ->
  insertOutcome (App.newBooking form instant) = Some (newId, number) ->
  fetchAnswers = true ->
  0 <= App.minIntervalHours settings ->
  ~ In (App.appointmentTime form)
       (App.updateAvailableTimeSlots tz settings
          (App.bookedSlots (snd (run w))) date).
Proof.
  intros form Hdate Hinst Hins Hfetch Hh Hoffered.
  assert (Hin : In instant (App.bookedSlots (snd (run w)))).
  { unfold run. unfold_submit. fold form. rewrite Hdate.
    pose proof Hinst as Hinst'. unfold App.timeToCheck in Hinst'.
    destruct (App.appointmentTime form) as [|c time] eqn:Et;
      [discriminate Hinst'|].
    destruct (Js.splitHM (String c time)) as [hours minutes].
    rewrite Hinst', Hins, Hfetch. cbn -[Js.slice8 App.smsMessage].
    assert (Hrow : forall l : list App.BookingRow,
      In instant
        (map (fun r => App.appointment_date (App.booking r))
           (filter (fun r => match App.deleted_at r with
                             | None => true
                             | Some _ => false
                             end)
              (l ++ [App.mkRow newId number
                       (App.newBooking form instant) None])))).
    { intros l. apply in_map_iff. eexists. split; [|apply filter_In; split;
        [apply in_or_app; right; left; reflexivity | reflexivity]].
      reflexivity. }
    repeat submit_case; apply Hrow. }
  apply filter_In in Hoffered. destruct Hoffered as [_ Hav].
  rewrite Hinst in Hav. unfold App.slotAvailable in Hav.
  rewrite tooClose_member in Hav;
    [discriminate | apply minIntervalMs_nonneg_hours; exact Hh | exact Hin].
Qed.

End SubmitFacts.

(* ===================================================================== *)
(** ** More on the notification sender *)
(* ===================================================================== *)

Lemma removeNonDigits_of_digits (s : string) :
  digitsOnly s = true -> Js.removeNonDigits s = s.
Proof.
  induction s as [|c s IH]; simpl; [reflexivity|].
  intros H. apply andb_true_iff in H. destruct H as [Hc Hs].
  rewrite Hc, IH by assumption. reflexivity.
Qed.

(** X14. Formatting a phone number twice changes nothing more, and two
    inputs with the same digits give the same number. *)
Theorem formatPhone_idempotent (phone other : string) :
  TwilioSender.formatPhone (TwilioSender.formatPhone phone)
  = TwilioSender.formatPhone phone
  /\ (digitsOf phone = digitsOf other <->
      TwilioSender.formatPhone phone = TwilioSender.formatPhone other).
Proof.
  rewrite !formatPhone_plus_digits, <- !removeNonDigits_digitsOf.
  split.
  - change (Js.removeNonDigits (String "+" (Js.removeNonDigits phone)))
      with (Js.removeNonDigits (Js.removeNonDigits phone)).
    rewrite removeNonDigits_of_digits by apply removeNonDigits_digitsOnly.
    reflexivity.
  - split; [intros ->; reflexivity | intros [= E]; exact E].
Qed.

(** X15. A failure reported by [sendSMS] always carries an error text, and
    the text is empty only when the call threw an [Error] whose message is
    empty. *)
Theorem sendSMS_failure_has_text
    (invoke : TwilioSender.Request -> Js.Completion TwilioSender.InvokeResult)
    (phone message : string) (result : TwilioSender.SmsResult) :
  TwilioSender.sendSMS invoke phone message = Js.Normal result ->
  TwilioSender.success result = false ->
  exists text,
    TwilioSender.sms_error result = Some text
    /\ (text = ""
        -> invoke (TwilioSender.smsRequest phone message)
           = Js.Throws (Js.ErrorObject "")).
Proof.
  unfold TwilioSender.sendSMS.
  destruct (invoke (TwilioSender.smsRequest phone message)) as [r|e].
  - intros [= <-]. unfold TwilioSender.interpret.
    destruct (TwilioSender.error r) as [err|]; simpl.
    + intros _. eexists. split; [reflexivity|].
      destruct (TwilioSender.error_message err) as [[|c m]|]; discriminate.
    + destruct (TwilioSender.data r) as [d|]; simpl.
      * destruct (TwilioSender.data_error d) as [[|c e]|]; simpl;
          try (destruct (_ || _); simpl; [discriminate|];
               intros _; eexists; split; [reflexivity|discriminate]).
        intros _. eexists. split; [reflexivity|].
        destruct (TwilioSender.data_details d) as [[|c' m]|]; discriminate.
      * intros _. eexists. split; [reflexivity|discriminate].
  - intros [= <-] _. eexists. split; [reflexivity|].
    destruct e as [m|]; [intros ->; reflexivity|discriminate].
Qed.

Lemma handleSubmit_failed_insert_witness :
  let form := App.mkForm "Dana" "Levi" "050" "1 Main St" "" "linux" ""
                         (Some 0) "13:00" in
  let w := App.mkWorld [] form true [] [] [] 0 in
  App.handleSubmit 0 App.defaultSettings (fun key => key) (fun _ => "date")
                   (fun _ => None) true
                   (fun _ _ => Js.Throws Js.OtherValue) w
  = (Js.Normal tt,
     App.mkWorld [] form false [] [App.ToastError "error"] [] 0).
Proof.
  intros form w.
  apply (handleSubmit_failed_insert 0 App.defaultSettings (fun key => key)
           (fun _ => "date") (fun _ => None) true
           (fun _ _ => Js.Throws Js.OtherValue) w 0);
    [reflexivity | discriminate | reflexivity].
Defined.

Lemma handleSubmit_success_witness :
  let settings := App.mkSettings 1 [] [] 3 "09:00" "20:00" None false in
  let form := App.mkForm "Dana" "Levi" "050" "1 Main St" "" "linux" ""
                         (Some 0) "13:00" in
  let w := App.mkWorld [] form false [] [] [] 0 in
  let w' := snd (App.handleSubmit 0 settings (fun key => key)
                   (fun _ => "date")
                   (fun _ => Some ("0123456789abcdef", Some "BK-1")) true
                   (fun _ _ => Js.Throws Js.OtherValue) w) in
  App.store w'
  = ([] ++ [App.mkRow "0123456789abcdef" (Some "BK-1")
              (App.newBooking form 46800000) None])%list
  /\ App.formData w' = App.emptyForm
  /\ App.isSubmitting w' = false
  /\ App.fetchCalls w' = 1%nat
  /\ App.toasts w'
     = ([] ++ [App.ToastSuccess "bookingSuccess" "bookingNumber" "BK-1"])%list.
Proof.
  intros settings form w.
  apply (handleSubmit_success 0 settings (fun key => key) (fun _ => "date")
           (fun _ => Some ("0123456789abcdef", Some "BK-1")) true
           (fun _ _ => Js.Throws Js.OtherValue) w 0 46800000
           "0123456789abcdef" (Some "BK-1"));
    [reflexivity | reflexivity | reflexivity | left; reflexivity].
Defined.

Lemma submitted_slot_no_longer_offered_witness :
  let form := App.mkForm "Dana" "Levi" "050" "1 Main St" "" "linux" ""
                         (Some 0) "13:00" in
  let w := App.mkWorld [] form false [] [] [] 0 in
  let w' := snd (App.handleSubmit 0 App.defaultSettings (fun key => key)
                   (fun _ => "date")
                   (fun _ => Some ("0123456789abcdef", None)) true
                   (fun _ _ => Js.Throws Js.OtherValue) w) in
  In "13:00" (App.updateAvailableTimeSlots 0 App.defaultSettings [] 0)
  /\ ~ In "13:00"
       (App.updateAvailableTimeSlots 0 App.defaultSettings
          (App.bookedSlots w') 0).
Proof.
  intros form w. split; [vm_compute; tauto|].
  apply (submitted_slot_no_longer_offered 0 App.defaultSettings
           (fun key => key) (fun _ => "date")
           (fun _ => Some ("0123456789abcdef", None)) true
           (fun _ _ => Js.Throws Js.OtherValue) w 0 46800000
           "0123456789abcdef" None);
    [reflexivity | reflexivity | reflexivity | reflexivity | discriminate].
Defined.

Lemma sendSMS_failure_has_text_witness :
  exists text,
    TwilioSender.sms_error (TwilioSender.mkSmsResult false (Some "")) = Some text
    /\ (text = ""
        -> (fun _ : TwilioSender.Request =>
              @Js.Throws TwilioSender.InvokeResult (Js.ErrorObject ""))
             (TwilioSender.smsRequest "050" "hello")
           = Js.Throws (Js.ErrorObject "")).
Proof.
  apply (sendSMS_failure_has_text
           (fun _ => Js.Throws (Js.ErrorObject "")) "050" "hello"
           (TwilioSender.mkSmsResult false (Some "")));
    reflexivity.
Defined.

(* ===================================================================== *)
(** ** The settings form *)
(* ===================================================================== *)

Section ClockTexts.

Lemma twoDigitTextsOrdered_true : twoDigitTextsOrdered = true.
Proof. vm_compute. reflexivity. Qed.

Lemma below_100_in_range (x : Z) :
  0 <= x < 100 -> In x (map Z.of_nat (seq 0 100)).
Proof.
  intros H. apply in_map_iff. exists (Z.to_nat x).
  split; [lia|]. apply in_seq. lia.
Qed.

Lemma pad2_length (x : Z) :
  0 <= x < 100 -> String.length (Js.padStart2 (Js.toString x)) = 2%nat.
Proof.
  intros Hx. pose proof twoDigitTextsOrdered_true as H.
  unfold twoDigitTextsOrdered in H. cbv zeta in H.
  rewrite forallb_forall in H.
  specialize (H x (below_100_in_range x Hx)).
  apply andb_true_iff in H. destruct H as [H _].
  apply Nat.eqb_eq in H. exact H.
Qed.

Lemma pad2_compare (x y : Z) :
  0 <= x < 100 -> 0 <= y < 100 ->
  String.compare (Js.padStart2 (Js.toString x)) (Js.padStart2 (Js.toString y))
  = (x ?= y).
Proof.
  intros Hx Hy. pose proof twoDigitTextsOrdered_true as H.
  unfold twoDigitTextsOrdered in H. cbv zeta in H.
  rewrite forallb_forall in H.
  specialize (H x (below_100_in_range x Hx)).
  apply andb_true_iff in H. destruct H as [_ H].
  rewrite forallb_forall in H.
  specialize (H y (below_100_in_range y Hy)).
  destruct (String.compare _ _), (x ?= y); congruence.
Qed.

(** Texts of the same length compare first, then what follows them. *)
Lemma compare_app (a b s t : string) :
  String.length a = String.length b ->
  String.compare (a ++ s) (b ++ t)
  = match String.compare a b with
    | Eq => String.compare s t
    | c => c
    end.
Proof.
  revert b. induction a as [|c a IH]; intros [|d b] Hlen;
    try discriminate Hlen; simpl; [reflexivity|].
  destruct (Ascii.compare c d); try reflexivity.
  apply IH. simpl in Hlen. congruence.
Qed.

(** Clock texts compare as the times they name. *)
Lemma clockText_compare (h m h' m' : Z) :
  0 <= h < 100 -> 0 <= m < 60 -> 0 <= h' < 100 -> 0 <= m' < 60 ->
  String.compare (clockText h m) (clockText h' m')
  = (h * 60 + m ?= h' * 60 + m').
Proof.
  intros Hh Hm Hh' Hm'. unfold clockText.
  rewrite compare_app by (rewrite !pad2_length by lia; reflexivity).
  rewrite pad2_compare by lia.
  destruct (Z.compare_spec h h') as [E|L|G].
  - subst h'.
    change (":" ++ Js.padStart2 (Js.toString m))
      with (String ":" (Js.padStart2 (Js.toString m))).
    change (":" ++ Js.padStart2 (Js.toString m'))
      with (String ":" (Js.padStart2 (Js.toString m'))).
    simpl String.compare.
    replace (Ascii.compare ":" ":") with Eq by reflexivity.
    rewrite pad2_compare by lia.
    destruct (Z.compare_spec m m'); symmetry;
      [apply Z.compare_eq_iff | apply Z.compare_lt_iff
       | apply Z.compare_gt_iff]; lia.
  - symmetry. apply Z.compare_lt_iff. lia.
  - symmetry. apply Z.compare_gt_iff. lia.
Qed.

Lemma clockText_ltb (h m h' m' : Z) :
  0 <= h < 100 -> 0 <= m < 60 -> 0 <= h' < 100 -> 0 <= m' < 60 ->
  JsText.ltb (clockText h m) (clockText h' m') = (h * 60 + m <? h' * 60 + m').
Proof.
  intros. unfold JsText.ltb, Z.ltb. rewrite clockText_compare by assumption.
  reflexivity.
Qed.

Lemma splitColon_clockText (h m : Z) :
  0 <= h -> 0 <= m ->
  Js.splitColon (clockText h m)
  = [Js.padStart2 (Js.toString h); Js.padStart2 (Js.toString m)].
Proof.
  intros Hh Hm. unfold clockText.
  destruct (toString_nonneg h Hh) as (dh & Nh & Eh & _).
  destruct (toString_nonneg m Hm) as (dm & Nm & Em & _).
  destruct (padStart2_uint dh Nh) as (dh' & _ & Eh' & _).
  destruct (padStart2_uint dm Nm) as (dm' & _ & Em' & _).
  rewrite Eh, Em, Eh', Em'. simpl append.
  rewrite splitColon_uint_colon, splitColon_uint. reflexivity.
Qed.

Lemma hourPart_clockText (h m : Z) :
  0 <= h -> 0 <= m ->
  AdminSettings.hourPart (clockText h m) = Js.padStart2 (Js.toString h).
Proof.
  intros. unfold AdminSettings.hourPart.
  rewrite splitColon_clockText by assumption. reflexivity.
Qed.

Lemma minutePart_clockText (h m : Z) :
  0 <= h -> 0 <= m < 100 ->
  AdminSettings.minutePart (clockText h m) = Js.padStart2 (Js.toString m).
Proof.
  intros Hh Hm. unfold AdminSettings.minutePart.
  rewrite splitColon_clockText by lia. simpl.
  pose proof (pad2_length m Hm) as L.
  destruct (Js.padStart2 (Js.toString m)); [discriminate L|reflexivity].
Qed.

(** The text of a slot is the clock text of its hour and minute. *)
Lemma slotText_clockText (h m : Z) :
  0 <= h -> 0 <= m < 60 -> App.slotText (h * 60 + m) = clockText h m.
Proof.
  intros Hh Hm. unfold App.slotText, clockText. cbv zeta.
  rewrite Z.rem_mod_nonneg by lia.
  replace ((h * 60 + m) / 60) with h
    by (rewrite Z.div_add_l by lia; rewrite Z.div_small by lia; lia).
  replace ((h * 60 + m) mod 60) with m
    by (rewrite Z.add_comm, Z.mod_add by lia; rewrite Z.mod_small; lia).
  reflexivity.
Qed.

Lemma minutesOf_clockText (h m : Z) :
  0 <= h -> 0 <= m ->
  App.minutesOf (clockText h m) = Some (h * 60 + m).
Proof.
  intros Hh Hm. unfold App.minutesOf, clockText.
  rewrite splitHM_pad by assumption. reflexivity.
Qed.

End ClockTexts.

Section SettingsForm.
Import AdminSettings.
Variable t : string -> string.
Variable tz : Z.

(** Closes a case in which the handler leaves the constrained fields as
    they were. *)
Ltac unchanged :=
  simpl;
  match goal with
  | Hint : _ <= App.minIntervalHours ?s <= _,
    Hmax : forall limit, App.maxBookingsPerDay ?s = Some limit -> _,
    Hdays : Forall _ (App.disabledWeekdays ?s),
    Hwork : WorkHoursOk ?s |- _ =>
      split; [exact Hint|split; [exact Hmax|split; [exact Hdays|exact Hwork]]]
  end.

Lemma handler_keeps_valid (s : App.Settings) (e : SettingsEvent) :
  SettingsOk s -> offered e -> SettingsOk (afterEvent t tz s e).
Proof.
  intros (Hint & Hmax & Hdays & Hwork) Hoff.
  destruct Hwork as (h & m & h' & m' & Es & Ee & Hh & Hm & Hh' & Hm' & Hlt).
  assert (Hwork : WorkHoursOk s) by (exists h, m, h', m'; auto 10).
  unfold afterEvent, handle.
  destruct e as [v|d c|i|now|v|hh|mm|hh|mm|c|v|c]; simpl in Hoff.
  - (* first day *) unchanged.
  - (* weekday *)
    unfold onWeekdayToggle. destruct c; simpl;
      (split; [exact Hint|split; [exact Hmax|split; [|exact Hwork]]]).
    + apply Forall_app. split; [exact Hdays|]. constructor; [exact Hoff|].
      constructor.
    + apply Forall_forall. intros x Hx. apply filter_In in Hx.
      rewrite Forall_forall in Hdays. apply Hdays, Hx.
  - (* remove a date *) unchanged.
  - (* add a date *) unchanged.
  - (* interval *)
    unfold onMinIntervalChange. destruct v as [v|]; simpl; [|unchanged].
    destruct (Z.leb_spec 1 v), (Z.leb_spec v 24); simpl; try unchanged.
    split; [simpl; lia|split; [exact Hmax|split; [exact Hdays|exact Hwork]]].
  - (* start hour *)
    destruct Hoff as (k & Hk & ->).
    unfold onStartHourChange. cbv zeta. rewrite Es.
    rewrite minutePart_clockText by lia.
    change (Js.padStart2 (Js.toString k) ++ ":"
            ++ Js.padStart2 (Js.toString m)) with (clockText k m).
    rewrite Ee. unfold JsText.geb. rewrite clockText_ltb by lia.
    destruct (Z.ltb_spec (k * 60 + m) (h' * 60 + m')); simpl;
      (split; [exact Hint|split; [exact Hmax|split; [exact Hdays|]]]);
      [|exact Hwork].
    exists k, m, h', m'. simpl. repeat split; try assumption; lia.
  - (* start minute *)
    destruct Hoff as (k & Hk & ->).
    unfold onStartMinuteChange. cbv zeta. rewrite Es.
    rewrite hourPart_clockText by lia.
    change (Js.padStart2 (Js.toString h) ++ ":"
            ++ Js.padStart2 (Js.toString k)) with (clockText h k).
    rewrite Ee. unfold JsText.geb. rewrite clockText_ltb by lia.
    destruct (Z.ltb_spec (h * 60 + k) (h' * 60 + m')); simpl;
      (split; [exact Hint|split; [exact Hmax|split; [exact Hdays|]]]);
      [|exact Hwork].
    exists h, k, h', m'. simpl. repeat split; try assumption; lia.
  - (* end hour *)
    destruct Hoff as (k & Hk & ->).
    unfold onEndHourChange. cbv zeta. rewrite Ee.
    rewrite minutePart_clockText by lia.
    change (Js.padStart2 (Js.toString k) ++ ":"
            ++ Js.padStart2 (Js.toString m')) with (clockText k m').
    rewrite Es. unfold JsText.leb. rewrite clockText_ltb by lia.
    destruct (Z.ltb_spec (h * 60 + m) (k * 60 + m')); simpl;
      (split; [exact Hint|split; [exact Hmax|split; [exact Hdays|]]]);
      [|exact Hwork].
    exists h, m, k, m'. simpl. repeat split; try assumption; lia.
  - (* end minute *)
    destruct Hoff as (k & Hk & ->).
    unfold onEndMinuteChange. cbv zeta. rewrite Ee.
    rewrite hourPart_clockText by lia.
    change (Js.padStart2 (Js.toString h') ++ ":"
            ++ Js.padStart2 (Js.toString k)) with (clockText h' k).
    rewrite Es. unfold JsText.leb. rewrite clockText_ltb by lia.
    destruct (Z.ltb_spec (h * 60 + m) (h' * 60 + k)); simpl;
      (split; [exact Hint|split; [exact Hmax|split; [exact Hdays|]]]);
      [|exact Hwork].
    exists h, m, h', k. simpl. repeat split; try assumption; lia.
  - (* limit on or off *)
    unfold onMaxBookingsToggle. destruct c; simpl;
      (split; [exact Hint|split; [|split; [exact Hdays|exact Hwork]]]);
      intros limit [= <-]; lia.
  - (* limit *)
    unfold onMaxBookingsChange. destruct v as [v|]; simpl; [|unchanged].
    destruct (Z.leb_spec 1 v); simpl;
      (split; [exact Hint|split; [|split; [exact Hdays|exact Hwork]]]);
      [intros limit [= <-]; lia | exact Hmax].
  - (* send SMS *) unchanged.
Qed.

Lemma defaultSettings_valid : SettingsOk App.defaultSettings.
Proof.
  split; [simpl; lia|]. split; [intros limit [=]|]. split; [constructor|].
  exists 9, 0, 20, 0. simpl. repeat split; lia.
Qed.

(** X16. The settings form keeps its settings well formed: starting from
    the initial settings, whatever is entered with the controls of the
    first day, the weekdays, the interval, the work hours, the daily limit
    and the SMS switch and with the Add Date and Remove buttons, the
    interval stays between 1 and 24 hours, a daily limit that is set is at
    least 1, the disabled weekdays are between 0 and 6, and the work hours
    are two clock texts with the start strictly before the end (a change
    that would break this is refused). *)
Theorem settings_form_keeps_settings_valid (events : list SettingsEvent) :
  Forall offered events ->
  SettingsOk (fold_left (afterEvent t tz) events App.defaultSettings).
Proof.
  intros H. generalize defaultSettings_valid.
  generalize App.defaultSettings as s.
  induction H as [|e events He _ IH]; intros s Hs; simpl; [exact Hs|].
  apply IH, handler_keeps_valid; assumption.
Qed.

(** X17. Settings the form can hold always generate slots, the first
    being the start of the work hours, which reads as an instant of any
    date; and on a date where no booking is closer than the interval to
    that instant (bookings of a neighbouring day count as well), the start
    of the work hours is the first slot offered, so the date is not
    disabled for want of slots.  The interval is used as it is stored. *)
Theorem valid_settings_offer_slots
    (s : App.Settings) (bookedSlots : list Z) (date : Z) :
  SettingsOk s ->
  (forall start b,
     App.timeToCheck tz date (App.workStartTime s) = Some start ->
     In b bookedSlots ->
     App.minIntervalHours s * 3600000 <= Z.abs (start - b)) ->
  (exists rest, App.timeSlots s = App.workStartTime s :: rest)
  /\ (exists start,
        App.timeToCheck tz date (App.workStartTime s) = Some start)
  /\ (exists rest,
        App.updateAvailableTimeSlots tz s bookedSlots date
        = App.workStartTime s :: rest)
  /\ App.hasAvailableSlots tz s bookedSlots date = true
  /\ App.minIntervalMs s = App.minIntervalHours s * 3600000.
Proof.
  intros (Hint & _ & _ & Hwork) Hfar.
  destruct Hwork as (h & m & h' & m' & Es & Ee & Hh & Hm & Hh' & Hm' & Hlt).
  assert (Hms : App.minIntervalMs s = App.minIntervalHours s * 3600000)
    by (apply minIntervalMs_positive; lia).
  assert (Hslots : App.timeSlots s
                   = App.workStartTime s
                     :: App.slotLoop (h' * 60 + m') (h * 60 + m + 60)).
  { unfold App.timeSlots, App.generateTimeSlots. rewrite Es, Ee.
    assert (Nh : clockText h m <> "").
    { intros E. pose proof (minutesOf_clockText h m) as M.
      rewrite E in M. discriminate M; lia. }
    assert (Nh' : clockText h' m' <> "").
    { intros E. pose proof (minutesOf_clockText h' m') as M.
      rewrite E in M. discriminate M; lia. }
    unfold App.textOr.
    destruct (clockText h m) eqn:E1; [congruence|].
    destruct (clockText h' m') eqn:E2; [congruence|].
    rewrite <- E1, <- E2.
    rewrite !minutesOf_clockText by lia.
    rewrite slotLoop_step.
    destruct (Z.leb_spec (h * 60 + m) (h' * 60 + m')); [|lia].
    rewrite slotText_clockText by lia. reflexivity. }
  assert (Hstart : App.timeToCheck tz date (App.workStartTime s)
                   = Some (Js.setHours tz date h m 0 0)).
  { rewrite Es. unfold App.timeToCheck, clockText.
    rewrite splitHM_pad by lia. reflexivity. }
  assert (Hfree : App.slotAvailable bookedSlots (App.minIntervalMs s)
                    (App.timeToCheck tz date (App.workStartTime s)) = true).
  { rewrite Hstart. apply slotAvailable_forall. intros b Hb.
    specialize (Hfar _ b Hstart Hb). rewrite Hms. lia. }
  split; [eexists; exact Hslots|].
  split; [eexists; exact Hstart|].
  split; [|split; [|exact Hms]].
  - unfold App.updateAvailableTimeSlots. rewrite Hslots.
    cbn [filter]. rewrite Hfree. eexists. reflexivity.
  - unfold App.hasAvailableSlots. rewrite Hslots.
    cbn [existsb]. rewrite Hfree. reflexivity.
Qed.

(** X18. Ticking a weekday disables every date of that weekday, whatever
    is booked; unticking it takes every copy of the weekday out of the
    list, so the weekday rule no longer holds for those dates. *)
Theorem weekday_toggle_takes_effect
    (now : Z) (s : App.Settings) (bookedSlots : list Z) (date : Z) :
  let day := Js.getDay tz date in
  App.isDateDisabled tz now (afterEvent t tz s (ToggleWeekday day true))
                     bookedSlots date = true
  /\ App.weekdayDisabled tz (afterEvent t tz s (ToggleWeekday day false)) date
     = false.
Proof.
  intros day. unfold afterEvent. simpl. split.
  - rewrite isDateDisabled_orb.
    replace (App.weekdayDisabled tz _ date) with true;
      [rewrite orb_true_r; reflexivity|].
    symmetry. apply weekdayDisabled_iff. simpl.
    apply in_or_app. right. left. reflexivity.
  - apply not_true_is_false. intros H. apply weekdayDisabled_iff in H.
    simpl in H. apply filter_In in H. destruct H as [_ H].
    fold day in H. rewrite Z.eqb_refl in H. discriminate H.
Qed.

(** X19. The Add Date button disables today: after it, every instant of
    the local day of the clock is a disabled date, whatever is booked and
    whatever instant of that day the clock shows later. *)
Theorem add_date_disables_today
    (now later : Z) (s : App.Settings) (bookedSlots : list Z) (date : Z) :
  sameLocalDay tz now date = true ->
  App.isDateDisabled tz later (afterEvent t tz s (AddDate now)) bookedSlots date
  = true.
Proof.
  unfold sameLocalDay. rewrite Z.eqb_eq. intros Eday.
  rewrite isDateDisabled_orb.
  replace (App.dateListed tz _ date) with true;
    [rewrite !orb_true_r; reflexivity|].
  symmetry. apply dateListed_iff. unfold afterEvent. simpl.
  apply in_or_app. right. left.
  unfold formatDateToYYYYMMDD, App.formatDateToYYYYMMDD,
    Js.getFullYear, Js.getMonth, Js.getDate.
  rewrite Eday. reflexivity.
Qed.

(** What [saveSettings] stores is what [loadSettings] reads back, in
    the admin screen and in the form alike; a stored object without any
    field loads as the initial settings; and when there is no item or it
    cannot be read the settings stay as they were. *)
Lemma settings_round_trip (s current : App.Settings) (st : FormState) :
  loadSettings (fs_item (saveSettings t s st)) current = s
  /\ loadSettings (Object (mkStored None None None None None None None None))
                  current
     = App.defaultSettings
  /\ loadSettings NoItem current = current
  /\ loadSettings Unreadable current = current.
Proof. destruct s. repeat split. Qed.

End SettingsForm.

Lemma settings_form_keeps_settings_valid_witness :
  SettingsOk
    (fold_left (afterEvent (fun key => key) 0)
       [SelectStartHour "10"; SelectEndHour "09"; ToggleWeekday 6 true;
        ChangeMinInterval (Some 30); ChangeMaxBookings (Some 0)]
       App.defaultSettings).
Proof.
  apply (settings_form_keeps_settings_valid (fun key => key) 0).
  apply Forall_cons;
    [exists 10; split; [split; discriminate|reflexivity]|].
  apply Forall_cons;
    [exists 9; split; [split; discriminate|reflexivity]|].
  apply Forall_cons; [split; discriminate|].
  apply Forall_cons; [exact I|].
  apply Forall_cons; [exact I|].
  apply Forall_nil.
Defined.

(** The same events, run: the end hour before the start is refused, as
    are the interval of 30 hours and the limit of 0. *)
Example settings_form_run :
  fold_left (afterEvent (fun key => key) 0)
    [SelectStartHour "10"; SelectEndHour "09"; ToggleWeekday 6 true;
     ChangeMinInterval (Some 30); ChangeMaxBookings (Some 0)]
    App.defaultSettings
  = App.mkSettings 1 [6] [] 3 "10:00" "20:00" None true.
Proof. vm_compute. reflexivity. Qed.

Lemma valid_settings_offer_slots_witness :
  (exists rest,
     App.timeSlots App.defaultSettings
     = App.workStartTime App.defaultSettings :: rest)
  /\ (exists start,
        App.timeToCheck 0 0 (App.workStartTime App.defaultSettings)
        = Some start)
  /\ (exists rest,
        App.updateAvailableTimeSlots 0 App.defaultSettings
          [43200000; 72000000] 0
        = App.workStartTime App.defaultSettings :: rest)
  /\ App.hasAvailableSlots 0 App.defaultSettings [43200000; 72000000] 0
     = true
  /\ App.minIntervalMs App.defaultSettings
     = App.minIntervalHours App.defaultSettings * 3600000.
Proof.
  apply (valid_settings_offer_slots 0 App.defaultSettings
           [43200000; 72000000] 0).
  - apply defaultSettings_valid.
  - intros start b Hstart Hb. vm_compute in Hstart.
    injection Hstart as <-.
    destruct Hb as [<- | [<- | []]]; discriminate.
Defined.

(** With the bookings of that date at 12:00 and 20:00, the slots offered
    are 09:00, 15:00, 16:00 and 17:00. *)
Example slots_offered_around_two_bookings :
  App.updateAvailableTimeSlots 0 App.defaultSettings [43200000; 72000000] 0
  = ["09:00"; "15:00"; "16:00"; "17:00"].
Proof. vm_compute. reflexivity. Qed.

Lemma add_date_disables_today_witness :
  App.isDateDisabled 0 7200000
    (afterEvent (fun key => key) 0 App.defaultSettings (AddDate 3600000))
    [] 0 = true.
Proof.
  apply (add_date_disables_today (fun key => key) 0 3600000 7200000
           App.defaultSettings [] 0).
  reflexivity.
Defined.

(* ===================================================================== *)
(** ** The texts of the disabled dates *)
(* ===================================================================== *)

Section DateTextFacts.
Import AdminSettings.
Variable tz : Z.
Variable dateParse : string -> option Z.

Lemma append_empty (s : string) : s ++ "" = s.
Proof. induction s as [|c s IH]; simpl; [|rewrite IH]; reflexivity. Qed.

Lemma takeDigits_app (n : nat) (digits rest : string) :
  digitsOnly digits = true -> String.length digits = n ->
  JsText.takeDigits n (digits ++ rest) = Some (digits, rest).
Proof.
  intros H <-. induction digits as [|c d IH]; simpl; [reflexivity|].
  simpl in H. apply andb_true_iff in H. destruct H as [Hc Hd].
  rewrite Hc, IH by exact Hd. reflexivity.
Qed.

Lemma takeDigits_all (n : nat) (digits : string) :
  digitsOnly digits = true -> String.length digits = n ->
  JsText.takeDigits n digits = Some (digits, "").
Proof.
  intros H L. rewrite <- (append_empty digits) at 1.
  apply takeDigits_app; assumption.
Qed.

Lemma search_here {A : Type} (matchAt : string -> option A) (s : string)
    (groups : A) :
  matchAt s = Some groups -> JsText.search matchAt s = Some groups.
Proof. intros H. destruct s; simpl; rewrite H; reflexivity. Qed.

Lemma ymdAt_text (year month day : string) :
  digitsOnly year = true -> String.length year = 4%nat ->
  digitsOnly month = true -> String.length month = 2%nat ->
  digitsOnly day = true -> String.length day = 2%nat ->
  JsText.ymdAt (year ++ "-" ++ month ++ "-" ++ day)
  = Some (year, month, day).
Proof.
  intros Dy Ly Dm Lm Dd Ld. unfold JsText.ymdAt.
  rewrite (takeDigits_app 4 year) by assumption. simpl JsText.expect.
  cbv iota beta.
  rewrite (takeDigits_app 2 month) by assumption. simpl JsText.expect.
  cbv iota beta.
  rewrite (takeDigits_all 2 day) by assumption. reflexivity.
Qed.

(** One or two digits followed by a slash: the quantifier [{1,2}] settles
    on all of them. *)
Lemma one_or_two_digits {B : Type} (digits rest : string)
    (k : string * string -> option B) :
  digitsOnly digits = true ->
  String.length digits = 1%nat \/ String.length digits = 2%nat ->
  JsText.firstSome (fun n =>
    match JsText.takeDigits n (digits ++ String "/" rest) with
    | Some (group, r1) =>
        match JsText.expect "/" r1 with
        | Some r2 => k (group, r2)
        | None => None
        end
    | None => None
    end) [2%nat; 1%nat]
  = k (digits, rest).
Proof.
  intros Hd [L|L].
  - destruct digits as [|c [|c' d]]; try discriminate L.
    simpl in Hd. rewrite andb_true_r in Hd. simpl. rewrite Hd. simpl.
    destruct (k (String c "", rest)); reflexivity.
  - destruct digits as [|c [|c' [|c'' d]]]; try discriminate L.
    simpl in Hd. rewrite andb_true_r in Hd.
    apply andb_true_iff in Hd. destruct Hd as [Hc Hc'].
    simpl. rewrite Hc, Hc'. simpl.
    destruct (k (String c (String c' ""), rest)); [reflexivity|].
    destruct (Ascii.eqb_spec c' "/"); [subst c'; discriminate Hc'|].
    reflexivity.
Qed.

Lemma dmyAt_text (day month year : string) :
  digitsOnly day = true ->
  String.length day = 1%nat \/ String.length day = 2%nat ->
  digitsOnly month = true ->
  String.length month = 1%nat \/ String.length month = 2%nat ->
  digitsOnly year = true -> String.length year = 4%nat ->
  JsText.dmyAt (day ++ "/" ++ month ++ "/" ++ year)
  = Some (day, month, year).
Proof.
  intros Dd Ld Dm Lm Dy Ly. unfold JsText.dmyAt.
  change (day ++ "/" ++ month ++ "/" ++ year)
    with (day ++ String "/" (month ++ String "/" year)).
  rewrite (one_or_two_digits day (month ++ String "/" year)
             (fun '(d, r2) =>
                JsText.firstSome (fun n2 =>
                  match JsText.takeDigits n2 r2 with
                  | Some (mo, r3) =>
                      match JsText.expect "/" r3 with
                      | Some r4 =>
                          match JsText.takeDigits 4 r4 with
                          | Some (y, _) => Some (d, mo, y)
                          | None => None
                          end
                      | None => None
                      end
                  | None => None
                  end) [2%nat; 1%nat]) Dd Ld).
  cbv beta iota.
  rewrite (one_or_two_digits month year
             (fun '(mo, r4) =>
                match JsText.takeDigits 4 r4 with
                | Some (y, _) => Some (day, mo, y)
                | None => None
                end) Dm Lm).
  cbv beta iota. rewrite (takeDigits_all 4 year) by assumption. reflexivity.
Qed.

Lemma pad2_two_chars (s : string) :
  String.length s = 2%nat -> Js.padStart2 s = s.
Proof. destruct s as [|c [|c' [|c'' s]]]; try discriminate; reflexivity. Qed.

Lemma nonempty_text (s rest : string) (n : nat) :
  String.length s = S n -> exists c r, s ++ rest = String c r.
Proof. destruct s as [|c s]; [discriminate|]. intros _. simpl. eauto. Qed.

Lemma format_ymd (year month day : string) :
  digitsOnly year = true -> String.length year = 4%nat ->
  digitsOnly month = true -> String.length month = 2%nat ->
  digitsOnly day = true -> String.length day = 2%nat ->
  formatDateToDDMMYYYY tz dateParse (year ++ "-" ++ month ++ "-" ++ day)
  = day ++ "/" ++ month ++ "/" ++ year.
Proof.
  intros Dy Ly Dm Lm Dd Ld. unfold formatDateToDDMMYYYY.
  destruct (nonempty_text year ("-" ++ month ++ "-" ++ day) 3 Ly)
    as (c & r & E).
  rewrite E, <- E.
  rewrite (search_here _ _ _ (ymdAt_text year month day Dy Ly Dm Lm Dd Ld)).
  reflexivity.
Qed.

Lemma parse_dmy (day month year : string) :
  digitsOnly day = true ->
  String.length day = 1%nat \/ String.length day = 2%nat ->
  digitsOnly month = true ->
  String.length month = 1%nat \/ String.length month = 2%nat ->
  digitsOnly year = true -> String.length year = 4%nat ->
  parseDDMMYYYYToYYYYMMDD tz dateParse (day ++ "/" ++ month ++ "/" ++ year)
  = year ++ "-" ++ Js.padStart2 month ++ "-" ++ Js.padStart2 day.
Proof.
  intros Dd Ld Dm Lm Dy Ly. unfold parseDDMMYYYYToYYYYMMDD.
  assert (E : exists c r, day ++ "/" ++ month ++ "/" ++ year = String c r).
  { destruct Ld as [L|L]; eapply nonempty_text; exact L. }
  destruct E as (c & r & E). rewrite E, <- E.
  rewrite (search_here _ _ _ (dmyAt_text day month year Dd Ld Dm Lm Dy Ly)).
  reflexivity.
Qed.

Lemma date_text_round_trip_aux (year month day : string) :
  digitsOnly year = true -> String.length year = 4%nat ->
  digitsOnly month = true -> String.length month = 2%nat ->
  digitsOnly day = true -> String.length day = 2%nat ->
  formatDateToDDMMYYYY tz dateParse (year ++ "-" ++ month ++ "-" ++ day)
  = day ++ "/" ++ month ++ "/" ++ year
  /\ parseDDMMYYYYToYYYYMMDD tz dateParse
       (formatDateToDDMMYYYY tz dateParse
          (year ++ "-" ++ month ++ "-" ++ day))
     = year ++ "-" ++ month ++ "-" ++ day.
Proof.
  intros Dy Ly Dm Lm Dd Ld.
  rewrite format_ymd by assumption. split; [reflexivity|].
  rewrite parse_dmy by auto.
  rewrite !pad2_two_chars by assumption. reflexivity.
Qed.

(** X20. A stored date [yyyy-mm-dd] is shown as [dd/mm/yyyy], and that text
    reads back as the stored date: the two conversions are inverse to each
    other on such texts, whatever the runtime's own date parser does. *)
Theorem date_text_round_trip (year month day : string) :
  digitsOnly year = true -> String.length year = 4%nat ->
  digitsOnly month = true -> String.length month = 2%nat ->
  digitsOnly day = true -> String.length day = 2%nat ->
  let stored := year ++ "-" ++ month ++ "-" ++ day in
  let shown := day ++ "/" ++ month ++ "/" ++ year in
  formatDateToDDMMYYYY tz dateParse stored = shown
  /\ parseDDMMYYYYToYYYYMMDD tz dateParse shown = stored
  /\ parseDDMMYYYYToYYYYMMDD tz dateParse
       (formatDateToDDMMYYYY tz dateParse stored) = stored.
Proof.
  intros Dy Ly Dm Lm Dd Ld stored shown.
  assert (F : formatDateToDDMMYYYY tz dateParse stored = shown)
    by (apply format_ymd; assumption).
  assert (P : parseDDMMYYYYToYYYYMMDD tz dateParse shown = stored).
  { unfold shown, stored. rewrite parse_dmy by auto.
    rewrite !pad2_two_chars by assumption. reflexivity. }
  rewrite F. auto.
Qed.

(** A date typed with a one-digit day or month is stored with both
    padded to two digits. *)
Lemma typed_date_is_padded (day month year : string) :
  digitsOnly day = true ->
  String.length day = 1%nat \/ String.length day = 2%nat ->
  digitsOnly month = true ->
  String.length month = 1%nat \/ String.length month = 2%nat ->
  digitsOnly year = true -> String.length year = 4%nat ->
  parseDDMMYYYYToYYYYMMDD tz dateParse (day ++ "/" ++ month ++ "/" ++ year)
  = year ++ "-" ++ Js.padStart2 month ++ "-" ++ Js.padStart2 day
  /\ String.length (Js.padStart2 month) = 2%nat
  /\ String.length (Js.padStart2 day) = 2%nat.
Proof.
  intros Dd Ld Dm Lm Dy Ly.
  split; [apply parse_dmy; assumption|].
  split; [destruct Lm as [L|L] | destruct Ld as [L|L]];
    match goal with
    | L : String.length ?s = _ |- _ =>
        destruct s as [|c1 [|c2 [|c3 s']]]; try discriminate L; reflexivity
    end.
Qed.

Lemma civil_bounds (z : Z) :
  let '(y, m, d) := Js.civilFromDays z in 1 <= m <= 12 /\ 1 <= d <= 31.
Proof.
  unfold Js.civilFromDays. cbv zeta.
  set (z' := z + 719468).
  set (era := z' / 146097).
  set (doe := z' - era * 146097).
  assert (Hdoe : 0 <= doe < 146097).
  { unfold doe, era. pose proof (Z.div_mod z' 146097).
    pose proof (Z.mod_pos_bound z' 146097). lia. }
  clearbody doe. clear z' era.
  set (yoe := (doe - doe / 1460 + doe / 36524 - doe / 146096) / 365).
  assert (Hyoe : 0 <= yoe <= 399)
    by (unfold yoe; Z.div_mod_to_equations; lia).
  set (doy := doe - (365 * yoe + yoe / 4 - yoe / 100)).
  assert (Hdoy : 0 <= doy <= 365)
    by (unfold doy, yoe; Z.div_mod_to_equations; lia).
  clearbody doy.
  set (mp := (5 * doy + 2) / 153).
  assert (Hmp : 0 <= mp <= 11) by (unfold mp; Z.div_mod_to_equations; lia).
  split.
  - destruct (Z.ltb_spec mp 10); lia.
  - unfold mp. Z.div_mod_to_equations; lia.
Qed.

Lemma yearsHaveFourDigits_true : yearsHaveFourDigits = true.
Proof. vm_compute. reflexivity. Qed.

Lemma year_length (y : Z) :
  1000 <= y <= 9999 -> String.length (Js.toString y) = 4%nat.
Proof.
  intros Hy. pose proof yearsHaveFourDigits_true as H.
  unfold yearsHaveFourDigits in H. rewrite forallb_forall in H.
  pose proof (Z.div_mod (y - 1000) 100) as Hdm.
  pose proof (Z.mod_pos_bound (y - 1000) 100) as Hr.
  assert (Hq : 0 <= (y - 1000) / 100 < 90).
  { split; [apply Z.div_pos; lia|apply Z.div_lt_upper_bound; lia]. }
  specialize (H ((y - 1000) / 100)).
  rewrite forallb_forall in H.
  replace y with (1000 + 100 * ((y - 1000) / 100) + (y - 1000) mod 100)
    at 1 by lia.
  apply Nat.eqb_eq, H.
  - apply in_map_iff. exists (Z.to_nat ((y - 1000) / 100)).
    split; [lia|]. apply in_seq. lia.
  - apply below_100_in_range. lia.
Qed.

Lemma toString_digits (n : Z) : 0 <= n -> digitsOnly (Js.toString n) = true.
Proof.
  intros Hn. destruct (toString_nonneg n Hn) as (d & _ & E & _).
  rewrite E. apply string_of_uint_digits.
Qed.

Lemma pad2_digits (n : Z) :
  0 <= n -> digitsOnly (Js.padStart2 (Js.toString n)) = true.
Proof.
  intros Hn. destruct (toString_nonneg n Hn) as (d & Nd & E & _).
  destruct (padStart2_uint d Nd) as (d' & _ & E' & _).
  rewrite E, E'. apply string_of_uint_digits.
Qed.

(** X21. The date the Add Date button stores reads as a date again: for a
    day in the years 1000 to 9999 it is shown as [dd/mm/yyyy], and the text
    shown reads back as exactly the stored text, so editing the field
    without changing it leaves the list as it was. *)
Theorem added_date_reads_back (date : Z) :
  1000 <= Js.getFullYear tz date <= 9999 ->
  let stored := formatDateToYYYYMMDD tz date in
  formatDateToDDMMYYYY tz dateParse stored
  = Js.padStart2 (Js.toString (Js.getDate tz date)) ++ "/"
    ++ Js.padStart2 (Js.toString (Js.getMonth tz date + 1)) ++ "/"
    ++ Js.toString (Js.getFullYear tz date)
  /\ parseDDMMYYYYToYYYYMMDD tz dateParse
       (formatDateToDDMMYYYY tz dateParse stored) = stored.
Proof.
  intros Hy stored.
  pose proof (civil_bounds (Js.day (Js.localTime tz date))) as Hb.
  assert (Hm : 1 <= Js.getMonth tz date + 1 <= 12)
    by (unfold Js.getMonth; destruct (Js.civilFromDays _) as [[y m] d]; lia).
  assert (Hd : 1 <= Js.getDate tz date <= 31)
    by (unfold Js.getDate; destruct (Js.civilFromDays _) as [[y m] d]; lia).
  clear Hb.
  apply (date_text_round_trip_aux
           (Js.toString (Js.getFullYear tz date))
           (Js.padStart2 (Js.toString (Js.getMonth tz date + 1)))
           (Js.padStart2 (Js.toString (Js.getDate tz date)))).
  - apply toString_digits. lia.
  - apply year_length, Hy.
  - apply pad2_digits. lia.
  - apply pad2_length. lia.
  - apply pad2_digits. lia.
  - apply pad2_length. lia.
Qed.

End DateTextFacts.

Lemma date_text_round_trip_witness :
  AdminSettings.formatDateToDDMMYYYY 0 (fun _ => None) "2025-02-19"
  = "19/02/2025"
  /\ AdminSettings.parseDDMMYYYYToYYYYMMDD 0 (fun _ => None) "19/02/2025"
     = "2025-02-19"
  /\ AdminSettings.parseDDMMYYYYToYYYYMMDD 0 (fun _ => None)
       (AdminSettings.formatDateToDDMMYYYY 0 (fun _ => None) "2025-02-19")
     = "2025-02-19".
Proof.
  apply (date_text_round_trip 0 (fun _ => None) "2025" "02" "19");
    reflexivity.
Defined.

Lemma added_date_reads_back_witness :
  AdminSettings.formatDateToDDMMYYYY 0 (fun _ => None)
    (AdminSettings.formatDateToYYYYMMDD 0 1739923200000)
  = Js.padStart2 (Js.toString (Js.getDate 0 1739923200000)) ++ "/"
    ++ Js.padStart2 (Js.toString (Js.getMonth 0 1739923200000 + 1)) ++ "/"
    ++ Js.toString (Js.getFullYear 0 1739923200000)
  /\ AdminSettings.parseDDMMYYYYToYYYYMMDD 0 (fun _ => None)
       (AdminSettings.formatDateToDDMMYYYY 0 (fun _ => None)
          (AdminSettings.formatDateToYYYYMMDD 0 1739923200000))
     = AdminSettings.formatDateToYYYYMMDD 0 1739923200000.
Proof.
  apply (added_date_reads_back 0 (fun _ => None) 1739923200000).
  vm_compute. split; discriminate.
Defined.

(** The pattern is not anchored: digits around a date are left out, and a
    text that holds no date and that the runtime cannot read is kept. *)
Example parse_examples :
  AdminSettings.parseDDMMYYYYToYYYYMMDD 0 (fun _ => None) "1/2/2025"
  = "2025-02-01"
  /\ AdminSettings.parseDDMMYYYYToYYYYMMDD 0 (fun _ => None) "on 19/2/20251"
     = "2025-02-19"
  /\ AdminSettings.parseDDMMYYYYToYYYYMMDD 0 (fun _ => None) "123/4/2025"
     = "2025-04-23"
  /\ AdminSettings.parseDDMMYYYYToYYYYMMDD 0 (fun _ => None) "tomorrow"
     = "tomorrow"
  /\ AdminSettings.parseDDMMYYYYToYYYYMMDD 0 (fun _ => None) "" = "".
Proof. vm_compute. repeat split. Qed.

(* ===================================================================== *)
(** ** The table of bookings of the admin screen *)
(* ===================================================================== *)

Section AdminBookingFacts.
Import AdminBookings.

Lemma Field_eqb_eq (a b : Field) : Field_eqb a b = true <-> a = b.
Proof. destruct a, b; simpl; split; intros H; congruence. Qed.

Lemma Field_eqb_refl (a : Field) : Field_eqb a a = true.
Proof. apply Field_eqb_eq. reflexivity. Qed.

(** X22. Clicking the header of a column always sorts by that column; the
    first click on a new column sorts ascending, and further clicks on the
    same header switch between the two directions, so a third click gives
    what the first gave. *)
Theorem handleSort_cycles (st : SortState) (column : Field) :
  sortColumn (handleSort st column) = Some column
  /\ (sortColumn st <> Some column ->
      sortDirection (handleSort st column) = asc)
  /\ sortDirection (handleSort (handleSort st column) column)
     <> sortDirection (handleSort st column)
  /\ handleSort (handleSort (handleSort st column) column) column
     = handleSort st column.
Proof.
  destruct st as [[current|] direction]; unfold handleSort; simpl.
  - destruct (Field_eqb current column) eqn:E; simpl.
    + apply Field_eqb_eq in E. subst current.
      rewrite !Field_eqb_refl. simpl. rewrite !Field_eqb_refl.
      destruct direction; simpl; repeat split; congruence.
    + rewrite !Field_eqb_refl. simpl. rewrite !Field_eqb_refl.
      repeat split; congruence.
  - rewrite !Field_eqb_refl. simpl. rewrite !Field_eqb_refl.
    repeat split; congruence.
Qed.

(** X23. A pending edit is what the cell shows: after [handleFieldChange]
    the field of that booking reads as the value typed, while its other
    fields and the other bookings read as before; once the edit is cleared
    the field reads as the stored value again, the other pending edits of
    the booking staying. *)
Theorem pending_edit_round_trip
    (edits : EditedFields) (booking other : Booking)
    (field field' : Field) (value : Value) :
  field' <> field ->
  idOf other <> idOf booking ->
  let changed := handleFieldChange edits (idOf booking) field value in
  let cleared := clearEditedField changed (idOf booking) field in
  getFieldValue changed booking field = value
  /\ getFieldValue changed booking field' = getFieldValue edits booking field'
  /\ (forall f, getFieldValue changed other f = getFieldValue edits other f)
  /\ getFieldValue cleared booking field = booking field
  /\ getFieldValue cleared booking field' = getFieldValue edits booking field'
  /\ (forall f, getFieldValue cleared other f = getFieldValue edits other f).
Proof.
  intros Hf Hid changed cleared.
  assert (Ef : Field_eqb field' field = false).
  { apply not_true_is_false. intros E. apply Field_eqb_eq in E. auto. }
  assert (Eid : String.eqb (idOf other) (idOf booking) = false)
    by (apply String.eqb_neq; exact Hid).
  unfold cleared, changed, getFieldValue, clearEditedField, handleFieldChange.
  rewrite !String.eqb_refl, !Field_eqb_refl, Ef, Eid.
  repeat split; try reflexivity;
    destruct (edits (idOf booking)); reflexivity.
Qed.

Section WithHandlers.
Variables (t : string -> string) (dateParse : string -> option Z)
          (fetchOk updateOk : bool) (current_timestamp : Z).

Lemma fetchBookings_table (w : World) :
  table (fetchBookings t fetchOk w) = table w.
Proof. unfold fetchBookings. destruct fetchOk; reflexivity. Qed.

Lemma otherRowsKept_refl (id : string) (rows : list StoredRow) :
  otherRowsKept id rows rows.
Proof.
  unfold otherRowsKept. induction rows; constructor; auto.
Qed.

Lemma otherRowsKept_update (id : string) (change : StoredRow -> StoredRow)
    (rows : list StoredRow) :
  otherRowsKept id rows (updateWhereId current_timestamp id change rows).
Proof.
  unfold otherRowsKept, updateWhereId.
  induction rows as [|r rows IH]; simpl; constructor; [|exact IH].
  intros Hid. apply String.eqb_neq in Hid. rewrite Hid. reflexivity.
Qed.

(** X24. Nothing the admin screen does to a booking adds or removes a row
    or touches a row with another id: saving a field, switching the
    status and deleting all leave the table with the same number of rows
    and every other row exactly as it was, whatever the requests answer. *)
Theorem admin_updates_keep_other_rows
    (w : World) (id : string) (field : Field) (directValue : option Value)
    (completed confirmed : bool) (now : Z) :
  otherRowsKept id (table w)
    (table (saveField t dateParse fetchOk updateOk current_timestamp
                      id field directValue w))
  /\ otherRowsKept id (table w)
       (table (updateBookingStatus t fetchOk updateOk current_timestamp
                                   id completed w))
  /\ otherRowsKept id (table w)
       (table (deleteBooking t fetchOk updateOk current_timestamp
                             confirmed now id w)).
Proof.
  split; [|split].
  - unfold saveField.
    destruct directValue as [v|]; [|destruct (editedFields w id) as [e|];
      [destruct (e field) as [v|]|]]; try apply otherRowsKept_refl;
      (destruct (updateData dateParse field v);
       [destruct updateOk|]; try apply otherRowsKept_refl;
       rewrite fetchBookings_table; apply otherRowsKept_update).
  - unfold updateBookingStatus. destruct updateOk;
      [rewrite fetchBookings_table; apply otherRowsKept_update
      |apply otherRowsKept_refl].
  - unfold deleteBooking. destruct confirmed, updateOk;
      try apply otherRowsKept_refl.
    rewrite fetchBookings_table. apply otherRowsKept_update.
Qed.

Lemma columnWritten_update (id : string) (field : Field) (written : Value)
    (rows : list StoredRow) :
  columnWritten current_timestamp id field written rows
    (updateWhereId current_timestamp id (setColumn field written) rows).
Proof.
  unfold columnWritten, updateWhereId.
  induction rows as [|r rows IH]; simpl; constructor; [|exact IH].
  destruct (String.eqb (idOf (row r)) id); [|reflexivity].
  split; reflexivity.
Qed.

(** X25. A save that goes through writes one column, and the trigger of
    the table stamps the row: with a value to save (an empty city as
    [null], a date text as the instant it reads as), an accepted update
    and an answered fetch, the rows with that id hold the value in that
    column and the clock of the database in [updated_at] (the clock wins
    when [updated_at] is the column saved), and nothing else changes in
    the table; the success toast of the field is shown; the list shows the
    rows that are not deleted; and no pending edit of any booking is
    left. *)
Theorem saveField_writes_column_and_stamp
    (w : World) (id : string) (field : Field) (directValue : option Value)
    (value written : Value) :
  valueToSave w id field directValue = Some value ->
  updateData dateParse field value = Some written ->
  updateOk = true ->
  fetchOk = true ->
  let w' := saveField t dateParse fetchOk updateOk current_timestamp
                      id field directValue w in
  columnWritten current_timestamp id field written (table w) (table w')
  /\ toasts w' = (toasts w ++ [ToastSuccess (getFieldUpdateMessage t field)])%list
  /\ bookings w' = map row (filter isLive (table w'))
  /\ (forall booking f, getFieldValue (editedFields w') booking f = booking f)
  /\ loading w' = false.
Proof.
  intros Hvalue Hdata Hup Hfetch w'.
  assert (E : w' = fetchBookings t fetchOk
                     (toast (ToastSuccess (getFieldUpdateMessage t field))
                        (mkWorld (updateWhereId current_timestamp id
                                    (setColumn field written) (table w))
                                 (bookings w)
                                 (clearEditedField (editedFields w) id field)
                                 (loading w) (toasts w)))).
  { unfold w', saveField. unfold valueToSave in Hvalue.
    rewrite Hvalue, Hdata, Hup. reflexivity. }
  rewrite E. unfold fetchBookings. rewrite Hfetch. simpl.
  split; [apply columnWritten_update|].
  split; [reflexivity|]. split; [reflexivity|]. split; [|reflexivity].
  intros booking f. unfold getFieldValue.
  destruct (existsb _ _); reflexivity.
Qed.

(** X26. A save that does not go through changes nothing that is stored or
    pending: with nothing to save [saveField] does nothing at all, and
    when the date text cannot be read or the update is refused it only
    shows the error toast, the pending edit staying in the cell. *)
Theorem saveField_failure_keeps_everything
    (w : World) (id : string) (field : Field) (directValue : option Value) :
  match valueToSave w id field directValue with
  | None => True
  | Some value => updateData dateParse field value = None \/ updateOk = false
  end ->
  saveField t dateParse fetchOk updateOk current_timestamp
            id field directValue w
  = match valueToSave w id field directValue with
    | None => w
    | Some _ => toast (ToastError (t "updateError")) w
    end.
Proof.
  unfold saveField, valueToSave.
  destruct (match directValue with
            | Some v => Some v
            | None => match editedFields w id with
                      | Some edits => edits field
                      | None => None
                      end
            end) as [value|]; [|reflexivity].
  intros [H|H]; rewrite H; [reflexivity|].
  destruct (updateData dateParse field value); reflexivity.
Qed.

Lemma softDeleted_update (id : string) (now : Z) (rows : list StoredRow) :
  softDeleted current_timestamp now id rows
    (updateWhereId current_timestamp id
       (fun r => mkStoredRow (row r) (Some now)) rows).
Proof.
  unfold softDeleted, updateWhereId.
  induction rows as [|r rows IH]; simpl; constructor; [|exact IH].
  destruct (String.eqb (idOf (row r)) id); [|reflexivity].
  split; reflexivity.
Qed.

(** X27. Deleting is soft: a confirmed and accepted delete removes no row;
    on the rows with that id it sets [deleted_at] to the clock of the
    browser, the trigger of the table sets [updated_at] to the clock of the
    database, and no other booking data change; the other rows are as
    before; after the fetch the list shows no booking with that id, and
    every booking it shows was in the table before. *)
Theorem deleteBooking_is_soft (w : World) (id : string) (now : Z) :
  updateOk = true ->
  fetchOk = true ->
  let w' := deleteBooking t fetchOk updateOk current_timestamp true now
                          id w in
  softDeleted current_timestamp now id (table w) (table w')
  /\ (forall r, In r (table w') -> idOf (row r) = id ->
                row_deleted_at r = Some now)
  /\ (forall booking, In booking (bookings w') ->
        idOf booking <> id
        /\ exists r, In r (table w) /\ row r = booking /\ isLive r = true)
  /\ toasts w' = (toasts w ++ [ToastSuccess (t "bookingDeleted")])%list.
Proof.
  intros Hup Hfetch w'. unfold w', deleteBooking, fetchBookings.
  rewrite Hup, Hfetch. simpl.
  split; [apply softDeleted_update|].
  split; [|split; [|reflexivity]].
  - intros r Hr Hid. unfold updateWhereId in Hr. apply in_map_iff in Hr.
    destruct Hr as (r0 & Er & _).
    destruct (String.eqb (idOf (row r0)) id) eqn:E; subst r; [reflexivity|].
    apply String.eqb_neq in E. contradiction.
  - intros booking Hb. apply in_map_iff in Hb.
    destruct Hb as (r' & <- & Hr'). apply filter_In in Hr'.
    destruct Hr' as [Hin Hlive]. unfold updateWhereId in Hin.
    apply in_map_iff in Hin. destruct Hin as (r0 & Er & Hin0).
    destruct (String.eqb (idOf (row r0)) id) eqn:E; subst r'.
    + discriminate Hlive.
    + split; [apply String.eqb_neq; exact E|].
      exists r0. auto.
Qed.

(** A declined or refused delete: nothing is stamped. *)
Lemma deleteBooking_declined (w : World) (id : string) (now : Z) :
  deleteBooking t fetchOk updateOk current_timestamp false now id w = w
  /\ (updateOk = false ->
      deleteBooking t fetchOk updateOk current_timestamp true now id w
      = toast (ToastError (t "deleteError")) w).
Proof. split; [reflexivity|]. intros H. unfold deleteBooking. rewrite H. reflexivity. Qed.

End WithHandlers.

End AdminBookingFacts.

Lemma pending_edit_round_trip_witness :
  let booking : AdminBookings.Booking :=
    fun f => match f with
             | AdminBookings.Col_id => AdminBookings.VText "a"
             | _ => AdminBookings.VText "stored"
             end in
  let other : AdminBookings.Booking := fun _ => AdminBookings.VText "b" in
  let changed :=
    AdminBookings.handleFieldChange AdminBookings.noEdits "a"
      AdminBookings.Col_phone (AdminBookings.VText "050") in
  let cleared :=
    AdminBookings.clearEditedField changed "a" AdminBookings.Col_phone in
  AdminBookings.getFieldValue changed booking AdminBookings.Col_phone
  = AdminBookings.VText "050"
  /\ AdminBookings.getFieldValue changed booking AdminBookings.Col_city
     = AdminBookings.getFieldValue AdminBookings.noEdits booking
         AdminBookings.Col_city
  /\ (forall f, AdminBookings.getFieldValue changed other f
                = AdminBookings.getFieldValue AdminBookings.noEdits other f)
  /\ AdminBookings.getFieldValue cleared booking AdminBookings.Col_phone
     = booking AdminBookings.Col_phone
  /\ AdminBookings.getFieldValue cleared booking AdminBookings.Col_city
     = AdminBookings.getFieldValue AdminBookings.noEdits booking
         AdminBookings.Col_city
  /\ (forall f, AdminBookings.getFieldValue cleared other f
                = AdminBookings.getFieldValue AdminBookings.noEdits other f).
Proof.
  intros booking other.
  apply (pending_edit_round_trip AdminBookings.noEdits booking other
           AdminBookings.Col_phone AdminBookings.Col_city
           (AdminBookings.VText "050")); discriminate.
Defined.

Lemma saveField_writes_column_and_stamp_witness :
  let booking : AdminBookings.Booking :=
    fun f => match f with
             | AdminBookings.Col_id => AdminBookings.VText "a"
             | _ => AdminBookings.VText "stored"
             end in
  let w := AdminBookings.mkWorld [AdminBookings.mkStoredRow booking None]
             [booking] AdminBookings.noEdits true [] in
  let w' := AdminBookings.saveField (fun key => key) (fun _ => None) true true
              1700000000000 "a" AdminBookings.Col_city
              (Some (AdminBookings.VText "")) w in
  columnWritten 1700000000000 "a" AdminBookings.Col_city AdminBookings.VNull
    (AdminBookings.table w) (AdminBookings.table w')
  /\ AdminBookings.toasts w'
     = ([] ++ [AdminBookings.ToastSuccess
                 (AdminBookings.getFieldUpdateMessage (fun key => key)
                    AdminBookings.Col_city)])%list
  /\ AdminBookings.bookings w'
     = map AdminBookings.row
         (filter AdminBookings.isLive (AdminBookings.table w'))
  /\ (forall b f,
        AdminBookings.getFieldValue (AdminBookings.editedFields w') b f = b f)
  /\ AdminBookings.loading w' = false.
Proof.
  intros booking w.
  apply (saveField_writes_column_and_stamp (fun key => key) (fun _ => None)
           true true 1700000000000 w "a" AdminBookings.Col_city
           (Some (AdminBookings.VText "")) (AdminBookings.VText "")
           AdminBookings.VNull); reflexivity.
Defined.

(** The row after that save, column by column. *)
Example saved_row_columns :
  let booking : AdminBookings.Booking :=
    fun f => match f with
             | AdminBookings.Col_id => AdminBookings.VText "a"
             | _ => AdminBookings.VText "stored"
             end in
  let w := AdminBookings.mkWorld [AdminBookings.mkStoredRow booking None]
             [booking] AdminBookings.noEdits true [] in
  let w' := AdminBookings.saveField (fun key => key) (fun _ => None) true true
              1700000000000 "a" AdminBookings.Col_city
              (Some (AdminBookings.VText "")) w in
  map (fun r => (AdminBookings.row r AdminBookings.Col_city,
                 AdminBookings.row r AdminBookings.Col_updated_at,
                 AdminBookings.row r AdminBookings.Col_phone))
      (AdminBookings.table w')
  = [(AdminBookings.VNull, AdminBookings.VTime 1700000000000,
      AdminBookings.VText "stored")].
Proof. reflexivity. Qed.

Lemma saveField_failure_keeps_everything_witness :
  let w := AdminBookings.mkWorld [] []
             (AdminBookings.handleFieldChange AdminBookings.noEdits "a"
                AdminBookings.Col_appointment_date
                (AdminBookings.VText "soon"))
             false [] in
  AdminBookings.saveField (fun key => key) (fun _ => None) true true
    1700000000000 "a" AdminBookings.Col_appointment_date None w
  = AdminBookings.toast (AdminBookings.ToastError "updateError") w.
Proof.
  intros w.
  apply (saveField_failure_keeps_everything (fun key => key) (fun _ => None)
           true true 1700000000000 w "a" AdminBookings.Col_appointment_date
           None).
  left. reflexivity.
Defined.

Lemma deleteBooking_is_soft_witness :
  let booking : AdminBookings.Booking := fun _ => AdminBookings.VText "a" in
  let w := AdminBookings.mkWorld [AdminBookings.mkStoredRow booking None]
             [booking] AdminBookings.noEdits false [] in
  let w' := AdminBookings.deleteBooking (fun key => key) true true
              1700000000000 true 7 "a" w in
  softDeleted 1700000000000 7 "a" (AdminBookings.table w)
    (AdminBookings.table w')
  /\ (forall r, In r (AdminBookings.table w') ->
                AdminBookings.idOf (AdminBookings.row r) = "a" ->
                AdminBookings.row_deleted_at r = Some 7)
  /\ (forall b, In b (AdminBookings.bookings w') ->
        AdminBookings.idOf b <> "a"
        /\ exists r, In r (AdminBookings.table w)
                     /\ AdminBookings.row r = b
                     /\ AdminBookings.isLive r = true)
  /\ AdminBookings.toasts w'
     = ([] ++ [AdminBookings.ToastSuccess "bookingDeleted"])%list.
Proof.
  intros booking w.
  apply (deleteBooking_is_soft (fun key => key) true true 1700000000000
           w "a" 7); reflexivity.
Defined.

(* ===================================================================== *)
(** ** The booking number given by the table *)
(* ===================================================================== *)

Section BookingNumberFacts.
Import BookingNumber.
Variables (today : string) (random countToday : nat -> Z)
          (taken : nat -> string -> bool) (uuid : string).

Let candidateOf := candidate today random countToday.

Lemma text_append_assoc (a b c : string) : (a ++ b) ++ c = a ++ b ++ c.
Proof. induction a as [|x a IH]; simpl; [|rewrite IH]; reflexivity. Qed.

Lemma attempts_spec (remaining start : nat) :
  match attempts today random countToday taken remaining start with
  | Some number =>
      exists k, (start <= k < start + remaining)%nat
                /\ number = candidateOf k
                /\ taken k (candidateOf k) = false
                /\ forall j, (start <= j < k)%nat ->
                             taken j (candidateOf j) = true
  | None =>
      forall k, (start <= k < start + remaining)%nat ->
                taken k (candidateOf k) = true
  end.
Proof.
  revert start. induction remaining as [|n IH]; intros start; simpl.
  - intros k Hk. lia.
  - fold candidateOf. destruct (taken start (candidateOf start)) eqn:E.
    + specialize (IH (S start)).
      destruct (attempts today random countToday taken n (S start)).
      * destruct IH as (k & Hk & Hn & Hfree & Hbefore).
        exists k. repeat split; try assumption; try lia.
        intros j Hj. destruct (Nat.eq_dec j start) as [->|Hne];
          [exact E | apply Hbefore; lia].
      * intros k Hk. destruct (Nat.eq_dec k start) as [->|Hne];
          [exact E | apply IH; lia].
    + exists start. repeat split; try assumption; lia.
Qed.

(** X28. The booking number the trigger gives a new row is the first of at
    most ten candidates that the look-up does not find in the table; only
    when all ten are found is it the date prefix with the first eight
    characters of a UUID, which is not looked up.  Either way it begins
    with [BK-], the date and a dash. *)
Theorem booking_number_is_first_free_candidate :
  let number := generate_booking_number today random countToday taken uuid in
  ((exists k, (k < 10)%nat
              /\ number = candidateOf k
              /\ taken k number = false
              /\ forall j, (j < k)%nat -> taken j (candidateOf j) = true)
   \/ ((forall k, (k < 10)%nat -> taken k (candidateOf k) = true)
       /\ number = "BK-" ++ today ++ "-" ++ substring 0 8 uuid))
  /\ exists rest, number = "BK-" ++ today ++ "-" ++ rest.
Proof.
  intros number. unfold number, generate_booking_number, max_attempts.
  pose proof (attempts_spec 10 0) as H.
  destruct (attempts today random countToday taken 10 0) as [n|].
  - destruct H as (k & Hk & Hn & Hfree & Hbefore). split.
    + left. exists k. subst n. repeat split; try assumption; try lia.
      intros j Hj. apply Hbefore. lia.
    + subst n. unfold candidateOf, candidate, base_number. cbv zeta.
      eexists. rewrite text_append_assoc. reflexivity.
  - split.
    + right. split; [|reflexivity]. intros k Hk. apply H. lia.
    + eexists. reflexivity.
Qed.

End BookingNumberFacts.

(* ===================================================================== *)
(** ** The edge function and its client *)
(* ===================================================================== *)

Section EdgeFunctionFacts.
Import SendSmsFunction.
Variables (trim removeSpaces : string -> string).

Let handle := handler trim removeSpaces.

(** The answer of the function and what the reading of [sendSMS] makes of
    its body. *)
Lemma function_answer_read_as_data
    (env : Env) (req : Request) (twilio : TwilioCall) :
  method req <> "OPTIONS" ->
  let response := handle env req twilio in
  (status response = 200
   <-> missingVars env = []
       /\ exists requestData twilioData,
            json req = Resolved requestData
            /\ truthy (rd_phone requestData) = true
            /\ truthy (rd_message requestData) = true
            /\ twilio = Answers true (Resolved twilioData))
  /\ TwilioSender.success
       (TwilioSender.interpret
          (TwilioSender.mkInvokeResult (asData (body response)) None))
     = (status response =? 200)
  /\ (status response <> 200 ->
      exists e fields, body response = Json fields
                       /\ error fields = Some e /\ e <> "").
Proof.
  intros Hm response. unfold response, handle, handler.
  apply String.eqb_neq in Hm. rewrite Hm.
  destruct (missingVars env) as [|v vs] eqn:Emiss.
  2:{ split; [split; [discriminate|intros [H _]; discriminate H]|].
      split; [reflexivity|]. intros _. do 2 eexists.
      split; [reflexivity|]. split; [reflexivity|discriminate]. }
  destruct (json req) as [rd|e] eqn:Ej.
  2:{ split; [split; [discriminate|intros (_ & rd & td & H & _);
                                    discriminate H]|].
      split; [reflexivity|]. intros _. do 2 eexists.
      split; [reflexivity|]. split; [reflexivity|discriminate]. }
  destruct (truthy (rd_phone rd)) eqn:Ep; simpl.
  2:{ split; [split; [discriminate|intros (_ & rd' & td & [= <-] & H & _);
                                    congruence]|].
      split; [reflexivity|]. intros _. do 2 eexists.
      split; [reflexivity|]. split; [reflexivity|discriminate]. }
  destruct (truthy (rd_message rd)) eqn:Emsg; simpl.
  2:{ split; [split; [discriminate
                     |intros (_ & rd' & td & [= <-] & _ & H & _); congruence]|].
      split; [reflexivity|]. intros _. do 2 eexists.
      split; [reflexivity|]. split; [reflexivity|discriminate]. }
  destruct twilio as [e|[|] [td|e]].
  - split; [split; [discriminate|intros (_ & rd' & td & _ & _ & _ & H);
                                 discriminate H]|].
    split; [reflexivity|]. intros _. do 2 eexists.
    split; [reflexivity|]. split; [reflexivity|discriminate].
  - split; [split; [intros _; split; [reflexivity|]; exists rd, td; auto
                   |reflexivity]|].
    split; [reflexivity|]. intros H. exfalso. apply H. reflexivity.
  - split; [split; [discriminate|intros (_ & rd' & td & _ & _ & _ & H);
                                 discriminate H]|].
    split; [reflexivity|]. intros _. do 2 eexists.
    split; [reflexivity|]. split; [reflexivity|discriminate].
  - destruct (includes "not a Twilio phone number"
                (Js.orElse (tw_message td) "Error sending SMS via Twilio"));
      (split; [split; [discriminate|intros (_ & rd' & td' & _ & _ & _ & H);
                                    discriminate H]|];
       split; [reflexivity|]; intros _; do 2 eexists;
       split; [reflexivity|]; split; [reflexivity|discriminate]).
  - split; [split; [discriminate|intros (_ & rd' & td & _ & _ & _ & H);
                                 discriminate H]|].
    split; [reflexivity|]. intros _. do 2 eexists.
    split; [reflexivity|]. split; [reflexivity|discriminate].
Qed.

(** X29. The function answers 200 to a request that is not a preflight
    exactly when the three secrets are set, the body is read and has a
    phone and a message, and Twilio answers [ok] with a body that is read;
    and the client agrees with it: whether [sendSMS] is handed the body of
    the answer as [data], or an [error] in place of an answer other than
    200, it reports success exactly for the 200 answer.  Every other answer
    carries an error text that is not empty. *)
Theorem function_and_client_agree
    (env : Env) (req : Request) (twilio : TwilioCall) :
  method req <> "OPTIONS" ->
  let response := handle env req twilio in
  (status response = 200
   <-> missingVars env = []
       /\ exists requestData twilioData,
            json req = Resolved requestData
            /\ truthy (rd_phone requestData) = true
            /\ truthy (rd_message requestData) = true
            /\ twilio = Answers true (Resolved twilioData))
  /\ (forall r : TwilioSender.InvokeResult,
        r = TwilioSender.mkInvokeResult (asData (body response)) None
        \/ (status response <> 200 /\ TwilioSender.error r <> None) ->
        TwilioSender.success (TwilioSender.interpret r)
        = (status response =? 200))
  /\ (status response <> 200 ->
      exists e fields, body response = Json fields
                       /\ error fields = Some e /\ e <> "").
Proof.
  intros Hm response.
  destruct (function_answer_read_as_data env req twilio Hm)
    as (Hstatus & Hdata & Herror).
  fold response in Hstatus, Hdata, Herror.
  split; [exact Hstatus|]. split; [|exact Herror].
  intros r [-> | [Hnot Herr]]; [exact Hdata|].
  apply Z.eqb_neq in Hnot. rewrite Hnot.
  unfold TwilioSender.interpret.
  destruct (TwilioSender.error r); [reflexivity|].
  exfalso. apply Herr. reflexivity.
Qed.

(** X30. Twilio is only called for a complete request on a configured
    function: with a secret missing, a body that cannot be read, or a phone
    or message missing, the answer is the same whatever the Twilio call
    would do. *)
Theorem twilio_called_only_for_complete_requests
    (env : Env) (req : Request) (twilio twilio' : TwilioCall) :
  missingVars env <> []
  \/ (exists e, json req = Rejected e)
  \/ (exists requestData,
        json req = Resolved requestData
        /\ (truthy (rd_phone requestData) = false
            \/ truthy (rd_message requestData) = false)) ->
  handle env req twilio = handle env req twilio'.
Proof.
  intros H. unfold handle, handler.
  destruct (String.eqb (method req) "OPTIONS"); [reflexivity|].
  destruct (missingVars env) as [|v vs]; [|reflexivity].
  destruct H as [H|[(e & H)|(rd & H & Hf)]]; [congruence| |];
    rewrite H; [reflexivity|].
  destruct Hf as [Hf|Hf]; rewrite Hf; simpl; [reflexivity|].
  rewrite orb_true_r. reflexivity.
Qed.

(** A request built by [sendSMS] with a message that is not empty
    always passes the check of the parameters: its phone is never empty,
    so the function does not answer that parameters are missing. *)
Lemma client_request_has_its_parameters
    (env : Env) (twilio : TwilioCall) (how phone message : string) :
  message <> "" ->
  let sent := TwilioSender.smsRequest phone message in
  let response :=
    handle env
      (mkRequest how
         (Resolved (mkRequestData (Some (TwilioSender.req_phone sent))
                                  (Some (TwilioSender.req_message sent)))))
      twilio in
  forall fields, body response = Json fields ->
                 error fields <> Some "Missing required parameters".
Proof.
  intros Hm sent response fields. unfold response, handle, handler, sent.
  simpl. rewrite formatPhone_plus_digits.
  destruct (String.eqb how "OPTIONS"); [discriminate|].
  destruct (missingVars env) as [|v vs]; [|intros [= <-]; discriminate].
  destruct message as [|c m]; [congruence|]. simpl.
  destruct twilio as [e|[|] [td|e]]; try (intros [= <-]; discriminate).
  destruct (includes _ _); intros [= <-]; discriminate.
Qed.

End EdgeFunctionFacts.

Lemma function_and_client_agree_witness :
  let env := SendSmsFunction.mkEnv (Some "AC1") (Some "token") (Some "+1555") in
  let req := SendSmsFunction.mkRequest "POST"
               (SendSmsFunction.Resolved
                  (SendSmsFunction.mkRequestData (Some "+97250") (Some "hi"))) in
  let twilio := SendSmsFunction.Answers true
                  (SendSmsFunction.Resolved
                     (SendSmsFunction.mkTwilioData None (Some "SM1")
                                                   (Some "queued"))) in
  let response := SendSmsFunction.handler (fun s => s) (fun s => s) env req
                    twilio in
  (SendSmsFunction.status response = 200
   <-> SendSmsFunction.missingVars env = []
       /\ exists requestData twilioData,
            SendSmsFunction.json req = SendSmsFunction.Resolved requestData
            /\ SendSmsFunction.truthy (SendSmsFunction.rd_phone requestData)
               = true
            /\ SendSmsFunction.truthy (SendSmsFunction.rd_message requestData)
               = true
            /\ twilio = SendSmsFunction.Answers true
                          (SendSmsFunction.Resolved twilioData))
  /\ (forall r : TwilioSender.InvokeResult,
        r = TwilioSender.mkInvokeResult
              (SendSmsFunction.asData (SendSmsFunction.body response)) None
        \/ (SendSmsFunction.status response <> 200
            /\ TwilioSender.error r <> None) ->
        TwilioSender.success (TwilioSender.interpret r)
        = (SendSmsFunction.status response =? 200))
  /\ (SendSmsFunction.status response <> 200 ->
      exists e fields,
        SendSmsFunction.body response = SendSmsFunction.Json fields
        /\ SendSmsFunction.error fields = Some e /\ e <> "").
Proof.
  intros env req twilio.
  apply (function_and_client_agree (fun s => s) (fun s => s) env req twilio).
  discriminate.
Defined.

Lemma twilio_called_only_for_complete_requests_witness :
  let env := SendSmsFunction.mkEnv (Some "AC1") None (Some "+1555") in
  let req := SendSmsFunction.mkRequest "POST"
               (SendSmsFunction.Resolved
                  (SendSmsFunction.mkRequestData (Some "+97250") (Some "hi"))) in
  SendSmsFunction.handler (fun s => s) (fun s => s) env req
    (SendSmsFunction.FetchFails SendSmsFunction.OtherThrown)
  = SendSmsFunction.handler (fun s => s) (fun s => s) env req
      (SendSmsFunction.Answers true
         (SendSmsFunction.Resolved
            (SendSmsFunction.mkTwilioData None (Some "SM1") None))).
Proof.
  intros env req.
  apply (twilio_called_only_for_complete_requests (fun s => s) (fun s => s)
           env req).
  left. discriminate.
Defined.

(** The answers of the function, one of each kind. *)
Example function_answers :
  let run := SendSmsFunction.handler (fun s => s) (fun s => s) in
  let env := SendSmsFunction.mkEnv (Some "AC1") (Some "token") (Some "+1555") in
  let post d := SendSmsFunction.mkRequest "POST" (SendSmsFunction.Resolved d) in
  let full := post (SendSmsFunction.mkRequestData (Some "+97250") (Some "hi")) in
  let refused m := SendSmsFunction.Answers false
                     (SendSmsFunction.Resolved
                        (SendSmsFunction.mkTwilioData m None None)) in
  SendSmsFunction.status
    (run env (SendSmsFunction.mkRequest "OPTIONS"
                (SendSmsFunction.Rejected SendSmsFunction.OtherThrown))
         (refused None)) = 200
  /\ SendSmsFunction.status
       (run (SendSmsFunction.mkEnv None (Some "") (Some "+1555")) full
            (refused None)) = 500
  /\ SendSmsFunction.status
       (run env (post (SendSmsFunction.mkRequestData (Some "+97250") None))
            (refused None)) = 400
  /\ SendSmsFunction.status
       (run env full
            (refused (Some "The number is not a Twilio phone number.")))
     = 400
  /\ SendSmsFunction.status (run env full (refused (Some "Unverified"))) = 500
  /\ SendSmsFunction.missingVars
       (SendSmsFunction.mkEnv None (Some "") (Some "+1555"))
     = ["TWILIO_ACCOUNT_SID"; "TWILIO_AUTH_TOKEN"].
Proof. vm_compute. repeat split. Qed.
